(** * servercn.py: the report cache and the report extraction of the
      Trade-Helper demo, embedded in Rocq.

    The embedding follows [servercn.py] function by function.

    - Python [str] values are sequences of Unicode code points: [list N].
      [py "..."] turns a Rocq string literal into such a sequence.
    - Values that come back from [json.loads], and the fields of the chat
      result, are [json] values; [json_dumps] is [json.dumps(_, indent=4)]
      and [json_loads] is [json.loads] (recursive descent, as in
      [json.decoder] and [json.scanner]).
    - Exceptions are explicit: a computation returns [Ok v] or [Raise e].
    - The process state is a [World]: the files of the working directory,
      the current date, and the log of the calls made to
      [user_proxy.initiate_chat].  The chat itself (autogen, the language
      model and the tools) is outside the source file; it enters as a
      function from the log and the message to a chat result or a failure.
    - What the platform decides enters as parameters: which file names can be
      opened for writing, which texts the locale can encode, and
      [str.upper] outside ASCII.  Files are written as on POSIX (no newline
      translation on output); [print] is not modelled; files of the store
      are readable text files. *)

From Stdlib Require Import NArith Ascii String List Lia Bool.
From stdpp Require Import base option list gmap strings.

Local Open Scope N_scope.

(** ** Python strings *)

Abbreviation str := (list N).

Definition py (s : string) : str :=
  map N_of_ascii (list_ascii_of_string s).

(** [s.startswith(p)] *)
Fixpoint startswith (p s : str) : bool :=
  match p, s with
  | [], _ => true
  | _ :: _, [] => false
  | a :: p', b :: s' => (a =? b) && startswith p' s'
  end.

(** [needle in hay] for two strings *)
Fixpoint contains (needle hay : str) : bool :=
  startswith needle hay ||
  match hay with
  | [] => false
  | _ :: hay' => contains needle hay'
  end.

(** [s.endswith(suffix)] *)
Definition endswith (s suffix : str) : bool :=
  startswith (rev suffix) (rev s).

(** [Py_UNICODE_ISSPACE]: the characters removed by [str.strip()] *)
Definition isspace (c : N) : bool :=
  ((9 <=? c) && (c <=? 13)) || ((28 <=? c) && (c <=? 32)) ||
  (c =? 133) || (c =? 160) || (c =? 5760) ||
  ((8192 <=? c) && (c <=? 8202)) || (c =? 8232) || (c =? 8233) ||
  (c =? 8239) || (c =? 8287) || (c =? 12288).

Fixpoint lstrip (s : str) : str :=
  match s with
  | [] => []
  | c :: s' => if isspace c then lstrip s' else s
  end.

Definition rstrip (s : str) : str := rev (lstrip (rev s)).

(** [s.strip()] *)
Definition strip (s : str) : str := rstrip (lstrip s).

(** Truth value of a string: [if s:] *)
Definition truthy (s : str) : bool :=
  match s with
  | [] => false
  | _ :: _ => true
  end.

(** Text read back from a file opened with [open(name, "r")]: universal
    newlines turn CR LF and a lone CR into LF. *)
Fixpoint universal_newlines (s : str) : str :=
  match s with
  | [] => []
  | c :: s' =>
      if c =? 13 then
        10 :: match s' with
              | [] => []
              | d :: s'' =>
                  if d =? 10 then universal_newlines s''
                  else universal_newlines s'
              end
      else c :: universal_newlines s'
  end.

(** ** Exceptions *)

Inductive exn :=
  | JSONDecodeError
  | TypeError
  | KeyError
  | AttributeError
  | OSError
  | ValueError
  | UnicodeEncodeError
  | ChatFailure.

Inductive result (A : Type) :=
  | Ok (a : A)
  | Raise (e : exn).

Arguments Ok {A} a.
Arguments Raise {A} e.

Definition bind {A B} (r : result A) (k : A -> result B) : result B :=
  match r with
  | Ok a => k a
  | Raise e => Raise e
  end.

Notation "'let?' x := r 'in' k" := (bind r (fun x => k))
  (at level 10, x pattern, r at level 100, k at level 200).

Definition raises {A} (r : result A) : Prop :=
  match r with
  | Ok _ => False
  | Raise _ => True
  end.

(** ** JSON values *)

(** What [json.loads] returns and [json.dumps] accepts.  A number keeps its
    literal: the program never computes with one.  An object is a Python
    [dict]: its keys are distinct and keep their insertion order. *)
#[warnings="-register-all"]
Inductive json :=
  | JNull
  | JBool (b : bool)
  | JNum (literal : str)
  | JStr (s : str)
  | JArr (items : list json)
  | JObj (fields : list (str * json)).

(** *** [json.dumps(value, indent=4)] *)

Definition hexdigit (d : N) : N :=
  if d <? 10 then 48 + d else 87 + d.

(** ['\\u{0:04x}'.format(n)] *)
Definition escape_u (n : N) : str :=
  [92; 117; hexdigit (n / 4096 mod 16); hexdigit (n / 256 mod 16);
   hexdigit (n / 16 mod 16); hexdigit (n mod 16)].

(** One character of [encode_basestring_ascii] ([ensure_ascii] is on). *)
Definition escape_char (c : N) : str :=
  if c =? 92 then [92; 92]
  else if c =? 34 then [92; 34]
  else if c =? 8 then [92; 98]
  else if c =? 12 then [92; 102]
  else if c =? 10 then [92; 110]
  else if c =? 13 then [92; 114]
  else if c =? 9 then [92; 116]
  else if (32 <=? c) && (c <=? 126) then [c]
  else if c <? 65536 then escape_u c
  else
    let v := c - 65536 in
    escape_u (N.lor 55296 (N.land (N.shiftr v 10) 1023)) ++
    escape_u (N.lor 56320 (N.land v 1023)).

Definition encode_basestring_ascii (s : str) : str :=
  [34] ++ flat_map escape_char s ++ [34].

Definition newline_indent (level : nat) : str :=
  10 :: repeat 32 (4 * level)%nat.

Fixpoint join (sep : str) (parts : list str) : str :=
  match parts with
  | [] => []
  | [p] => p
  | p :: ps => p ++ sep ++ join sep ps
  end.

Fixpoint iterencode (level : nat) (v : json) : str :=
  match v with
  | JNull => py "null"
  | JBool true => py "true"
  | JBool false => py "false"
  | JNum literal => literal
  | JStr s => encode_basestring_ascii s
  | JArr [] => py "[]"
  | JArr items =>
      [91] ++ newline_indent (S level) ++
      join (44 :: newline_indent (S level))
           (map (iterencode (S level)) items) ++
      newline_indent level ++ [93]
  | JObj [] => py "{}"
  | JObj fields =>
      [123] ++ newline_indent (S level) ++
      join (44 :: newline_indent (S level))
           (map (fun kv => match kv with
                           | (k, x) => encode_basestring_ascii k ++ py ": " ++
                                       iterencode (S level) x
                           end) fields) ++
      newline_indent level ++ [125]
  end.

Definition json_dumps (v : json) : str := iterencode 0 v.

(** *** [json.loads(text)] *)

Inductive parsed (A : Type) :=
  | Parsed (a : A) (rest : str)
  | Malformed
  | Exhausted.

Arguments Parsed {A} a rest.
Arguments Malformed {A}.
Arguments Exhausted {A}.

(** [WHITESPACE.match]: blanks, tabs, line feeds and carriage returns *)
Definition is_ws (c : N) : bool :=
  (c =? 32) || (c =? 9) || (c =? 10) || (c =? 13).

Fixpoint skipws (s : str) : str :=
  match s with
  | [] => []
  | c :: s' => if is_ws c then skipws s' else s
  end.

Definition hexval (c : N) : option N :=
  if (48 <=? c) && (c <=? 57) then Some (c - 48)
  else if (97 <=? c) && (c <=? 102) then Some (c - 87)
  else if (65 <=? c) && (c <=? 70) then Some (c - 55)
  else None.

(** [_decode_uXXXX]: four hexadecimal digits *)
Definition decode_uXXXX (h1 h2 h3 h4 : N) : option N :=
  match hexval h1, hexval h2, hexval h3, hexval h4 with
  | Some a, Some b, Some c, Some d => Some (a * 4096 + b * 256 + c * 16 + d)
  | _, _, _, _ => None
  end.

(** The table [BACKSLASH] *)
Definition backslash (e : N) : option N :=
  if e =? 34 then Some 34
  else if e =? 92 then Some 92
  else if e =? 47 then Some 47
  else if e =? 98 then Some 8
  else if e =? 102 then Some 12
  else if e =? 110 then Some 10
  else if e =? 114 then Some 13
  else if e =? 116 then Some 9
  else None.

Definition is_high_surrogate (c : N) : bool := (55296 <=? c) && (c <=? 56319).
Definition is_low_surrogate (c : N) : bool := (56320 <=? c) && (c <=? 57343).

Definition join_surrogates (hi lo : N) : N :=
  65536 + N.lor (N.shiftl (hi - 55296) 10) (lo - 56320).

Definition cons_char (c : N) (r : option (str * str)) : option (str * str) :=
  match r with
  | Some (s, rest) => Some (c :: s, rest)
  | None => None
  end.

(** [scanstring(s, end, strict=True)], from the character after the opening
    quote: the decoded string and what follows the closing quote. *)
Fixpoint scanstring (s : str) : option (str * str) :=
  match s with
  | [] => None
  | c :: r =>
      if c =? 34 then Some ([], r)
      else if c =? 92 then
        match r with
        | [] => None
        | e :: r1 =>
            if e =? 117 then
              match r1 with
              | h1 :: h2 :: h3 :: h4 :: r2 =>
                  match decode_uXXXX h1 h2 h3 h4 with
                  | None => None
                  | Some uni =>
                      match r2 with
                      | b :: u :: g1 :: g2 :: g3 :: g4 :: r3 =>
                          if is_high_surrogate uni && (b =? 92) && (u =? 117)
                          then
                            match decode_uXXXX g1 g2 g3 g4 with
                            | None => None
                            | Some uni2 =>
                                if is_low_surrogate uni2
                                then cons_char (join_surrogates uni uni2)
                                               (scanstring r3)
                                else cons_char uni (scanstring r2)
                            end
                          else cons_char uni (scanstring r2)
                      | _ => cons_char uni (scanstring r2)
                      end
                  end
              | _ => None
              end
            else
              match backslash e with
              | Some c' => cons_char c' (scanstring r1)
              | None => None
              end
        end
      else if c <? 32 then None
      else cons_char c (scanstring r)
  end.

Definition isdigit (c : N) : bool := (48 <=? c) && (c <=? 57).

(** [s[idx] == c]: what follows the character [c] *)
Definition expect (c : N) (s : str) : option str :=
  match s with
  | [] => None
  | x :: r => if x =? c then Some r else None
  end.

Fixpoint span_digits (s : str) : str * str :=
  match s with
  | [] => ([], [])
  | c :: s' =>
      if isdigit c
      then match span_digits s' with (ds, rest) => (c :: ds, rest) end
      else ([], s)
  end.

(** [NUMBER_RE.match]: an optional minus sign, then a zero or a non-zero
    digit followed by digits; then an optional fraction (a dot and at least
    one digit); then an optional exponent (e or E, an optional sign and at
    least one digit). *)
Definition match_integer (s : str) : option (str * str) :=
  let '(sign, s1) := match expect 45 s with
                     | Some r => ([45], r)
                     | None => ([], s)
                     end in
  match s1 with
  | [] => None
  | d :: r =>
      if d =? 48 then Some (sign ++ [48], r)
      else if isdigit d
      then match span_digits r with
           | (ds, rest) => Some (sign ++ d :: ds, rest)
           end
      else None
  end.

Definition match_frac (s : str) : str * str :=
  match expect 46 s with
  | Some r =>
      match span_digits r with
      | ([], _) => ([], s)
      | (ds, rest) => (46 :: ds, rest)
      end
  | None => ([], s)
  end.

Definition match_exp (s : str) : str * str :=
  match s with
  | e :: r =>
      if (e =? 101) || (e =? 69) then
        let '(sign, r1) := match r with
                           | c :: r' =>
                               if (c =? 45) || (c =? 43) then ([c], r')
                               else ([], r)
                           | [] => ([], r)
                           end in
        match span_digits r1 with
        | ([], _) => ([], s)
        | (ds, rest) => (e :: sign ++ ds, rest)
        end
      else ([], s)
  | [] => ([], s)
  end.

Definition match_number (s : str) : option (str * str) :=
  match match_integer s with
  | None => None
  | Some (integer, r1) =>
      let '(frac, r2) := match_frac r1 in
      let '(exp, r3) := match_exp r2 in
      Some (integer ++ frac ++ exp, r3)
  end.

(** [s[idx:idx+len(p)] == p]: what follows the prefix [p] *)
Fixpoint after_prefix (p s : str) : option str :=
  match p, s with
  | [], _ => Some s
  | _ :: _, [] => None
  | a :: p', b :: s' => if a =? b then after_prefix p' s' else None
  end.

(** The scalars of [_scan_once], in the order the scanner tries them. *)
Definition scan_scalar (s : str) : parsed json :=
  match after_prefix (py "null") s with
  | Some r => Parsed JNull r
  | None =>
  match after_prefix (py "true") s with
  | Some r => Parsed (JBool true) r
  | None =>
  match after_prefix (py "false") s with
  | Some r => Parsed (JBool false) r
  | None =>
  match match_number s with
  | Some (literal, r) => Parsed (JNum literal) r
  | None =>
  match after_prefix (py "NaN") s with
  | Some r => Parsed (JNum (py "NaN")) r
  | None =>
  match after_prefix (py "Infinity") s with
  | Some r => Parsed (JNum (py "Infinity")) r
  | None =>
  match after_prefix (py "-Infinity") s with
  | Some r => Parsed (JNum (py "-Infinity")) r
  | None => Malformed
  end end end end end end end.

(** [dict(pairs)]: a later pair with a key already present replaces the
    value in place. *)
Fixpoint dict_set (k : str) (v : json) (d : list (str * json)) :
    list (str * json) :=
  match d with
  | [] => [(k, v)]
  | (k', v') :: d' =>
      if bool_decide (k' = k) then (k, v) :: d'
      else (k', v') :: dict_set k v d'
  end.

Definition dict_of_pairs (pairs : list (str * json)) : list (str * json) :=
  fold_left (fun d kv => dict_set (fst kv) (snd kv) d) pairs [].

(** [_scan_once], [JSONArray] and [JSONObject].  The recursion of the
    decoder is on the text; [fuel] bounds it ([scan_once_fuel] below shows
    that twice the length of the text is always enough). *)
Fixpoint scan_once (fuel : nat) (s : str) : parsed json :=
  match fuel with
  | O => Exhausted
  | S fuel' =>
      match s with
      | [] => Malformed
      | c :: r =>
          if c =? 34 then
            match scanstring r with
            | Some (v, rest) => Parsed (JStr v) rest
            | None => Malformed
            end
          else if c =? 123 then
            match expect 125 (skipws r) with
            | Some rest => Parsed (JObj []) rest
            | None =>
                match expect 34 (skipws r) with
                | Some r1 =>
                    match JSONObject fuel' r1 with
                    | Parsed pairs rest =>
                        Parsed (JObj (dict_of_pairs pairs)) rest
                    | Malformed => Malformed
                    | Exhausted => Exhausted
                    end
                | None => Malformed
                end
            end
          else if c =? 91 then
            match expect 93 (skipws r) with
            | Some rest => Parsed (JArr []) rest
            | None =>
                match JSONArray fuel' (skipws r) with
                | Parsed values rest => Parsed (JArr values) rest
                | Malformed => Malformed
                | Exhausted => Exhausted
                end
            end
          else scan_scalar s
      end
  end

with JSONArray (fuel : nat) (s : str) : parsed (list json) :=
  match fuel with
  | O => Exhausted
  | S fuel' =>
      match scan_once fuel' s with
      | Parsed value r =>
          match expect 93 (skipws r) with
          | Some rest => Parsed [value] rest
          | None =>
              match expect 44 (skipws r) with
              | Some r1 =>
                  match JSONArray fuel' (skipws r1) with
                  | Parsed values rest => Parsed (value :: values) rest
                  | Malformed => Malformed
                  | Exhausted => Exhausted
                  end
              | None => Malformed
              end
          end
      | Malformed => Malformed
      | Exhausted => Exhausted
      end
  end

with JSONObject (fuel : nat) (s : str) : parsed (list (str * json)) :=
  match fuel with
  | O => Exhausted
  | S fuel' =>
      match scanstring s with
      | None => Malformed
      | Some (key, r) =>
          match expect 58 (skipws r) with
          | Some r1 =>
              match scan_once fuel' (skipws r1) with
              | Parsed value r2 =>
                  match expect 125 (skipws r2) with
                  | Some rest => Parsed [(key, value)] rest
                  | None =>
                      match expect 44 (skipws r2) with
                      | Some r3 =>
                          match expect 34 (skipws r3) with
                          | Some r4 =>
                              match JSONObject fuel' r4 with
                              | Parsed pairs rest =>
                                  Parsed ((key, value) :: pairs) rest
                              | Malformed => Malformed
                              | Exhausted => Exhausted
                              end
                          | None => Malformed
                          end
                      | None => Malformed
                      end
                  end
              | Malformed => Malformed
              | Exhausted => Exhausted
              end
          | None => Malformed
          end
      end
  end.

(** [json.loads(s)] for a [str]: no byte order mark, one value, and only
    white space around it.  The limits of the interpreter (depth of
    recursion, digits of an integer literal) are not modelled. *)
Definition json_loads (s : str) : result json :=
  if startswith [65279] s then Raise JSONDecodeError
  else
    let s0 := skipws s in
    match scan_once (2 * length s0 + 1) s0 with
    | Parsed v rest =>
        match skipws rest with
        | [] => Ok v
        | _ :: _ => Raise JSONDecodeError
        end
    | Malformed => Raise JSONDecodeError
    | Exhausted => Raise JSONDecodeError
    end.

(** *** Values that [json.dumps] and [json.loads] carry through *)

(** Unicode scalar values: code points that are not surrogates. *)
Definition scalar (c : N) : bool :=
  (c <? 55296) || ((57343 <? c) && (c <? 1114112)).

(** Digits, one at least. *)
Definition digits (s : str) : bool :=
  match s with
  | [] => false
  | _ :: _ => forallb isdigit s
  end.

(** The text before the first character that satisfies [p], and the text
    from that character on. *)
Fixpoint break_at (p : N -> bool) (s : str) : str * str :=
  match s with
  | [] => ([], [])
  | c :: r =>
      if p c then ([], s)
      else match break_at p r with (before, from) => (c :: before, from) end
  end.

(** The literal of a finite number, as [int.__repr__] and [float.__repr__]
    write it: an optional minus sign; the digits of the integer part, with
    no leading zero; then possibly a dot and digits; then possibly [e] or
    [E], an optional sign and digits.  ([NaN] and [Infinity] are left out:
    [nan] is not equal to itself.) *)
Definition number_literal (l : str) : bool :=
  let unsigned := match expect 45 l with
                  | Some r => r
                  | None => l
                  end in
  match break_at (fun c => (c =? 101) || (c =? 69)) unsigned with
  | (mantissa, exponent) =>
      match break_at (fun c => c =? 46) mantissa with
      | (integer, fraction) =>
          digits integer &&
          (bool_decide (integer = [48]) || negb (startswith [48] integer)) &&
          match fraction with
          | [] => true
          | _ :: ds => digits ds
          end &&
          match exponent with
          | [] => true
          | _ :: r =>
              digits (match r with
                      | c :: r' => if (c =? 43) || (c =? 45) then r' else r
                      | [] => []
                      end)
          end
      end
  end.

(** A value made of [None], booleans, finite numbers, strings of scalar
    values, lists and dictionaries with distinct keys. *)
Fixpoint well_formed (v : json) : bool :=
  match v with
  | JNull | JBool _ => true
  | JNum literal => number_literal literal
  | JStr s => forallb scalar s
  | JArr items => forallb well_formed items
  | JObj fields =>
      bool_decide (NoDup (map fst fields)) &&
      forallb (fun kv => forallb scalar (fst kv) && well_formed (snd kv)) fields
  end.

(** What follows a value in the output of [json.dumps]: nothing, a comma
    or a line feed. *)
Definition delimited (rest : str) : Prop :=
  match rest with
  | [] => True
  | c :: _ => c = 44 \/ c = 10
  end.

(** What follows the digits of a number: nothing, or a character that is
    not a digit. *)
Definition nondigit_head (t : str) : Prop :=
  match t with
  | [] => True
  | c :: _ => isdigit c = false
  end.

(** The characters a JSON value can start with: a quote, a brace, a
    bracket, the first letter of null, true, false, NaN or Infinity, a
    minus sign or a digit. *)
Definition value_start (c : N) : bool :=
  (c =? 34) || (c =? 123) || (c =? 91) || (c =? 110) || (c =? 116) ||
  (c =? 102) || (c =? 45) || (c =? 78) || (c =? 73) || isdigit c.

(** The decoder reads the encoding of [v] back, at any indentation and
    before any delimiter. *)
Definition reads_back (v : json) : Prop :=
  forall level rest, delimited rest ->
    exists fuel, scan_once fuel (iterencode level v ++ rest) = Parsed v rest.

(** ** Python operations on decoded values *)

Definition dict_get (fields : list (str * json)) (key : str) : option json :=
  snd <$> find (fun kv => bool_decide (fst kv = key)) fields.

(** [for entry in value] *)
Definition py_iter (value : json) : result (list json) :=
  match value with
  | JArr items => Ok items
  | JObj fields => Ok (map (fun kv => JStr (fst kv)) fields)
  | JStr s => Ok (map (fun c => JStr [c]) s)
  | JNull | JBool _ | JNum _ => Raise TypeError
  end.

(** [value[key]] for a string [key] *)
Definition py_getitem (value : json) (key : str) : result json :=
  match value with
  | JObj fields =>
      match dict_get fields key with
      | Some x => Ok x
      | None => Raise KeyError
      end
  | JNull | JBool _ | JNum _ | JStr _ | JArr _ => Raise TypeError
  end.

(** [value == s] for a string [s] *)
Definition py_eq_str (value : json) (s : str) : bool :=
  match value with
  | JStr t => bool_decide (t = s)
  | _ => false
  end.

(** [needle in value] for a string [needle] *)
Definition py_in (needle : str) (value : json) : result bool :=
  match value with
  | JStr s => Ok (contains needle s)
  | JArr items => Ok (existsb (fun x => py_eq_str x needle) items)
  | JObj fields => Ok (existsb (fun kv => bool_decide (fst kv = needle)) fields)
  | JNull | JBool _ | JNum _ => Raise TypeError
  end.

(** [value + s] for a string [s] *)
Definition py_add_str (value : json) (s : str) : result str :=
  match value with
  | JStr t => Ok (t ++ s)
  | _ => Raise TypeError
  end.

(** ** [filter_user_content] *)

Definition MARKER : str := py "###".
Definition NO_CONTENT : str := py "No relevant content found.".

(** The loop of [filter_user_content] over the entries of the history. *)
Fixpoint first_user_content (entries : list json) : result json :=
  match entries with
  | [] => Ok (JStr NO_CONTENT)
  | entry :: entries' =>
      let? role := py_getitem entry (py "role") in
      if py_eq_str role (py "user") then
        let? content := py_getitem entry (py "content") in
        let? found := py_in MARKER content in
        if found then Ok content else first_user_content entries'
      else first_user_content entries'
  end.

Definition filter_user_content (chat_history : str) : result json :=
  let? chat_history_dict := json_loads chat_history in
  let? entries := py_iter chat_history_dict in
  first_user_content entries.

(** ** The termination test of [user_proxy] *)

(** A value of a message dictionary, as far as the test looks at it: a
    string, or any other object, which has a truth value and no [strip]. *)
Inductive pyobj :=
  | PyStr (s : str)
  | PyOther (truth : bool).

Definition obj_truth (o : pyobj) : bool :=
  match o with
  | PyStr s => truthy s
  | PyOther truth => truth
  end.

Definition TERMINATE : str := py "TERMINATE".

(** [lambda x: x.get("content", "") and
               x.get("content", "").strip().endswith("TERMINATE")],
    as the truth value of what the lambda returns. *)
Definition is_termination_msg (x : gmap str pyobj) : result bool :=
  let c := default (PyStr []) (x !! py "content") in
  if obj_truth c then
    match c with
    | PyStr s => Ok (endswith (strip s) TERMINATE)
    | PyOther _ => Raise AttributeError
    end
  else Ok false.

Definition max_consecutive_auto_reply : nat := 10.

(** ** The process state *)

Record World := mkWorld {
  files : gmap str str;   (* text files of the working directory, by name *)
  today : str;            (* what [date.today().strftime("%Y-%m-%d")] gives *)
  chats : list str        (* messages of the calls to [initiate_chat] so far *)
}.

Definition set_file (name text : str) (w : World) : World :=
  mkWorld (<[name := text]> (files w)) (today w) (chats w).

Definition log_chat (message : str) (w : World) : World :=
  mkWorld (files w) (today w) (chats w ++ [message]).

(** What [initiate_chat] returns: the fields [save_response_to_json] reads. *)
Record ChatResult := mkChatResult {
  chat_id : json;
  chat_history : json;
  summary : json;
  cost : json;
  human_input : json
}.

(** A computation of the program: from a state to a value or an exception,
    and the state it leaves. *)
Definition M (A : Type) : Type := World -> result A * World.

Definition ret {A} (a : A) : M A := fun w => (Ok a, w).

Definition lift {A} (r : result A) : M A := fun w => (r, w).

Definition mbind {A B} (m : M A) (k : A -> M B) : M B :=
  fun w =>
    match m w with
    | (Ok a, w') => k a w'
    | (Raise e, w') => (Raise e, w')
    end.

Notation "'let*' x := m 'in' k" := (mbind m (fun x => k))
  (at level 10, x pattern, m at level 100, k at level 200).

Definition get_current_date : M str := fun w => (Ok (today w), w).

Definition os_path_exists (name : str) : M bool :=
  fun w => (Ok (bool_decide (is_Some (files w !! name))), w).

(** A surrogate that the file system encoding (UTF-8 with
    [surrogateescape]) cannot encode: any but U+DC80 to U+DCFF, which stand
    for escaped bytes. *)
Definition unencodable_surrogate (c : N) : bool :=
  (55296 <=? c) && (c <=? 57343) && negb ((56448 <=? c) && (c <=? 56575)).

(** The exception of an [open(name, ...)] that fails, on Linux: the name
    is encoded first ([UnicodeEncodeError] for a surrogate that cannot be
    encoded), then refused if it holds U+0000 ([ValueError]: embedded null
    byte); every other failure is the system's, an [OSError]. *)
Definition open_error (name : str) : exn :=
  if existsb unencodable_surrogate name then UnicodeEncodeError
  else if existsb (N.eqb 0) name then ValueError
  else OSError.

Definition read_response_from_md (filename : str) : M str :=
  fun w =>
    match files w !! filename with
    | Some content => (Ok (universal_newlines content), w)
    | None => (Raise (open_error filename), w)
    end.

Section Program.

(** [user_proxy.initiate_chat(analyst, message=..., cache=...)]: from the
    messages of the earlier calls and the message of this one to the chat
    result, or [None] when the call raises.  The chat leaves the result
    files alone. *)
Variable initiate_chat : list str -> str -> option ChatResult.

(** Whether [open(name, "w")] succeeds; when it does not, it raises
    [open_error name]. *)
Variable writable : str -> bool.

(** Whether the encoding of the locale can encode the text. *)
Variable encodable : str -> bool.

(** [str.upper] on one character outside ASCII. *)
Variable unicode_upper : N -> str.

Definition upper_char (c : N) : str :=
  if (97 <=? c) && (c <=? 122) then [c - 32]
  else if c <? 128 then [c]
  else unicode_upper c.

(** [s.upper()] *)
Definition upper (s : str) : str := flat_map upper_char s.

(** [with open(filename, "w") as file: file.write(text)], where computing
    [text] may raise.  Opening the file empties it, so a failure after
    that leaves an empty file. *)
Definition write_file (filename : str) (text : result str) : M unit :=
  fun w =>
    if writable filename then
      match text with
      | Ok t =>
          if encodable t then (Ok tt, set_file filename t w)
          else (Raise UnicodeEncodeError, set_file filename [] w)
      | Raise e => (Raise e, set_file filename [] w)
      end
    else (Raise (open_error filename), w).

Definition save_to_md (content : json) (filename : str) : M unit :=
  write_file filename (py_add_str content [10]).

Definition save_response_to_json (response : ChatResult) (filename : str) :
    M unit :=
  let response_dict :=
    JObj [ (py "chat_id", chat_id response);
           (py "chat_history", chat_history response);
           (py "summary", summary response);
           (py "cost", cost response);
           (py "human_input", human_input response) ] in
  write_file filename (Ok (json_dumps response_dict)).

Definition call_initiate_chat (message : str) : M ChatResult :=
  fun w =>
    match initiate_chat (chats w) message with
    | Some response => (Ok response, log_chat message w)
    | None => (Raise ChatFailure, log_chat message w)
    end.

Definition task_message (company date : str) : str :=
  py "Report in Chinese. Use all the tools provided to retrieve information available for "
  ++ company ++ py " upon " ++ date
  ++ py ". Analyze the positive developments and potential concerns of "
  ++ company
  ++ py " with 2-4 most important factors respectively and keep them concise. Most factors should be inferred from company related news. Then make a rough prediction (e.g. up/down by %) of the "
  ++ company
  ++ py " stock price movement for next week. Provide a summary analysis to support your prediction.".

Definition result_filename (company date extension : str) : str :=
  py "result_" ++ company ++ py "_" ++ date ++ extension.

Definition initiate_chat_and_save_response (company : str) : M str :=
  let* today_date := get_current_date in
  let json_filename := result_filename company today_date (py ".json") in
  let md_filename := result_filename company today_date (py ".md") in
  let* cached := os_path_exists md_filename in
  if cached then read_response_from_md md_filename
  else
    let* date := get_current_date in
    let* response := call_initiate_chat (task_message company date) in
    let* _ := save_response_to_json response json_filename in
    ret (json_dumps (chat_history response)).

(** The file that caches the report of [company] on the date of [w]. *)
Definition cache_key (company : str) (w : World) : str :=
  result_filename (upper company) (today w) (py ".md").

(** [None] is returned as [JNull], a report as [JStr]. *)
Definition analyze_company (company : str) : M json :=
  if truthy company then
    let company := upper company in
    let* today_date := get_current_date in
    let md_filename := result_filename company today_date (py ".md") in
    let* cached := os_path_exists md_filename in
    if cached then
      let* report := read_response_from_md md_filename in
      ret (JStr report)
    else
      let* content := initiate_chat_and_save_response company in
      let* filtered_content := lift (filter_user_content content) in
      let* _ := save_to_md filtered_content md_filename in
      ret filtered_content
  else ret JNull.

(** [analyze_company] with another activity of the machine (a second
    request, the clock) running between its own test of the cache and its
    call of [initiate_chat_and_save_response]. *)
Definition analyze_company_interleaved (other : World -> World)
    (company : str) : M json :=
  if truthy company then
    let company := upper company in
    let* today_date := get_current_date in
    let md_filename := result_filename company today_date (py ".md") in
    let* cached := os_path_exists md_filename in
    if cached then
      let* report := read_response_from_md md_filename in
      ret (JStr report)
    else
      let* content :=
        (fun w => initiate_chat_and_save_response company (other w)) in
      let* filtered_content := lift (filter_user_content content) in
      let* _ := save_to_md filtered_content md_filename in
      ret filtered_content
  else ret JNull.

End Program.

(** ** The environment and the date *)

(** [os.environ], as far as the program reads and writes it. *)
Definition os_getenv (environ : gmap str str) (key : str) : option str :=
  environ !! key.

(** One turn of the loop of [register_keys]:
    [if value: os.environ[key] = value]. *)
Definition register_key (environ : gmap str str) (entry : str * option str) :
    gmap str str :=
  match snd entry with
  | Some value =>
      if truthy value then <[fst entry := value]> environ else environ
  | None => environ
  end.

(** [register_keys]: the dictionary [keys] is built from the environment
    first, then the loop runs over its items in order. *)
Definition register_keys (environ : gmap str str) : gmap str str :=
  let keys :=
    [ (py "FINNHUB_API_KEY", os_getenv environ (py "FINNHUB_API_KEY"));
      (py "FMP_API_KEY", os_getenv environ (py "FMP_API_KEY"));
      (py "SEC_API_KEY", os_getenv environ (py "SEC_API_KEY")) ] in
  fold_left register_key keys environ.

(** A [datetime.date]: a year from 1 to 9999, a month and a day. *)
Record date := mkDate {
  year : N;
  month : N;
  day : N
}.

Definition digit_char (d : N) : N := 48 + d.

(** [%Y]: the year in decimal, as the C library of Linux formats it (no
    padding below 1000). *)
Definition format_Y (y : N) : str :=
  if y <? 10 then [digit_char y]
  else if y <? 100 then [digit_char (y / 10); digit_char (y mod 10)]
  else if y <? 1000 then
    [digit_char (y / 100); digit_char (y / 10 mod 10); digit_char (y mod 10)]
  else
    [digit_char (y / 1000 mod 10); digit_char (y / 100 mod 10);
     digit_char (y / 10 mod 10); digit_char (y mod 10)].

(** [%m] and [%d]: two digits, with a leading zero. *)
Definition format_02 (n : N) : str :=
  [digit_char (n / 10 mod 10); digit_char (n mod 10)].

(** [d.strftime("%Y-%m-%d")], the value of [get_current_date] on the day
    [d]. *)
Definition strftime_Ymd (d : date) : str :=
  format_Y (year d) ++ [45] ++ format_02 (month d) ++ [45] ++
  format_02 (day d).

(** The dates of [datetime.date]. *)
Definition valid_date (d : date) : Prop :=
  1 <= year d <= 9999 /\ 1 <= month d <= 12 /\ 1 <= day d <= 31.

(** ** ASCII texts *)

(** [s.isascii()] *)
Definition isascii (s : str) : bool := forallb (fun c => c <? 128) s.

(** Values whose numbers are written with ASCII characters, as [repr] of
    an [int] or a [float] writes them. *)
Fixpoint ascii_numbers (v : json) : bool :=
  match v with
  | JNull | JBool _ | JStr _ => true
  | JNum literal => isascii literal
  | JArr items => forallb ascii_numbers items
  | JObj fields => forallb (fun kv => ascii_numbers (snd kv)) fields
  end.

(** A chat result whose history holds a report outside ASCII, and a
    platform whose encoding is ASCII. *)
Definition unicode_history : json :=
  JArr [ JObj [ (py "content", JStr (py "### ACME " ++ [8593; 128200]));
                (py "role", JStr (py "user")) ] ].

Definition unicode_response : ChatResult :=
  mkChatResult JNull unicode_history JNull (JNum (py "0.25")) JNull.

Definition unicode_chat (log : list str) (message : str) : option ChatResult :=
  Some unicode_response.

Definition read_only (name : str) : bool := false.

(** ** The dialogue between the two agents *)

(** Modelled from the spec: the Dialogue Orchestrator.  The loop that
    alternates the two agents is autogen's and is not part of the source
    file, which only configures it: the termination test
    [is_termination_msg] and the bound [max_consecutive_auto_reply].  The
    states, the step and the turn budget below follow section 4.3 of the
    specification; the Turn Executor of section 4.2 is a parameter. *)

(** Modelled from the spec: the two roles of section 3, the reasoning
    agent and the tool-executing proxy. *)
Inductive AgentRole := Initiator | Proxy.

(** Modelled from the spec: a message of section 3, with its sender and
    its content; the tool-call fields play no part in termination. *)
Record Message := mkMessage {
  sender : AgentRole;
  content : str
}.

(** Modelled from the spec: the four states of section 4.3. *)
Inductive Status :=
  | Running
  | TerminatedNormally
  | TerminatedByLimit
  | Failed.

(** Modelled from the spec: the conversation of section 3; [status] is its
    [terminated] field with the state it terminated in. *)
Record Conversation := mkConversation {
  subject : str;
  messages : list Message;
  turnCount : nat;
  status : Status
}.

(** Modelled from the spec: a transition that appends nothing. *)
Definition set_status (st : Status) (c : Conversation) : Conversation :=
  mkConversation (subject c) (messages c) (turnCount c) st.

(** Modelled from the spec: "append result Message; increment turnCount". *)
Definition append_message (m : Message) (st : Status) (c : Conversation) :
    Conversation :=
  mkConversation (subject c) (messages c ++ [m]) (S (turnCount c)) st.

(** Modelled from the spec: the dictionary the source's
    [is_termination_msg] receives for a message of the conversation. *)
Definition message_dict (m : Message) : gmap str pyobj :=
  {[ py "content" := PyStr (content m) ]}.

Section Orchestrator.

(** The turn budget. *)
Variable max_turns : nat.

(** The Turn Executor: the next message of the acting agent, or [None]
    for an unrecoverable failure. *)
Variable executor : Conversation -> AgentRole -> option Message.

(** Modelled from the spec: the agents alternate, the Initiator first. *)
Definition acting_agent (c : Conversation) : AgentRole :=
  if Nat.even (turnCount c) then Initiator else Proxy.

(** Modelled from the spec: the initial state, [Running] with no turn
    counted and the injected task message of the Initiator. *)
Definition initial (subject task : str) : Conversation :=
  mkConversation subject [mkMessage Initiator task] 0 Running.

(** Modelled from the spec: one step of the orchestrator.  A turn that
    would exceed the budget ends the run by limit; otherwise the acting
    agent's message is appended, the turn counted, and the terminal marker
    (the source's [is_termination_msg]) tested on the appended message. *)
Definition step (c : Conversation) : Conversation :=
  match status c with
  | Running =>
      if (max_turns <=? turnCount c)%nat then set_status TerminatedByLimit c
      else
        match executor c (acting_agent c) with
        | None => set_status Failed c
        | Some m =>
            match is_termination_msg (message_dict m) with
            | Ok true => append_message m TerminatedNormally c
            | Ok false => append_message m Running c
            | Raise _ => append_message m Failed c
            end
        end
  | TerminatedNormally | TerminatedByLimit | Failed => c
  end.

(** Modelled from the spec: the loop, as a number of steps. *)
Definition run (steps : nat) (c : Conversation) : Conversation :=
  Nat.iter steps step c.

End Orchestrator.

(** The budget the source file configures:
    [max_consecutive_auto_reply=10]. *)
Definition default_max_turns : nat := max_consecutive_auto_reply.

(** ** Statements and sample data *)

(** Two subjects that differ only in the case of ASCII letters. *)
Definition case_variant (a b : N) : Prop :=
  a = b \/ (65 <= a <= 90 /\ b = a + 32) \/ (65 <= b <= 90 /\ a = b + 32).

Definition differ_only_in_case (s1 s2 : str) : Prop :=
  Forall2 case_variant s1 s2.

(** An entry of a chat history: a dictionary with a role.  [content] is
    the text it carries, and [None] when its content is not a text: the
    content of a tool call is [None]. *)
Definition is_message (entry : json) (role : str) (content : option str) :
    Prop :=
  exists fields,
    entry = JObj fields /\
    dict_get fields (py "role") = Some (JStr role) /\
    match content with
    | Some text => dict_get fields (py "content") = Some (JStr text)
    | None => forall text, dict_get fields (py "content") <> Some (JStr text)
    end.

(** A message that the selection passes over: it is not of the user role,
    or it is and its text does not contain the marker. *)
Definition passed_over (m : str * option str) : Prop :=
  fst m = py "user" ->
  exists text, snd m = Some text /\ contains MARKER text = false.

(** "First match wins": the entries begin with messages that are passed
    over; then comes a message of the user role whose text, [report],
    contains the marker, followed by anything at all; or nothing comes, and
    [report] is the fixed text. *)
Definition first_match (entries : list json) (report : str) : Prop :=
  exists before_entries before rest,
    entries = before_entries ++ rest /\
    Forall2 (fun entry m => is_message entry (fst m) (snd m))
      before_entries before /\
    Forall passed_over before /\
    match rest with
    | [] => report = NO_CONTENT
    | entry :: _ =>
        is_message entry (py "user") (Some report) /\
        contains MARKER report = true
    end.

(** "Calling the entry point twice invokes the orchestrator at most once and
    the second call returns what the first returned", for one subject and
    one state. *)
Definition served_identically
    (initiate_chat : list str -> str -> option ChatResult)
    (writable encodable : str -> bool) (unicode_upper : N -> str)
    (company : str) (w : World) : Prop :=
  let first := analyze_company initiate_chat writable encodable unicode_upper
                 company w in
  let second := analyze_company initiate_chat writable encodable unicode_upper
                  company (snd first) in
  (length (chats (snd second)) <= S (length (chats w)))%nat /\
  fst second = fst first.

(** "Writing an entry for a key that has one fails and leaves the entry as
    it is", for one write. *)
Definition write_once (writable encodable : str -> bool)
    (content : json) (filename : str) (w : World) : Prop :=
  is_Some (files w !! filename) ->
  raises (fst (save_to_md writable encodable content filename w)) /\
  files (snd (save_to_md writable encodable content filename w)) !! filename
  = files w !! filename.


(** "Two subjects differ only in letter case": case folding makes them
    equal.  [fold] is the case folding of one character
    ([str.casefold]). *)
Definition same_up_to_case (fold : N -> str) (s1 s2 : str) : Prop :=
  flat_map fold s1 = flat_map fold s2.

(** "Two requests whose subjects differ only in letter case use the same
    cache key and return the same report", for two subjects and one
    state. *)
Definition case_insensitive
    (initiate_chat : list str -> str -> option ChatResult)
    (writable encodable : str -> bool) (unicode_upper fold : N -> str)
    (s1 s2 : str) (w : World) : Prop :=
  same_up_to_case fold s1 s2 ->
  cache_key unicode_upper s1 w = cache_key unicode_upper s2 w /\
  fst (analyze_company initiate_chat writable encodable unicode_upper s1 w) =
  fst (analyze_company initiate_chat writable encodable unicode_upper s2 w).

(** "The appended message terminates the dialogue if its content ends with
    the sentinel, and does not if its content does not", for one step. *)
Definition marker_decides (max_turns : nat)
    (executor : Conversation -> AgentRole -> option Message)
    (c : Conversation) (m : Message) : Prop :=
  (endswith (content m) TERMINATE = true ->
   status (step max_turns executor c) = TerminatedNormally) /\
  (endswith (content m) TERMINATE = false ->
   status (step max_turns executor c) <> TerminatedNormally).

(** Sample data: a platform on which every file can be written and every
    text encoded, a chat that reports, a chat that fails. *)
Definition any_name (name : str) : bool := true.
Definition any_text (text : str) : bool := true.
Definition ascii_upper (c : N) : str := [c].

Definition sample_history : json :=
  JArr [ JObj [ (py "content", JStr (py "Report in Chinese."));
                (py "role", JStr (py "assistant")) ];
         JObj [ (py "content", JStr (py "### ACME: up by 2%"));
                (py "role", JStr (py "user")) ];
         JObj [ (py "content", JStr (py "### TERMINATE"));
                (py "role", JStr (py "user")) ] ].

Definition sample_chat (log : list str) (message : str) : option ChatResult :=
  Some (mkChatResult JNull sample_history JNull JNull JNull).

Definition failing_chat (log : list str) (message : str) : option ChatResult :=
  None.

(** A chat with a tool call, whose content is [None], the answer of the
    tool, and a message without text after the report; its cost holds
    numbers. *)
Definition tool_history : json :=
  JArr [ JObj [ (py "content", JStr (py "Report in Chinese."));
                (py "role", JStr (py "assistant")) ];
         JObj [ (py "content", JNull);
                (py "tool_calls",
                 JArr [ JObj [ (py "id", JStr (py "call_1"));
                               (py "function",
                                JObj [ (py "arguments", JStr (py "{}"));
                                       (py "name",
                                        JStr (py "get_company_news")) ]);
                               (py "type", JStr (py "function")) ] ]);
                (py "role", JStr (py "assistant")) ];
         JObj [ (py "content", JStr (py "### news of ACME"));
                (py "role", JStr (py "tool")) ];
         JObj [ (py "content", JStr (py "### ACME: up by 2%"));
                (py "role", JStr (py "user")) ];
         JObj [ (py "content", JNull);
                (py "role", JStr (py "user")) ];
         JObj [ (py "content", JStr (py "TERMINATE"));
                (py "role", JStr (py "user")) ] ].

Definition tool_response : ChatResult :=
  mkChatResult JNull tool_history (JStr (py "### ACME: up by 2%"))
    (JObj [ (py "usage_including_cached_inference",
             JObj [ (py "total_cost", JNum (py "0.0125"));
                    (py "gpt-4o",
                     JObj [ (py "cost", JNum (py "0.0125"));
                            (py "prompt_tokens", JNum (py "1520"));
                            (py "completion_tokens", JNum (py "310"));
                            (py "total_tokens", JNum (py "1830")) ]) ]) ])
    (JArr []).

Definition tool_chat (log : list str) (message : str) : option ChatResult :=
  Some tool_response.


(** A chat whose report repeats the task it was given. *)
Definition echo_chat (log : list str) (message : str) : option ChatResult :=
  Some (mkChatResult JNull
          (JArr [ JObj [ (py "content", JStr (py "### " ++ message));
                         (py "role", JStr (py "user")) ] ])
          JNull JNull JNull).

(** [str.upper] and [str.casefold] on the two forms of the sharp s: the
    upper case of U+00DF is SS, U+1E9E is its own upper case, and both
    fold to ss. *)
Definition german_upper (c : N) : str :=
  if c =? 223 then [83; 83] else [c].

Definition german_fold (c : N) : str :=
  if (65 <=? c) && (c <=? 90) then [c + 32]
  else if (c =? 223) || (c =? 7838) then [115; 115]
  else [c].

(** The two spellings: lower case with U+00DF, upper case with U+1E9E. *)
Definition strasse_lower : str := [115; 116; 114; 97; 223; 101].
Definition strasse_upper : str := [83; 84; 82; 65; 7838; 69].

Definition sample_world : World := mkWorld ∅ (py "2024-05-01") [].

Definition sample_key : str := py "result_ACME_2024-05-01.md".

Definition cached_world : World :=
  mkWorld {[ sample_key := py "### old" ++ [10] ]} (py "2024-05-01") [].

(** Another request stores its fallback report while this one is between
    its two tests of the cache. *)
Definition other_request (w : World) : World :=
  set_file sample_key (NO_CONTENT ++ [10]) w.

Definition chatty (c : Conversation) (a : AgentRole) : option Message :=
  Some (mkMessage a (py "still working")).

Definition says_terminate : Message :=
  mkMessage Initiator (py "Done. TERMINATE").

Definition says_terminate_newline : Message :=
  mkMessage Initiator (py "Done. TERMINATE" ++ [10]).

(** * Properties *)

(** ** Strings *)

Lemma startswith_app (p r : str) : startswith p (p ++ r) = true.
Proof.
  induction p as [|a p IH]; simpl; [done|].
  by rewrite N.eqb_refl, IH.
Qed.

Lemma startswith_spec (p s : str) :
  startswith p s = true <-> exists r, s = p ++ r.
Proof.
  split.
  - revert s. induction p as [|a p IH]; intros s H.
    + by exists s.
    + destruct s as [|b s]; simpl in H; [done|].
      apply andb_true_iff in H as [Hab Hp].
      apply N.eqb_eq in Hab as ->.
      destruct (IH _ Hp) as [r ->]. by exists r.
  - intros [r ->]. apply startswith_app.
Qed.

Lemma endswith_spec (s suffix : str) :
  endswith s suffix = true <-> exists p, s = p ++ suffix.
Proof.
  unfold endswith. rewrite startswith_spec. split.
  - intros [r Hr]. exists (rev r).
    rewrite <- (rev_involutive s), Hr, rev_app_distr.
    by rewrite rev_involutive.
  - intros [p ->]. exists (rev p). by rewrite rev_app_distr.
Qed.

Lemma lstrip_app_nonspace (p t : str) c :
  isspace c = false -> exists p', lstrip (p ++ c :: t) = p' ++ c :: t.
Proof.
  intros Hc. induction p as [|a p [p' IH]]; simpl.
  - exists []. by rewrite Hc.
  - destruct (isspace a); [by exists p'|by exists (a :: p)].
Qed.

Lemma lstrip_nonspace (t : str) c :
  isspace c = false -> lstrip (c :: t) = c :: t.
Proof. intros Hc. simpl. by rewrite Hc. Qed.

(** Stripping keeps a suffix whose first and last characters are not white
    space. *)
Lemma strip_keeps_suffix (s t : str) a b :
  isspace a = false -> isspace b = false ->
  endswith s (a :: t ++ [b]) = true ->
  endswith (strip s) (a :: t ++ [b]) = true.
Proof.
  intros Ha Hb [p ->]%endswith_spec.
  apply endswith_spec. unfold strip, rstrip.
  destruct (lstrip_app_nonspace p (t ++ [b]) a Ha) as [p' ->].
  exists p'.
  replace (p' ++ a :: t ++ [b]) with ((p' ++ a :: t) ++ [b])
    by (by rewrite <- app_assoc).
  rewrite rev_app_distr. cbn [rev app].
  rewrite (lstrip_nonspace _ b Hb). cbn [rev].
  by rewrite rev_involutive.
Qed.

(** ** The decoder *)

Lemma skipws_length (s : str) : (length (skipws s) <= length s)%nat.
Proof.
  induction s as [|c s IH]; simpl; [lia|].
  destruct (is_ws c); simpl; lia.
Qed.

Lemma expect_length c (s r : str) :
  expect c s = Some r -> length s = S (length r).
Proof.
  destruct s as [|x s]; simpl; [done|].
  destruct (x =? c); [|done]. by intros [= ->].
Qed.

Lemma cons_char_Some c o (v r : str) :
  cons_char c o = Some (v, r) -> exists v', o = Some (v', r) /\ v = c :: v'.
Proof.
  destruct o as [[v' r']|]; simpl; [|done].
  intros [= <- <-]. by exists v'.
Qed.

Lemma scanstring_length_bounded (n : nat) (s v r : str) :
  (length s <= n)%nat ->
  scanstring s = Some (v, r) -> (length r < length s)%nat.
Proof.
  revert s v r.
  induction n as [|n IH]; intros s v r Hle; (destruct s as [|c s]; [done|]);
    simpl in Hle; [lia|].
  assert (IH' : forall c' (t : str) v r, (length t <= n)%nat ->
            cons_char c' (scanstring t) = Some (v, r) ->
            (length r < S (length t))%nat).
  { intros c' t v0 r0 Ht (v' & Hs & _)%cons_char_Some.
    specialize (IH _ _ _ Ht Hs). lia. }
  intros H. simpl in H.
  destruct (c =? 34); [injection H as <- <-; simpl; lia|].
  destruct (c =? 92).
  2: { destruct (c <? 32); [done|].
       apply IH' in H; simpl in *; lia. }
  destruct s as [|e r1]; [done|].
  destruct (e =? 117).
  2: { destruct (backslash e); [|done].
       apply IH' in H; simpl in *; lia. }
  destruct r1 as [|h1 [|h2 [|h3 [|h4 r2]]]]; try done.
  destruct (decode_uXXXX h1 h2 h3 h4) as [uni|]; [|done].
  destruct r2 as [|b [|u [|g1 [|g2 [|g3 [|g4 r3]]]]]];
    try (apply IH' in H; simpl in *; lia).
  destruct (is_high_surrogate uni && (b =? 92) && (u =? 117)).
  2: { apply IH' in H; simpl in *; lia. }
  destruct (decode_uXXXX g1 g2 g3 g4) as [uni2|]; [|done].
  destruct (is_low_surrogate uni2); apply IH' in H; simpl in *; lia.
Qed.

Lemma scanstring_length (s v r : str) :
  scanstring s = Some (v, r) -> (length r < length s)%nat.
Proof. by apply (scanstring_length_bounded (length s)). Qed.

Lemma span_digits_length (s ds r : str) :
  span_digits s = (ds, r) -> length s = (length ds + length r)%nat.
Proof.
  revert ds r. induction s as [|c s IH]; intros ds r; simpl.
  - by intros [= <- <-].
  - destruct (isdigit c).
    + destruct (span_digits s) as [ds' r'] eqn:Hs.
      intros [= <- <-]. simpl. by rewrite (IH _ _ eq_refl).
    + by intros [= <- <-].
Qed.

Lemma match_integer_length (s l r : str) :
  match_integer s = Some (l, r) -> (length r < length s)%nat.
Proof.
  unfold match_integer.
  destruct (expect 45 s) as [s1|] eqn:Hsign.
  - apply expect_length in Hsign.
    destruct s1 as [|d s2]; [done|].
    destruct (d =? 48); [intros [= <- <-]; simpl in *; lia|].
    destruct (isdigit d); [|done].
    destruct (span_digits s2) as [ds rest] eqn:Hds.
    apply span_digits_length in Hds.
    intros [= <- <-]. simpl in *. lia.
  - destruct s as [|d s2]; [done|].
    destruct (d =? 48); [intros [= <- <-]; simpl in *; lia|].
    destruct (isdigit d); [|done].
    destruct (span_digits s2) as [ds rest] eqn:Hds.
    apply span_digits_length in Hds.
    intros [= <- <-]. simpl in *. lia.
Qed.

Lemma match_frac_length (s l r : str) :
  match_frac s = (l, r) -> (length r <= length s)%nat.
Proof.
  unfold match_frac.
  destruct (expect 46 s) as [s1|] eqn:Hdot; [|by intros [= <- <-]].
  apply expect_length in Hdot.
  destruct (span_digits s1) as [[|d ds] rest] eqn:Hds;
    [by intros [= <- <-]|].
  apply span_digits_length in Hds. intros [= <- <-]. simpl in *. lia.
Qed.

Lemma match_exp_length (s l r : str) :
  match_exp s = (l, r) -> (length r <= length s)%nat.
Proof.
  unfold match_exp.
  destruct s as [|e s1]; [by intros [= <- <-]|].
  destruct ((e =? 101) || (e =? 69)); [|by intros [= <- <-]].
  destruct s1 as [|c s2].
  - simpl. by intros [= <- <-].
  - destruct ((c =? 45) || (c =? 43)).
    + destruct (span_digits s2) as [[|d ds] rest] eqn:Hds;
        [by intros [= <- <-]|].
      apply span_digits_length in Hds. intros [= <- <-]. simpl in *. lia.
    + destruct (span_digits (c :: s2)) as [[|d ds] rest] eqn:Hds;
        [by intros [= <- <-]|].
      apply span_digits_length in Hds. intros [= <- <-]. simpl in *. lia.
Qed.

Lemma match_number_length (s l r : str) :
  match_number s = Some (l, r) -> (length r < length s)%nat.
Proof.
  unfold match_number.
  destruct (match_integer s) as [[integer r1]|] eqn:Hint; [|done].
  destruct (match_frac r1) as [frac r2] eqn:Hfrac.
  destruct (match_exp r2) as [exp r3] eqn:Hexp.
  apply match_integer_length in Hint. apply match_frac_length in Hfrac.
  apply match_exp_length in Hexp. intros [= <- <-]. lia.
Qed.

Lemma after_prefix_length (p s r : str) :
  after_prefix p s = Some r -> length s = (length p + length r)%nat.
Proof.
  revert s. induction p as [|a p IH]; intros s; simpl.
  - by intros [= ->].
  - destruct s as [|b s]; [done|].
    destruct (a =? b); [|done]. intros H%IH. simpl. lia.
Qed.

Lemma scan_scalar_length (s : str) v (r : str) :
  scan_scalar s = Parsed v r -> (length r < length s)%nat.
Proof.
  unfold scan_scalar.
  repeat match goal with
  | |- context [after_prefix ?p s] =>
      let H := fresh "H" in
      destruct (after_prefix p s) eqn:H;
      [apply after_prefix_length in H; intros [= <- <-]; simpl in H; lia|]
  | |- context [match_number s] =>
      let H := fresh "H" in
      destruct (match_number s) as [[? ?]|] eqn:H;
      [apply match_number_length in H; intros [= <- <-]; lia|]
  end.
  done.
Qed.

Lemma scan_scalar_not_exhausted (s : str) : scan_scalar s <> Exhausted.
Proof.
  unfold scan_scalar.
  repeat match goal with
  | |- context [after_prefix ?p s] => destruct (after_prefix p s); [done|]
  | |- context [match_number s] => destruct (match_number s) as [[? ?]|]; [done|]
  end.
  done.
Qed.

(** Breaks the next test of a decoder equation down, keeping what the test
    found about lengths. *)
Ltac decoder_case H :=
  match type of H with
  | context [scanstring ?s] =>
      let E := fresh "Hstr" in
      destruct (scanstring s) as [[? ?]|] eqn:E;
      [apply scanstring_length in E|]
  | context [expect ?c ?s] =>
      let E := fresh "Hch" in
      destruct (expect c s) eqn:E; [apply expect_length in E|]
  | context [if ?b then _ else _] => destruct b
  end.

Lemma decoder_consumes (fuel : nat) :
  (forall (s : str) v (r : str),
     scan_once fuel s = Parsed v r -> (length r < length s)%nat) /\
  (forall (s : str) vs (r : str),
     JSONArray fuel s = Parsed vs r -> (length r < length s)%nat) /\
  (forall (s : str) ps (r : str),
     JSONObject fuel s = Parsed ps r -> (length r < length s)%nat).
Proof.
  induction fuel as [|fuel (IHv & IHa & IHo)]; [done|].
  repeat split.
  - intros [|c s] v r H; [done|]. simpl in H.
    pose proof (skipws_length s).
    destruct (c =? 34).
    { decoder_case H; [|done]. injection H as <- <-. simpl. lia. }
    destruct (c =? 123).
    { decoder_case H; [injection H as <- <-; simpl; lia|].
      decoder_case H; [|done].
      destruct (JSONObject fuel l) as [ps rest| |] eqn:Ho; try done.
      apply IHo in Ho. injection H as <- <-. simpl. lia. }
    destruct (c =? 91).
    { decoder_case H; [injection H as <- <-; simpl; lia|].
      destruct (JSONArray fuel (skipws s)) as [vs rest| |] eqn:Ha; try done.
      apply IHa in Ha. injection H as <- <-. simpl. lia. }
    by apply scan_scalar_length in H.
  - intros s vs r H. simpl in H.
    destruct (scan_once fuel s) as [value r1| |] eqn:Hv; try done.
    apply IHv in Hv. pose proof (skipws_length r1).
    decoder_case H; [injection H as <- <-; lia|].
    decoder_case H; [|done].
    pose proof (skipws_length l).
    destruct (JSONArray fuel (skipws l)) as [values rest| |] eqn:Ha; try done.
    apply IHa in Ha. injection H as <- <-. lia.
  - intros s ps r H. simpl in H.
    decoder_case H; [|done].
    pose proof (skipws_length l0).
    decoder_case H; [|done].
    pose proof (skipws_length l1).
    destruct (scan_once fuel (skipws l1)) as [value r2| |] eqn:Hv; try done.
    apply IHv in Hv. pose proof (skipws_length r2).
    decoder_case H; [injection H as <- <-; lia|].
    decoder_case H; [|done].
    pose proof (skipws_length l2).
    decoder_case H; [|done].
    destruct (JSONObject fuel l3) as [pairs rest| |] eqn:Ho; try done.
    apply IHo in Ho. injection H as <- <-. lia.
Qed.

(** Twice the length of the text is enough fuel. *)
Lemma decoder_fuel (fuel : nat) :
  (forall s : str, (2 * length s < fuel)%nat -> scan_once fuel s <> Exhausted) /\
  (forall s : str,
     (2 * length s + 1 < fuel)%nat -> JSONArray fuel s <> Exhausted) /\
  (forall s : str,
     (2 * length s + 1 < fuel)%nat -> JSONObject fuel s <> Exhausted).
Proof.
  induction fuel as [|fuel (IHv & IHa & IHo)]; [repeat split; intros; lia|].
  destruct (decoder_consumes fuel) as (Cv & Ca & Co).
  repeat split.
  - intros [|c s] Hfuel H; [done|]. simpl in H, Hfuel.
    pose proof (skipws_length s).
    destruct (c =? 34).
    { by decoder_case H. }
    destruct (c =? 123).
    { decoder_case H; [done|]. decoder_case H; [|done].
      destruct (JSONObject fuel l) as [ps rest| |] eqn:Ho; try done.
      apply IHo in Ho; [done|lia]. }
    destruct (c =? 91).
    { decoder_case H; [done|].
      destruct (JSONArray fuel (skipws s)) as [vs rest| |] eqn:Ha; try done.
      apply IHa in Ha; [done|lia]. }
    by apply scan_scalar_not_exhausted in H.
  - intros s Hfuel H. simpl in H.
    destruct (scan_once fuel s) as [value r1| |] eqn:Hv; try done.
    2: { apply IHv in Hv; [done|lia]. }
    apply Cv in Hv. pose proof (skipws_length r1).
    decoder_case H; [done|]. decoder_case H; [|done].
    pose proof (skipws_length l).
    destruct (JSONArray fuel (skipws l)) as [values rest| |] eqn:Ha; try done.
    apply IHa in Ha; [done|lia].
  - intros s Hfuel H. simpl in H.
    decoder_case H; [|done].
    pose proof (skipws_length l0).
    decoder_case H; [|done].
    pose proof (skipws_length l1).
    destruct (scan_once fuel (skipws l1)) as [value r2| |] eqn:Hv; try done.
    2: { apply IHv in Hv; [done|lia]. }
    apply Cv in Hv. pose proof (skipws_length r2).
    decoder_case H; [done|]. decoder_case H; [|done].
    pose proof (skipws_length l2).
    decoder_case H; [|done].
    destruct (JSONObject fuel l3) as [pairs rest| |] eqn:Ho; try done.
    apply IHo in Ho; [done|lia].
Qed.

Lemma scan_once_fuel (s : str) : scan_once (2 * length s + 1) s <> Exhausted.
Proof. apply decoder_fuel. lia. Qed.

(** More fuel does not change a result. *)
Lemma decoder_mono (fuel : nat) :
  (forall (s : str) res fuel',
     scan_once fuel s = res -> res <> Exhausted -> (fuel <= fuel')%nat ->
     scan_once fuel' s = res) /\
  (forall (s : str) res fuel',
     JSONArray fuel s = res -> res <> Exhausted -> (fuel <= fuel')%nat ->
     JSONArray fuel' s = res) /\
  (forall (s : str) res fuel',
     JSONObject fuel s = res -> res <> Exhausted -> (fuel <= fuel')%nat ->
     JSONObject fuel' s = res).
Proof.
  induction fuel as [|fuel (IHv & IHa & IHo)];
    [repeat split; by intros ? ? ? <-|].
  repeat split.
  - intros s res [|fuel'] H Hres Hle; [lia|].
    assert (Hle' : (fuel <= fuel')%nat) by lia.
    destruct s as [|c s]; [done|]. simpl in *.
    destruct (c =? 34); [done|].
    destruct (c =? 123).
    { destruct (expect 125 (skipws s)); [done|].
      destruct (expect 34 (skipws s)) as [r1|]; [|done].
      destruct (JSONObject fuel r1) as [ps rest| |] eqn:Ho.
      - by rewrite (IHo _ _ fuel' Ho).
      - by rewrite (IHo _ _ fuel' Ho).
      - by subst res. }
    destruct (c =? 91); [|done].
    destruct (expect 93 (skipws s)); [done|].
    destruct (JSONArray fuel (skipws s)) as [vs rest| |] eqn:Ha.
    + by rewrite (IHa _ _ fuel' Ha).
    + by rewrite (IHa _ _ fuel' Ha).
    + by subst res.
  - intros s res [|fuel'] H Hres Hle; [lia|].
    assert (Hle' : (fuel <= fuel')%nat) by lia. simpl in *.
    destruct (scan_once fuel s) as [value r1| |] eqn:Hv.
    3: by subst res.
    2: by rewrite (IHv _ _ fuel' Hv).
    rewrite (IHv _ _ fuel' Hv) by done.
    destruct (expect 93 (skipws r1)); [done|].
    destruct (expect 44 (skipws r1)) as [r2|]; [|done].
    destruct (JSONArray fuel (skipws r2)) as [values rest| |] eqn:Ha.
    + by rewrite (IHa _ _ fuel' Ha).
    + by rewrite (IHa _ _ fuel' Ha).
    + by subst res.
  - intros s res [|fuel'] H Hres Hle; [lia|].
    assert (Hle' : (fuel <= fuel')%nat) by lia. simpl in *.
    destruct (scanstring s) as [[key r]|]; [|done].
    destruct (expect 58 (skipws r)) as [r1|]; [|done].
    destruct (scan_once fuel (skipws r1)) as [value r2| |] eqn:Hv.
    3: by subst res.
    2: by rewrite (IHv _ _ fuel' Hv).
    rewrite (IHv _ _ fuel' Hv) by done.
    destruct (expect 125 (skipws r2)); [done|].
    destruct (expect 44 (skipws r2)) as [r3|]; [|done].
    destruct (expect 34 (skipws r3)) as [r4|]; [|done].
    destruct (JSONObject fuel r4) as [pairs rest| |] eqn:Ho.
    + by rewrite (IHo _ _ fuel' Ho).
    + by rewrite (IHo _ _ fuel' Ho).
    + by subst res.
Qed.

(** A value decoded with some fuel is the value [json_loads] decodes. *)
Lemma scan_once_enough (fuel : nat) (s : str) v (r : str) :
  scan_once fuel s = Parsed v r ->
  scan_once (2 * length s + 1) s = Parsed v r.
Proof.
  intros H.
  destruct (Nat.le_gt_cases fuel (2 * length s + 1)) as [Hle|Hgt].
  - by apply (proj1 (decoder_mono fuel) s _ _ H).
  - pose proof (scan_once_fuel s) as Hfuel.
    rewrite <- H. symmetry.
    apply (proj1 (decoder_mono (2 * length s + 1)) s _ fuel eq_refl Hfuel).
    lia.
Qed.

(** ** Encoding and decoding a string *)

Lemma hexval_hexdigit (d : N) : d < 16 -> hexval (hexdigit d) = Some d.
Proof.
  intros Hd. unfold hexdigit, hexval.
  destruct (N.ltb_spec d 10).
  - destruct (N.leb_spec 48 (48 + d)), (N.leb_spec (48 + d) 57); simpl;
      try lia.
    f_equal. lia.
  - destruct (N.leb_spec 48 (87 + d)), (N.leb_spec (87 + d) 57),
      (N.leb_spec 97 (87 + d)), (N.leb_spec (87 + d) 102); simpl; try lia.
    f_equal. lia.
Qed.

Lemma decode_escape_u (n : N) (tail : str) :
  n < 65536 ->
  exists h1 h2 h3 h4,
    escape_u n ++ tail = 92 :: 117 :: h1 :: h2 :: h3 :: h4 :: tail /\
    decode_uXXXX h1 h2 h3 h4 = Some n.
Proof.
  intros Hn. unfold escape_u. do 4 eexists. split; [reflexivity|].
  unfold decode_uXXXX.
  rewrite !hexval_hexdigit by (try apply N.mod_upper_bound; lia).
  f_equal.
  pose proof (N.div_mod n 4096 ltac:(lia)).
  pose proof (N.mod_upper_bound n 4096 ltac:(lia)).
  assert (n / 4096 < 16) by (apply N.Div0.div_lt_upper_bound; lia).
  rewrite (N.mod_small (n / 4096) 16) by done.
  assert (H256 : n / 256 mod 16 = (n mod 4096) / 256).
  { replace 4096 with (256 * 16) by done.
    rewrite N.Div0.mod_mul_r, N.mul_comm, N.div_add by lia.
    rewrite (N.div_small (n mod 256) 256), N.add_0_l; [done|].
    apply N.mod_upper_bound; lia. }
  assert (H16 : n / 16 mod 16 = (n mod 256) / 16).
  { replace 256 with (16 * 16) by done.
    rewrite N.Div0.mod_mul_r, N.mul_comm, N.div_add by lia.
    rewrite (N.div_small (n mod 16) 16), N.add_0_l; [done|].
    apply N.mod_upper_bound; lia. }
  rewrite H256, H16.
  pose proof (N.div_mod (n mod 4096) 256 ltac:(lia)) as E1.
  pose proof (N.div_mod (n mod 256) 16 ltac:(lia)) as E2.
  assert (E3 : n mod 4096 mod 256 = n mod 256).
  { replace 4096 with (256 * 16) by done.
    rewrite N.Div0.mod_mul_r, N.mul_comm, N.Div0.mod_add.
    by rewrite N.Div0.mod_mod. }
  assert (E4 : n mod 256 mod 16 = n mod 16).
  { replace 256 with (16 * 16) by done.
    rewrite N.Div0.mod_mul_r, N.mul_comm, N.Div0.mod_add.
    by rewrite N.Div0.mod_mod. }
  rewrite E3 in E1. rewrite E4 in E2. lia.
Qed.

Lemma lor_high_low (a b : N) :
  b < 1024 -> N.lor (N.shiftl a 10) b = a * 1024 + b.
Proof.
  intros Hb.
  assert (Hland : N.land (N.shiftl a 10) b = 0).
  { apply N.bits_inj_0. intros n. rewrite N.land_spec.
    destruct (N.lt_ge_cases n 10) as [Hlt|Hge].
    - by rewrite N.shiftl_spec_low.
    - rewrite <- (N.mod_small b (2 ^ 10)) by done.
      rewrite N.mod_pow2_bits_high by done. apply andb_false_r. }
  rewrite <- N.lxor_lor, <- N.add_nocarry_lxor by done.
  by rewrite N.shiftl_mul_pow2.
Qed.

Lemma surrogate_pair (v : N) :
  v < 1048576 ->
  let hi := N.lor 55296 (N.land (N.shiftr v 10) 1023) in
  let lo := N.lor 56320 (N.land v 1023) in
  hi = 55296 + v / 1024 /\ lo = 56320 + v mod 1024 /\
  is_high_surrogate hi = true /\ is_low_surrogate lo = true /\
  join_surrogates hi lo = 65536 + v.
Proof.
  intros Hv hi lo.
  assert (Hdiv : v / 1024 < 1024) by (apply N.Div0.div_lt_upper_bound; lia).
  assert (Hmod : v mod 1024 < 1024) by (apply N.mod_upper_bound; lia).
  pose proof (N.le_0_l (v / 1024)). pose proof (N.le_0_l (v mod 1024)).
  assert (Hhi : hi = 55296 + v / 1024).
  { unfold hi. change 1023 with (N.ones 10). change 55296 with (N.shiftl 54 10).
    rewrite N.land_ones, N.shiftr_div_pow2.
    change (2 ^ 10) with 1024. rewrite (N.mod_small _ _ Hdiv).
    by rewrite lor_high_low. }
  assert (Hlo : lo = 56320 + v mod 1024).
  { unfold lo. change 1023 with (N.ones 10). change 56320 with (N.shiftl 55 10).
    rewrite N.land_ones. change (2 ^ 10) with 1024.
    by rewrite lor_high_low. }
  repeat split; try done.
  - rewrite Hhi. unfold is_high_surrogate.
    destruct (N.leb_spec 55296 (55296 + v / 1024)),
      (N.leb_spec (55296 + v / 1024) 56319); simpl; try done; exfalso; lia.
  - rewrite Hlo. unfold is_low_surrogate.
    destruct (N.leb_spec 56320 (56320 + v mod 1024)),
      (N.leb_spec (56320 + v mod 1024) 57343); simpl; try done; exfalso; lia.
  - unfold join_surrogates. rewrite Hhi, Hlo.
    replace (55296 + v / 1024 - 55296) with (v / 1024) by lia.
    replace (56320 + v mod 1024 - 56320) with (v mod 1024) by lia.
    rewrite lor_high_low by done.
    pose proof (N.div_mod v 1024 ltac:(lia)). lia.
Qed.

Lemma scanstring_u (h1 h2 h3 h4 uni : N) (tail : str) :
  decode_uXXXX h1 h2 h3 h4 = Some uni ->
  is_high_surrogate uni = false ->
  scanstring (92 :: 117 :: h1 :: h2 :: h3 :: h4 :: tail) =
  cons_char uni (scanstring tail).
Proof.
  intros Hdec Hhigh.
  change (scanstring (92 :: 117 :: h1 :: h2 :: h3 :: h4 :: tail)) with
    (match decode_uXXXX h1 h2 h3 h4 with
     | None => None
     | Some uni =>
         match tail with
         | b :: u :: g1 :: g2 :: g3 :: g4 :: r3 =>
             if is_high_surrogate uni && (b =? 92) && (u =? 117)
             then
               match decode_uXXXX g1 g2 g3 g4 with
               | None => None
               | Some uni2 =>
                   if is_low_surrogate uni2
                   then cons_char (join_surrogates uni uni2) (scanstring r3)
                   else cons_char uni (scanstring tail)
               end
             else cons_char uni (scanstring tail)
         | _ => cons_char uni (scanstring tail)
         end
     end).
  rewrite Hdec, Hhigh.
  by destruct tail as [|b [|u [|g1 [|g2 [|g3 [|g4 r3]]]]]].
Qed.

Lemma scanstring_pair (h1 h2 h3 h4 g1 g2 g3 g4 hi lo : N) (tail : str) :
  decode_uXXXX h1 h2 h3 h4 = Some hi -> is_high_surrogate hi = true ->
  decode_uXXXX g1 g2 g3 g4 = Some lo -> is_low_surrogate lo = true ->
  scanstring (92 :: 117 :: h1 :: h2 :: h3 :: h4 ::
              92 :: 117 :: g1 :: g2 :: g3 :: g4 :: tail) =
  cons_char (join_surrogates hi lo) (scanstring tail).
Proof.
  intros Hhi Hhigh Hlo Hlow.
  change (scanstring (92 :: 117 :: h1 :: h2 :: h3 :: h4 ::
                      92 :: 117 :: g1 :: g2 :: g3 :: g4 :: tail)) with
    (match decode_uXXXX h1 h2 h3 h4 with
     | None => None
     | Some uni =>
         if is_high_surrogate uni && (92 =? 92) && (117 =? 117)
         then
           match decode_uXXXX g1 g2 g3 g4 with
           | None => None
           | Some uni2 =>
               if is_low_surrogate uni2
               then cons_char (join_surrogates uni uni2) (scanstring tail)
               else cons_char uni
                      (scanstring (92 :: 117 :: g1 :: g2 :: g3 :: g4 :: tail))
           end
         else cons_char uni
                (scanstring (92 :: 117 :: g1 :: g2 :: g3 :: g4 :: tail))
     end).
  by rewrite Hhi, Hhigh, Hlo, Hlow.
Qed.

Lemma scanstring_escape_char (c : N) (tail : str) :
  scalar c = true ->
  scanstring (escape_char c ++ tail) = cons_char c (scanstring tail).
Proof.
  intros Hc. unfold escape_char.
  destruct (N.eqb_spec c 92) as [->|H92]; [done|].
  destruct (N.eqb_spec c 34) as [->|H34]; [done|].
  destruct (N.eqb_spec c 8) as [->|H8]; [done|].
  destruct (N.eqb_spec c 12) as [->|H12]; [done|].
  destruct (N.eqb_spec c 10) as [->|H10]; [done|].
  destruct (N.eqb_spec c 13) as [->|H13]; [done|].
  destruct (N.eqb_spec c 9) as [->|H9]; [done|].
  destruct (N.leb_spec 32 c) as [H32|H32]; simpl.
  { destruct (N.leb_spec c 126) as [H126|H126]; simpl.
    - destruct (N.eqb_spec c 34); [done|]. destruct (N.eqb_spec c 92); [done|].
      by destruct (N.ltb_spec c 32); [lia|].
    - destruct (N.ltb_spec c 65536) as [Hbmp|Hastral].
      + destruct (decode_escape_u c tail Hbmp) as (h1 & h2 & h3 & h4 & -> & Hdec).
        apply scanstring_u; [done|].
        unfold scalar, is_high_surrogate in *.
        destruct (N.ltb_spec c 55296), (N.ltb_spec 57343 c),
          (N.leb_spec 55296 c), (N.leb_spec c 56319); simpl in *; try done;
          exfalso; lia.
      + assert (Hv : c - 65536 < 1048576).
        { unfold scalar in Hc.
          destruct (N.ltb_spec c 55296), (N.ltb_spec c 1114112);
            simpl in Hc; lia. }
        destruct (surrogate_pair _ Hv) as (Hhi & Hlo & Hhigh & Hlow & Hjoin).
        cbv zeta in *.
        set (hi := N.lor 55296 (N.land (N.shiftr (c - 65536) 10) 1023)) in *.
        set (lo := N.lor 56320 (N.land (c - 65536) 1023)) in *.
        assert (Hhi16 : hi < 65536).
        { pose proof (N.Div0.div_lt_upper_bound (c - 65536) 1024 1024).
          pose proof (N.le_0_l ((c - 65536) / 1024)). lia. }
        assert (Hlo16 : lo < 65536).
        { pose proof (N.mod_upper_bound (c - 65536) 1024).
          pose proof (N.le_0_l ((c - 65536) mod 1024)). lia. }
        change (scanstring ((escape_u hi ++ escape_u lo) ++ tail) =
                cons_char c (scanstring tail)).
        rewrite <- app_assoc.
        destruct (decode_escape_u lo tail Hlo16)
          as (g1 & g2 & g3 & g4 & -> & Hdec2).
        destruct (decode_escape_u hi (92 :: 117 :: g1 :: g2 :: g3 :: g4 :: tail)
                    Hhi16) as (h1 & h2 & h3 & h4 & -> & Hdec1).
        rewrite (scanstring_pair _ _ _ _ _ _ _ _ _ _ _ Hdec1 Hhigh Hdec2 Hlow).
        rewrite Hjoin. f_equal. lia. }
  destruct (decode_escape_u c tail ltac:(lia)) as (h1 & h2 & h3 & h4 & E & Hdec).
  destruct (N.ltb_spec c 65536); [|lia].
  rewrite E. apply scanstring_u; [done|].
  unfold is_high_surrogate. destruct (N.leb_spec 55296 c); [lia|done].
Qed.

Lemma scanstring_encode (s rest : str) :
  forallb scalar s = true ->
  scanstring (flat_map escape_char s ++ 34 :: rest) = Some (s, rest).
Proof.
  induction s as [|c s IH]; simpl; [done|].
  intros [Hc Hs]%andb_true_iff.
  rewrite <- app_assoc, (scanstring_escape_char _ _ Hc).
  by rewrite (IH Hs).
Qed.

(** ** [json.loads] reads back what [json.dumps] writes *)

Lemma json_nested_ind (P : json -> Prop) :
  P JNull -> (forall b, P (JBool b)) -> (forall l, P (JNum l)) ->
  (forall s, P (JStr s)) ->
  (forall items, Forall P items -> P (JArr items)) ->
  (forall fields, Forall (fun kv => P (snd kv)) fields -> P (JObj fields)) ->
  forall v, P v.
Proof.
  intros HNull HBool HNum HStr HArr HObj.
  fix IH 1. intros [|b|l|s|items|fields].
  - apply HNull.
  - apply HBool.
  - apply HNum.
  - apply HStr.
  - apply HArr.
    revert items. fix IHitems 1. intros [|x items].
    + constructor.
    + constructor; [apply IH|apply IHitems].
  - apply HObj.
    revert fields. fix IHfields 1. intros [|[k x] fields].
    + constructor.
    + constructor; [apply IH|apply IHfields].
Qed.

Lemma skipws_head (c : N) (t : str) :
  is_ws c = false -> skipws (c :: t) = c :: t.
Proof. intros H. simpl. by rewrite H. Qed.

Lemma skipws_newline_indent (level : nat) (s : str) :
  skipws (newline_indent level ++ s) = skipws s.
Proof.
  unfold newline_indent. generalize (4 * level)%nat. intros n.
  change (skipws (repeat 32 n ++ s) = skipws s).
  by induction n as [|n IH].
Qed.

(** *** Numbers *)

Lemma span_digits_app (ds t : str) :
  forallb isdigit ds = true -> nondigit_head t ->
  span_digits (ds ++ t) = (ds, t).
Proof.
  intros Hds Ht. induction ds as [|d ds IH]; simpl in *.
  - destruct t as [|c t]; [done|]. simpl in *. by rewrite Ht.
  - apply andb_true_iff in Hds as [Hd Hds]. by rewrite Hd, IH.
Qed.

Lemma break_at_spec (p : N -> bool) (s before from : str) :
  break_at p s = (before, from) ->
  s = before ++ from /\
  match from with
  | [] => True
  | c :: _ => p c = true
  end.
Proof.
  revert before from. induction s as [|c s IH]; intros before from H.
  - by injection H as <- <-.
  - simpl in H. destruct (p c) eqn:Hc.
    + by injection H as <- <-.
    + destruct (break_at p s) as [a b]. injection H as <- <-.
      destruct (IH a b eq_refl) as [-> Hb]. done.
Qed.

Lemma digits_spec (s : str) :
  digits s = true ->
  exists d ds, s = d :: ds /\ isdigit d = true /\ forallb isdigit ds = true.
Proof.
  destruct s as [|d ds]; [done|]. simpl. intros [? ?]%andb_true_iff. eauto.
Qed.

(** The parts of a number literal. *)
Lemma number_literal_parts (l : str) :
  number_literal l = true ->
  exists sign integer fraction exponent,
    l = sign ++ integer ++ fraction ++ exponent /\
    ((sign = [45]) \/ (sign = [] /\ expect 45 l = None)) /\
    digits integer = true /\
    (integer = [48] \/ startswith [48] integer = false) /\
    (fraction = [] \/ exists ds, fraction = 46 :: ds /\ digits ds = true) /\
    (exponent = [] \/
     exists e sg es,
       exponent = e :: sg ++ es /\ (e =? 101) || (e =? 69) = true /\
       digits es = true /\
       (sg = [] \/ exists c, sg = [c] /\ (c =? 45) || (c =? 43) = true)).
Proof.
  unfold number_literal. intros H.
  set (unsigned := match expect 45 l with Some r => r | None => l end) in *.
  destruct (break_at _ unsigned) as [mantissa exponent] eqn:He.
  destruct (break_at _ mantissa) as [integer fraction] eqn:Hf.
  apply break_at_spec in He as [Hu He]. apply break_at_spec in Hf as [Hm Hf].
  apply andb_true_iff in H as [H Hexp]. apply andb_true_iff in H as [H Hfrac].
  apply andb_true_iff in H as [Hint Hzero].
  exists (match expect 45 l with Some _ => [45] | None => [] end),
    integer, fraction, exponent.
  repeat split.
  - rewrite (app_assoc integer), <- Hm, <- Hu. unfold unsigned.
    destruct l as [|c l]; [done|]. simpl.
    destruct (N.eqb_spec c 45) as [->|]; done.
  - destruct (expect 45 l); auto.
  - done.
  - apply orb_true_iff in Hzero as [Hz|Hz].
    + left. by apply bool_decide_eq_true in Hz.
    + right. by apply negb_true_iff.
  - destruct fraction as [|c ds]; [by left|right].
    apply N.eqb_eq in Hf as ->. by exists ds.
  - destruct exponent as [|e r]; [by left|right].
    destruct r as [|c r']; [done|].
    destruct ((c =? 43) || (c =? 45)) eqn:Hc.
    + exists e, [c], r'. repeat split; try done.
      right. exists c. split; [done|]. by rewrite orb_comm.
    + exists e, [], (c :: r'). repeat split; try done. by left.
Qed.

Lemma number_literal_head (l : str) :
  number_literal l = true ->
  exists c t, l = c :: t /\ (c = 45 \/ isdigit c = true).
Proof.
  intros H.
  destruct (number_literal_parts l H)
    as (sign & integer & fraction & exponent & -> & Hsign & Hint & _).
  apply digits_spec in Hint as (d & ds & -> & Hd & _).
  destruct Hsign as [->|[-> _]]; do 2 eexists; (split; [reflexivity|]); auto.
Qed.

Lemma match_number_literal (l rest : str) :
  number_literal l = true -> delimited rest ->
  match_number (l ++ rest) = Some (l, rest).
Proof.
  intros H Hrest.
  destruct (number_literal_parts l H)
    as (sign & integer & fraction & exponent & Hl & Hsign & Hint & Hzero &
        Hfrac & Hexp).
  assert (Hrest' : nondigit_head rest /\ expect 46 rest = None /\
                   match_exp rest = ([], rest)).
  { destruct rest as [|c rest]; [done|]. simpl in Hrest.
    destruct Hrest as [-> | ->]; done. }
  destruct Hrest' as (Hnd & Hdot & Hnoexp).
  (* the exponent *)
  assert (Hexp' : nondigit_head (exponent ++ rest) /\
                  expect 46 (exponent ++ rest) = None /\
                  match_exp (exponent ++ rest) = (exponent, rest)).
  { destruct Hexp as [->|(e & sg & es & -> & He & Hes & Hsg)]; [done|].
    repeat split.
    - simpl. apply orb_true_iff in He as [->%N.eqb_eq| ->%N.eqb_eq]; done.
    - simpl. apply orb_true_iff in He as [->%N.eqb_eq| ->%N.eqb_eq]; done.
    - simpl. rewrite He.
      apply digits_spec in Hes as (d & ds & -> & Hd & Hds).
      destruct Hsg as [->|(c & -> & Hc)]; simpl.
      + assert (Hns : (d =? 45) || (d =? 43) = false).
        { unfold isdigit in Hd. apply andb_true_iff in Hd as [?%N.leb_le ?].
          apply orb_false_iff.
          split; apply N.eqb_neq; lia. }
        rewrite Hns. simpl. rewrite Hd.
        by rewrite (span_digits_app ds rest Hds Hnd).
      + rewrite Hc. simpl. rewrite Hd.
        by rewrite (span_digits_app ds rest Hds Hnd). }
  destruct Hexp' as (Hnd_e & Hdot_e & Hmexp).
  (* the fraction *)
  assert (Hfrac' : nondigit_head (fraction ++ exponent ++ rest) /\
                   match_frac (fraction ++ exponent ++ rest)
                   = (fraction, exponent ++ rest)).
  { destruct Hfrac as [->|(ds & -> & Hds)].
    - split; [done|]. unfold match_frac. simpl. by rewrite Hdot_e.
    - split; [done|]. unfold match_frac. simpl.
      apply digits_spec in Hds as (d & ds' & -> & Hd & Hds).
      simpl. rewrite Hd.
      by rewrite (span_digits_app ds' _ Hds Hnd_e). }
  destruct Hfrac' as (Hnd_f & Hmfrac).
  (* the integer part *)
  assert (Hmint : match_integer (l ++ rest)
                  = Some (sign ++ integer, fraction ++ exponent ++ rest)).
  { apply digits_spec in Hint as (d & ds & -> & Hd & Hds).
    assert (H45 : (d =? 45) = false).
    { unfold isdigit in Hd. apply andb_true_iff in Hd as [?%N.leb_le ?].
      apply N.eqb_neq. lia. }
    remember (fraction ++ exponent ++ rest) as tail eqn:Htail.
    assert (Hl' : l ++ rest = sign ++ d :: (ds ++ tail)).
    { rewrite Hl, Htail. by rewrite <- !app_assoc. }
    assert (Hspan : span_digits (ds ++ tail) = (ds, tail))
      by (by apply span_digits_app).
    unfold match_integer. rewrite Hl'.
    destruct Hsign as [->|[-> _]]; simpl; rewrite ?H45;
      (destruct (N.eqb_spec d 48) as [->|Hne];
       [destruct Hzero as [[= ->]|Hz]; [done|simpl in Hz; done]
       |by rewrite Hd, Hspan]). }
  unfold match_number. rewrite Hmint, Hmfrac, Hmexp.
  by rewrite Hl, <- !app_assoc.
Qed.

Lemma scan_scalar_number (l rest : str) :
  number_literal l = true -> delimited rest ->
  scan_scalar (l ++ rest) = Parsed (JNum l) rest.
Proof.
  intros H Hrest.
  destruct (number_literal_head l H) as (c & t & Hl & Hc).
  unfold scan_scalar.
  assert (Hp : forall p q, c <> p ->
            after_prefix (p :: q) (l ++ rest) = None).
  { intros p q Hne. rewrite Hl. simpl.
    destruct (N.eqb_spec p c); congruence. }
  assert (Hc' : c <> 110 /\ c <> 116 /\ c <> 102).
  { destruct Hc as [->|Hd]; [done|].
    unfold isdigit in Hd. apply andb_true_iff in Hd as [?%N.leb_le ?%N.leb_le].
    lia. }
  destruct Hc' as (? & ? & ?).
  change (py "null") with (110 :: py "ull").
  change (py "true") with (116 :: py "rue").
  change (py "false") with (102 :: py "alse").
  rewrite !Hp by done.
  by rewrite (match_number_literal l rest H Hrest).
Qed.

Lemma iterencode_head (level : nat) (v : json) :
  well_formed v = true ->
  exists c t,
    iterencode level v = c :: t /\ is_ws c = false /\ c <> 93 /\ c <> 65279.
Proof.
  destruct v as [|[]|l|s|[|x items]|[|kv fields]]; intros Hwf;
    try (by do 2 eexists).
  destruct (number_literal_head l Hwf) as (c & t & -> & Hc).
  exists c, t. split; [done|].
  destruct Hc as [->|Hd]; [done|].
  unfold isdigit in Hd. apply andb_true_iff in Hd as [?%N.leb_le ?%N.leb_le].
  unfold is_ws. repeat split; try lia.
  repeat (apply orb_false_iff; split); apply N.eqb_neq; lia.
Qed.

Lemma scan_once_more (fuel fuel' : nat) (s : str) v (r : str) :
  scan_once fuel s = Parsed v r -> (fuel <= fuel')%nat ->
  scan_once fuel' s = Parsed v r.
Proof. intros H Hle. by apply (proj1 (decoder_mono fuel) s _ _ H). Qed.

Lemma JSONArray_more (fuel fuel' : nat) (s : str) vs (r : str) :
  JSONArray fuel s = Parsed vs r -> (fuel <= fuel')%nat ->
  JSONArray fuel' s = Parsed vs r.
Proof.
  intros H Hle. by apply (proj1 (proj2 (decoder_mono fuel)) s _ _ H).
Qed.

Lemma JSONObject_more (fuel fuel' : nat) (s : str) ps (r : str) :
  JSONObject fuel s = Parsed ps r -> (fuel <= fuel')%nat ->
  JSONObject fuel' s = Parsed ps r.
Proof.
  intros H Hle. by apply (proj2 (proj2 (decoder_mono fuel)) s _ _ H).
Qed.

Lemma dict_set_fresh (k : str) (v : json) (d : list (str * json)) :
  k ∉ map fst d -> dict_set k v d = d ++ [(k, v)].
Proof.
  induction d as [|[k' v'] d IH]; simpl; [done|].
  intros Hk. apply not_elem_of_cons in Hk as [Hne Hk].
  rewrite bool_decide_false by done. by rewrite IH.
Qed.

Lemma dict_of_pairs_distinct (fields : list (str * json)) :
  NoDup (map fst fields) -> dict_of_pairs fields = fields.
Proof.
  unfold dict_of_pairs.
  assert (H : forall acc,
            NoDup (map fst (acc ++ fields)) ->
            fold_left (fun d kv => dict_set (fst kv) (snd kv) d) fields acc
            = acc ++ fields).
  { induction fields as [|[k v] fields IH]; intros acc Hnd; simpl.
    - by rewrite app_nil_r.
    - rewrite dict_set_fresh.
      + rewrite IH; rewrite <- app_assoc; [done|]. exact Hnd.
      + rewrite map_app in Hnd. simpl in Hnd.
        apply NoDup_app in Hnd as (_ & Hnd & _).
        intros Hin. apply (Hnd _ Hin). by left. }
  intros Hnd. by apply (H []).
Qed.

Lemma JSONArray_S (fuel : nat) (s : str) :
  JSONArray (S fuel) s =
  match scan_once fuel s with
  | Parsed value r =>
      match expect 93 (skipws r) with
      | Some rest => Parsed [value] rest
      | None =>
          match expect 44 (skipws r) with
          | Some r1 =>
              match JSONArray fuel (skipws r1) with
              | Parsed values rest => Parsed (value :: values) rest
              | Malformed => Malformed
              | Exhausted => Exhausted
              end
          | None => Malformed
          end
      end
  | Malformed => Malformed
  | Exhausted => Exhausted
  end.
Proof. done. Qed.

Lemma JSONObject_S (fuel : nat) (s : str) :
  JSONObject (S fuel) s =
  match scanstring s with
  | None => Malformed
  | Some (key, r) =>
      match expect 58 (skipws r) with
      | Some r1 =>
          match scan_once fuel (skipws r1) with
          | Parsed value r2 =>
              match expect 125 (skipws r2) with
              | Some rest => Parsed [(key, value)] rest
              | None =>
                  match expect 44 (skipws r2) with
                  | Some r3 =>
                      match expect 34 (skipws r3) with
                      | Some r4 =>
                          match JSONObject fuel r4 with
                          | Parsed pairs rest =>
                              Parsed ((key, value) :: pairs) rest
                          | Malformed => Malformed
                          | Exhausted => Exhausted
                          end
                      | None => Malformed
                      end
                  | None => Malformed
                  end
              end
          | Malformed => Malformed
          | Exhausted => Exhausted
          end
      | None => Malformed
      end
  end.
Proof. done. Qed.

Lemma join_cons2 (sep p q : str) (ps : list str) :
  join sep (p :: q :: ps) = p ++ sep ++ join sep (q :: ps).
Proof. done. Qed.

Lemma skipws_iterencode (level : nat) (v : json) (s : str) :
  well_formed v = true ->
  skipws (iterencode level v ++ s) = iterencode level v ++ s.
Proof.
  intros Hwf.
  destruct (iterencode_head level v Hwf) as (c & t & -> & Hws & _).
  simpl. by rewrite Hws.
Qed.

Lemma JSONArray_items (level : nat) (rest : str) (items : list json) :
  items <> [] ->
  Forall reads_back items ->
  Forall (fun v => well_formed v = true) items ->
  exists fuel,
    JSONArray fuel
      (join (44 :: newline_indent (S level))
            (map (iterencode (S level)) items) ++
       newline_indent level ++ 93 :: rest) = Parsed items rest.
Proof.
  induction items as [|x items IH]; [done|]. intros _ Hread Hwf.
  apply Forall_cons in Hread as [Hx Hread].
  apply Forall_cons in Hwf as [_ Hwf].
  destruct items as [|y more].
  - destruct (Hx (S level) (newline_indent level ++ 93 :: rest))
      as [fuel Hfuel]; [by right|].
    exists (S fuel). rewrite JSONArray_S.
    change (join (44 :: newline_indent (S level))
              (map (iterencode (S level)) [x]))
      with (iterencode (S level) x).
    rewrite Hfuel, skipws_newline_indent.
    by rewrite skipws_head by done.
  - destruct (IH ltac:(done) Hread Hwf) as [fuel2 Hfuel2].
    set (tail := join (44 :: newline_indent (S level))
                   (map (iterencode (S level)) (y :: more)) ++
                 newline_indent level ++ 93 :: rest) in *.
    destruct (Hx (S level) (44 :: newline_indent (S level) ++ tail))
      as [fuel1 Hfuel1]; [by left|].
    exists (S (Nat.max fuel1 fuel2)). rewrite JSONArray_S.
    change (map (iterencode (S level)) (x :: y :: more))
      with (iterencode (S level) x :: iterencode (S level) y ::
            map (iterencode (S level)) more).
    rewrite join_cons2.
    change (iterencode (S level) y :: map (iterencode (S level)) more)
      with (map (iterencode (S level)) (y :: more)).
    rewrite <- !app_assoc. fold tail.
    change ((44 :: newline_indent (S level)) ++ tail)
      with (44 :: newline_indent (S level) ++ tail).
    rewrite (scan_once_more _ _ _ _ _ Hfuel1) by lia.
    rewrite skipws_head by done.
    change (expect 93 (44 :: newline_indent (S level) ++ tail)) with (@None str).
    change (expect 44 (44 :: newline_indent (S level) ++ tail))
      with (Some (newline_indent (S level) ++ tail)).
    cbv beta iota. rewrite skipws_newline_indent.
    assert (Hhead : skipws tail = tail).
    { apply Forall_cons in Hwf as [Hy _]. unfold tail.
      change (map (iterencode (S level)) (y :: more))
        with (iterencode (S level) y :: map (iterencode (S level)) more).
      destruct more as [|z more].
      - by apply skipws_iterencode.
      - change (map (iterencode (S level)) (z :: more))
          with (iterencode (S level) z :: map (iterencode (S level)) more).
        rewrite join_cons2, <- app_assoc. by apply skipws_iterencode. }
    rewrite Hhead. by rewrite (JSONArray_more _ _ _ _ _ Hfuel2) by lia.
Qed.

Lemma expect_hit (c : N) (r : str) : expect c (c :: r) = Some r.
Proof. simpl. by rewrite N.eqb_refl. Qed.

Lemma expect_miss (c x : N) (r : str) : x <> c -> expect c (x :: r) = None.
Proof. intros H. simpl. by destruct (N.eqb_spec x c). Qed.

Lemma skipws_space (r : str) : skipws (32 :: r) = skipws r.
Proof. done. Qed.

Lemma field_text (k enc tail : str) :
  (encode_basestring_ascii k ++ py ": " ++ enc) ++ tail =
  34 :: (flat_map escape_char k ++ 34 :: 58 :: 32 :: enc ++ tail).
Proof.
  unfold encode_basestring_ascii.
  change (py ": ") with [58; 32].
  rewrite <- !app_assoc. done.
Qed.

Lemma JSONObject_fields (level : nat) (rest : str)
    (fields : list (str * json)) :
  fields <> [] ->
  Forall (fun kv => reads_back (snd kv)) fields ->
  Forall (fun kv => forallb scalar (fst kv) = true /\
                    well_formed (snd kv) = true) fields ->
  exists fuel, forall body,
    join (44 :: newline_indent (S level))
      (map (fun kv => match kv with
                      | (k, x) => encode_basestring_ascii k ++ py ": " ++
                                  iterencode (S level) x
                      end) fields) ++
    newline_indent level ++ 125 :: rest = 34 :: body ->
    JSONObject fuel body = Parsed fields rest.
Proof.
  set (field := fun kv : str * json =>
                  match kv with
                  | (k, x) => encode_basestring_ascii k ++ py ": " ++
                              iterencode (S level) x
                  end).
  induction fields as [|[k x] fields IH]; [done|]. intros _ Hread Hwf.
  apply Forall_cons in Hread as [Hx Hread].
  apply Forall_cons in Hwf as [[Hk Hwfx] Hwf].
  simpl in Hx, Hk, Hwfx.
  destruct fields as [|kv2 more].
  - destruct (Hx (S level) (newline_indent level ++ 125 :: rest))
      as [fuel Hfuel]; [by right|].
    exists (S fuel). intros body Hbody.
    change (join (44 :: newline_indent (S level)) (map field [(k, x)]))
      with (encode_basestring_ascii k ++ py ": " ++ iterencode (S level) x)
      in Hbody.
    rewrite field_text in Hbody.
    apply (f_equal (@List.tl N)) in Hbody. cbn [List.tl] in Hbody. subst body.
    rewrite JSONObject_S, (scanstring_encode _ _ Hk).
    rewrite skipws_head by done.
    rewrite expect_hit, skipws_space.
    rewrite skipws_iterencode by done.
    rewrite Hfuel, skipws_newline_indent.
    rewrite skipws_head by done. by rewrite expect_hit.
  - destruct (IH ltac:(done) Hread Hwf) as [fuel2 Hfuel2].
    set (tail := join (44 :: newline_indent (S level)) (map field (kv2 :: more))
                 ++ newline_indent level ++ 125 :: rest) in *.
    destruct (Hx (S level) (44 :: newline_indent (S level) ++ tail))
      as [fuel1 Hfuel1]; [by left|].
    exists (S (Nat.max fuel1 fuel2)). intros body Hbody.
    change (map field ((k, x) :: kv2 :: more))
      with (field (k, x) :: field kv2 :: map field more) in Hbody.
    rewrite join_cons2 in Hbody.
    change (field kv2 :: map field more) with (map field (kv2 :: more))
      in Hbody.
    rewrite <- !app_assoc in Hbody. fold tail in Hbody.
    change (field (k, x))
      with (encode_basestring_ascii k ++ py ": " ++ iterencode (S level) x)
      in Hbody.
    rewrite <- (app_assoc _ _ ((44 :: newline_indent (S level)) ++ tail)) in Hbody.
    rewrite app_assoc, field_text in Hbody.
    apply (f_equal (@List.tl N)) in Hbody. cbn [List.tl] in Hbody. subst body.
    rewrite JSONObject_S, (scanstring_encode _ _ Hk).
    rewrite skipws_head by done.
    rewrite expect_hit, skipws_space.
    rewrite skipws_iterencode by done.
    change ((44 :: newline_indent (S level)) ++ tail)
      with (44 :: newline_indent (S level) ++ tail).
    rewrite (scan_once_more _ _ _ _ _ Hfuel1) by lia.
    rewrite skipws_head by done.
    rewrite expect_miss by done. rewrite expect_hit.
    rewrite skipws_newline_indent.
    assert (Hquote : exists body2, tail = 34 :: body2).
    { unfold tail. destruct kv2 as [k2 x2].
      change (map field ((k2, x2) :: more))
        with (field (k2, x2) :: map field more).
      destruct more as [|kv3 more].
      - change (join (44 :: newline_indent (S level))
                  (field (k2, x2) :: map field []))
          with (encode_basestring_ascii k2 ++ py ": " ++
                iterencode (S level) x2).
        eexists. by rewrite field_text.
      - change (map field (kv3 :: more)) with (field kv3 :: map field more).
        rewrite join_cons2.
        change (field (k2, x2))
          with (encode_basestring_ascii k2 ++ py ": " ++
                iterencode (S level) x2).
        eexists. rewrite <- !app_assoc.
        rewrite (app_assoc _ _ ((44 :: _) ++ _)), app_assoc, field_text.
        done. }
    destruct Hquote as [body2 Hbody2].
    rewrite Hbody2, skipws_head by done.
    rewrite expect_hit.
    by rewrite (JSONObject_more _ _ _ _ _ (Hfuel2 _ Hbody2)) by lia.
Qed.

Lemma forallb_Forall {A} (f : A -> bool) (l : list A) :
  forallb f l = true -> Forall (fun x => f x = true) l.
Proof.
  induction l as [|x l IH]; simpl; [by constructor|].
  intros [Hx Hl]%andb_true_iff. constructor; [done|by apply IH].
Qed.

Lemma scan_once_array (fuel : nat) (r : str) :
  scan_once (S fuel) (91 :: r) =
  match expect 93 (skipws r) with
  | Some rest => Parsed (JArr []) rest
  | None =>
      match JSONArray fuel (skipws r) with
      | Parsed values rest => Parsed (JArr values) rest
      | Malformed => Malformed
      | Exhausted => Exhausted
      end
  end.
Proof. done. Qed.

Lemma scan_once_object (fuel : nat) (r : str) :
  scan_once (S fuel) (123 :: r) =
  match expect 125 (skipws r) with
  | Some rest => Parsed (JObj []) rest
  | None =>
      match expect 34 (skipws r) with
      | Some r1 =>
          match JSONObject fuel r1 with
          | Parsed pairs rest => Parsed (JObj (dict_of_pairs pairs)) rest
          | Malformed => Malformed
          | Exhausted => Exhausted
          end
      | None => Malformed
      end
  end.
Proof. done. Qed.

(** The decoder reads the encoding of a well-formed value back, whatever
    the indentation and whatever delimiter follows. *)
Lemma scan_once_iterencode (v : json) :
  well_formed v = true -> reads_back v.
Proof.
  induction v as [|b|l|s|items IH|fields IH] using json_nested_ind;
    intros Hwf level rest Hrest.
  - by exists 1%nat.
  - exists 1%nat. by destruct b.
  - exists 1%nat. simpl in Hwf.
    change (iterencode level (JNum l)) with l.
    destruct (number_literal_head l Hwf) as (c & t & Hl & Hc).
    assert (Hscan : scan_once 1 (l ++ rest) = scan_scalar (l ++ rest)).
    { rewrite Hl. simpl.
      assert (Hne : c <> 34 /\ c <> 123 /\ c <> 91).
      { destruct Hc as [->|Hd]; [done|]. unfold isdigit in Hd.
        apply andb_true_iff in Hd as [?%N.leb_le ?%N.leb_le]. lia. }
      destruct Hne as (? & ? & ?).
      destruct (N.eqb_spec c 34); [done|].
      destruct (N.eqb_spec c 123); [done|].
      by destruct (N.eqb_spec c 91). }
    rewrite Hscan. by apply scan_scalar_number.
  - exists 1%nat. simpl in Hwf.
    change (iterencode level (JStr s) ++ rest)
      with ((34 :: flat_map escape_char s ++ [34]) ++ rest).
    simpl. rewrite <- app_assoc. simpl.
    by rewrite (scanstring_encode _ _ Hwf).
  - destruct items as [|x items]; [by exists 1%nat|].
    apply (forallb_Forall well_formed) in Hwf.
    assert (Hread : Forall reads_back (x :: items)).
    { clear -IH Hwf. induction IH as [|y ys Hy _ IHys]; [constructor|].
      apply Forall_cons in Hwf as [Hwfy Hwf].
      constructor; [by apply Hy|by apply IHys]. }
    destruct (JSONArray_items level rest (x :: items) ltac:(done) Hread Hwf)
      as [fuel Hfuel].
    exists (S fuel).
    change (iterencode level (JArr (x :: items)))
      with ([91] ++ newline_indent (S level) ++
            join (44 :: newline_indent (S level))
              (map (iterencode (S level)) (x :: items)) ++
            newline_indent level ++ [93]).
    rewrite <- !app_assoc. change ([91] ++ ?r) with (91 :: r).
    change ([93] ++ rest) with (93 :: rest).
    rewrite scan_once_array, skipws_newline_indent.
    assert (Hhead : exists c t,
              join (44 :: newline_indent (S level))
                (map (iterencode (S level)) (x :: items)) ++
              newline_indent level ++ 93 :: rest = c :: t /\
              is_ws c = false /\ c <> 93).
    { apply Forall_cons in Hwf as [Hwfx _].
      destruct (iterencode_head (S level) x Hwfx)
        as (c & t & Henc & Hws & Hc & _).
      change (map (iterencode (S level)) (x :: items))
        with (iterencode (S level) x :: map (iterencode (S level)) items).
      destruct items as [|y items].
      - simpl join. rewrite Henc. by do 2 eexists.
      - change (map (iterencode (S level)) (y :: items))
          with (iterencode (S level) y :: map (iterencode (S level)) items).
        rewrite join_cons2, Henc. by do 2 eexists. }
    destruct Hhead as (c & t & Htext & Hws & Hc).
    rewrite Htext in *. rewrite skipws_head by done.
    assert (Hmiss : expect 93 (c :: t) = None).
    { simpl. by destruct (N.eqb_spec c 93). }
    by rewrite Hmiss, Hfuel.
  - destruct fields as [|kv fields]; [by exists 1%nat|].
    change (bool_decide (NoDup (map fst (kv :: fields))) &&
            forallb (fun kv => forallb scalar (fst kv) && well_formed (snd kv))
              (kv :: fields) = true) in Hwf.
    apply andb_true_iff in Hwf as [Hnodup Hwf].
    apply bool_decide_eq_true in Hnodup. apply forallb_Forall in Hwf.
    assert (Hwf' : Forall (fun kv => forallb scalar (fst kv) = true /\
                                     well_formed (snd kv) = true)
                     (kv :: fields)).
    { eapply Forall_impl; [exact Hwf|].
      by intros [k x] [? ?]%andb_true_iff. }
    assert (Hread : Forall (fun kv => reads_back (snd kv)) (kv :: fields)).
    { clear -IH Hwf'. induction IH as [|y ys Hy _ IHys]; [constructor|].
      apply Forall_cons in Hwf' as [[_ Hwfy] Hwf'].
      constructor; [by apply Hy|by apply IHys]. }
    destruct (JSONObject_fields level rest (kv :: fields) ltac:(done)
                Hread Hwf') as [fuel Hfuel].
    exists (S fuel).
    change (iterencode level (JObj (kv :: fields)))
      with ([123] ++ newline_indent (S level) ++
            join (44 :: newline_indent (S level))
              (map (fun kv => match kv with
                              | (k, x) =>
                                  encode_basestring_ascii k ++ py ": " ++
                                  iterencode (S level) x
                              end) (kv :: fields)) ++
            newline_indent level ++ [125]).
    rewrite <- !app_assoc. change ([123] ++ ?r) with (123 :: r).
    change ([125] ++ rest) with (125 :: rest).
    rewrite scan_once_object, skipws_newline_indent.
    set (field := fun kv : str * json =>
                    match kv with
                    | (k, x) => encode_basestring_ascii k ++ py ": " ++
                                iterencode (S level) x
                    end) in *.
    assert (Hquote : exists body,
              join (44 :: newline_indent (S level)) (map field (kv :: fields))
              ++ newline_indent level ++ 125 :: rest = 34 :: body).
    { destruct kv as [k x]. destruct fields as [|kv2 fields].
      - change (join (44 :: newline_indent (S level)) (map field [(k, x)]))
          with (encode_basestring_ascii k ++ py ": " ++
                iterencode (S level) x).
        eexists. by rewrite field_text.
      - change (map field ((k, x) :: kv2 :: fields))
          with (field (k, x) :: field kv2 :: map field fields).
        rewrite join_cons2.
        change (field (k, x))
          with (encode_basestring_ascii k ++ py ": " ++
                iterencode (S level) x).
        eexists. rewrite <- !app_assoc.
        rewrite (app_assoc _ _ ((44 :: _) ++ _)), app_assoc, field_text.
        done. }
    destruct Hquote as [body Hbody].
    rewrite Hbody. rewrite skipws_head by done.
    rewrite expect_miss by done. rewrite expect_hit.
    rewrite (Hfuel _ Hbody).
    by rewrite (dict_of_pairs_distinct _ Hnodup).
Qed.

Lemma json_loads_dumps (v : json) :
  well_formed v = true -> json_loads (json_dumps v) = Ok v.
Proof.
  intros Hwf. unfold json_loads, json_dumps.
  destruct (scan_once_iterencode v Hwf 0%nat [] I) as [fuel Hfuel].
  rewrite app_nil_r in Hfuel.
  destruct (iterencode_head 0 v Hwf) as (c & t & Henc & Hws & _ & Hbom).
  rewrite Henc in *. cbn [startswith].
  destruct (N.eqb_spec 65279 c) as [Heq|_]; [congruence|].
  cbn [andb]. rewrite skipws_head by done.
  by rewrite (scan_once_enough _ _ _ _ Hfuel).
Qed.

(** *** Texts that are not JSON *)

Lemma scan_scalar_start (c : N) (t : str) :
  value_start c = false -> scan_scalar (c :: t) = Malformed.
Proof.
  unfold value_start. intros H.
  repeat (apply orb_false_elim in H as [H ?]).
  repeat match goal with
         | E : (_ =? _) = false |- _ => apply N.eqb_neq in E
         end.
  assert (H48 : c <> 48).
  { intros ->. discriminate. }
  unfold scan_scalar.
  change (py "null") with [110; 117; 108; 108].
  change (py "true") with [116; 114; 117; 101].
  change (py "false") with [102; 97; 108; 115; 101].
  change (py "NaN") with [78; 97; 78].
  change (py "Infinity") with [73; 110; 102; 105; 110; 105; 116; 121].
  change (py "-Infinity") with [45; 73; 110; 102; 105; 110; 105; 116; 121].
  cbn [after_prefix].
  rewrite !(proj2 (N.eqb_neq _ c)) by congruence.
  unfold match_number, match_integer. cbn [expect].
  rewrite !(proj2 (N.eqb_neq c _)) by congruence.
  by match goal with E : isdigit c = false |- _ => rewrite E end.
Qed.

Lemma scan_once_start (fuel : nat) (c : N) (t : str) v (r : str) :
  value_start c = false -> scan_once fuel (c :: t) <> Parsed v r.
Proof.
  intros H. destruct fuel as [|fuel]; [done|].
  pose proof (scan_scalar_start c t H) as Hscalar.
  unfold value_start in H.
  repeat (apply orb_false_elim in H as [H ?]).
  cbn [scan_once].
  repeat match goal with
         | E : (c =? ?k) = false |- context [c =? ?k] => rewrite E
         end.
  by rewrite Hscalar.
Qed.

(** A text whose first character after the white space cannot start a JSON
    value, such as the number sign of a Markdown heading, is not JSON. *)
Lemma json_loads_start (s : str) (c : N) (t : str) :
  skipws s = c :: t -> value_start c = false ->
  json_loads s = Raise JSONDecodeError.
Proof.
  intros Hskip Hstart. unfold json_loads.
  destruct (startswith [65279] s); [done|].
  rewrite Hskip.
  destruct (scan_once _ (c :: t)) as [v r| |] eqn:Hscan; try done.
  by apply scan_once_start in Hscan.
Qed.

(** ** The dialogue *)

Lemma is_termination_msg_text (m : Message) :
  is_termination_msg (message_dict m) =
  Ok (endswith (strip (content m)) TERMINATE).
Proof.
  unfold is_termination_msg, message_dict.
  rewrite lookup_singleton_eq. simpl.
  by destruct (content m).
Qed.

Lemma step_running max executor c m :
  status c = Running -> (turnCount c < max)%nat ->
  executor c (acting_agent c) = Some m ->
  step max executor c =
  append_message m
    (if endswith (strip (content m)) TERMINATE
     then TerminatedNormally else Running) c.
Proof.
  intros Hrun Hlt Hm. unfold step. rewrite Hrun.
  destruct (Nat.leb_spec max (turnCount c)); [lia|].
  rewrite Hm, is_termination_msg_text.
  by destruct (endswith _ _).
Qed.

Lemma endswith_strip_TERMINATE (s : str) :
  endswith s TERMINATE = true -> endswith (strip s) TERMINATE = true.
Proof. by apply (strip_keeps_suffix s (py "ERMINAT") 84 69). Qed.

(** C5, as amended.  While the conversation is running and the budget is
    not used up, the step that appends a message decides termination on
    that message: the conversation becomes [TerminatedNormally] exactly
    when the content of the message, stripped of leading and trailing white
    space, ends with TERMINATE, and stays [Running] otherwise.  In
    particular a content that ends with TERMINATE terminates the dialogue
    on that step, and it was running before. *)
Theorem termination_marker_detection max executor c m :
  status c = Running -> (turnCount c < max)%nat ->
  executor c (acting_agent c) = Some m ->
  messages (step max executor c) = messages c ++ [m] /\
  turnCount (step max executor c) = S (turnCount c) /\
  (endswith (content m) TERMINATE = true ->
   status (step max executor c) = TerminatedNormally) /\
  (status (step max executor c) = TerminatedNormally <->
   endswith (strip (content m)) TERMINATE = true) /\
  (endswith (strip (content m)) TERMINATE = false ->
   status (step max executor c) = Running).
Proof.
  intros Hrun Hlt Hm. rewrite (step_running _ _ _ _ Hrun Hlt Hm).
  repeat split; simpl.
  - intros H%endswith_strip_TERMINATE. by rewrite H.
  - by destruct (endswith (strip _) _).
  - by intros ->.
  - by intros ->.
Qed.

Lemma step_budget_invariant max executor c :
  (status c = Running -> (turnCount c <= max)%nat) ->
  (status c = TerminatedByLimit -> turnCount c = max) ->
  length (messages c) = S (turnCount c) ->
  (status (step max executor c) = Running ->
   (turnCount (step max executor c) <= max)%nat) /\
  (status (step max executor c) = TerminatedByLimit ->
   turnCount (step max executor c) = max) /\
  length (messages (step max executor c)) = S (turnCount (step max executor c)).
Proof.
  intros Hrun Hlim Hlen. unfold step.
  destruct (status c) eqn:Hst; rewrite ?Hst; [|by intuition..].
  destruct (Nat.leb_spec max (turnCount c)) as [Hle|Hlt].
  { simpl. specialize (Hrun eq_refl). repeat split; try done; lia. }
  destruct (executor c (acting_agent c)) as [m|]; simpl.
  - destruct (is_termination_msg (message_dict m)) as [[]|]; simpl;
      rewrite ?length_app; simpl; repeat split; try done; lia.
  - repeat split; try done; lia.
Qed.

Lemma run_S max executor n c :
  run max executor (S n) c = step max executor (run max executor n c).
Proof. done. Qed.

Lemma run_budget_invariant max executor subject task n :
  let c := run max executor n (initial subject task) in
  (status c = Running -> (turnCount c <= max)%nat) /\
  (status c = TerminatedByLimit -> turnCount c = max) /\
  length (messages c) = S (turnCount c).
Proof.
  induction n as [|n IH]; simpl.
  - repeat split; try done; lia.
  - destruct IH as (H1 & H2 & H3). fold (run max executor n (initial subject task)).
    by apply step_budget_invariant.
Qed.

(** A dialogue in which nobody gives up and nobody says the marker runs
    into the budget after exactly [max] turns. *)
Lemma run_counts max executor subject task n :
  (forall c a, exists m, executor c a = Some m /\
                         endswith (strip (content m)) TERMINATE = false) ->
  (n <= max)%nat ->
  let c := run max executor n (initial subject task) in
  status c = Running /\ turnCount c = n.
Proof.
  intros Hex. induction n as [|n IH]; intros Hn; [done|].
  assert (Hn' : (n <= max)%nat) by lia.
  specialize (IH Hn'). cbv zeta in IH. destruct IH as [Hst Hcnt].
  cbv zeta. rewrite run_S.
  destruct (Hex (run max executor n (initial subject task))
                (acting_agent (run max executor n (initial subject task))))
    as (m & Hm & Hend).
  assert (Hlt : (turnCount (run max executor n (initial subject task)) < max)%nat)
    by lia.
  rewrite (step_running _ _ _ _ Hst Hlt Hm), Hend. simpl.
  by rewrite Hcnt.
Qed.

Lemma run_reaches_limit max executor subject task :
  (forall c a, exists m, executor c a = Some m /\
                         endswith (strip (content m)) TERMINATE = false) ->
  let c := run max executor (S max) (initial subject task) in
  status c = TerminatedByLimit /\ turnCount c = max.
Proof.
  intros Hex. cbv zeta. rewrite run_S.
  destruct (run_counts max executor subject task max Hex (le_n _)) as [Hst Hcnt].
  unfold step. rewrite Hst.
  destruct (Nat.leb_spec max (turnCount (run max executor max (initial subject task))));
    [done|lia].
Qed.

(** C6.  The turn budget is a parameter of the orchestrator, 10 in the
    source file.  A run that ends in [TerminatedByLimit] has counted
    exactly as many turns as the budget allows and holds the opening
    message and one message for each turn; the state is not [Failed]. *)
Theorem turn_budget_exact max executor subject task n :
  status (run max executor n (initial subject task)) = TerminatedByLimit ->
  turnCount (run max executor n (initial subject task)) = max /\
  length (messages (run max executor n (initial subject task))) = S max /\
  status (run max executor n (initial subject task)) <> Failed /\
  default_max_turns = 10%nat.
Proof.
  intros Hlim.
  destruct (run_budget_invariant max executor subject task n) as (_ & H2 & H3).
  repeat split.
  - by apply H2.
  - rewrite H3. f_equal. by apply H2.
  - by rewrite Hlim.
Qed.

(** ** Report extraction *)

Lemma first_user_content_first_match entries report :
  first_match entries report ->
  first_user_content entries = Ok (JStr report).
Proof.
  intros (before_entries & before & rest & -> & Hmsgs & Hpass & Hrest).
  induction Hmsgs as [|entry [role content] before_entries before Hm _ IH].
  - destruct rest as [|entry rest]; [by rewrite Hrest|].
    destruct Hrest as [(fields & -> & Hrole & Hcontent) Hmark].
    simpl. rewrite Hrole. simpl. rewrite Hcontent. simpl.
    by rewrite Hmark.
  - apply Forall_cons in Hpass as [Hm1 Hpass]. specialize (IH Hpass).
    destruct Hm as (fields & -> & Hrole & Hcontent). simpl in *.
    rewrite Hrole. simpl.
    destruct (bool_decide (role = py "user")) eqn:Huser; simpl; [|done].
    apply bool_decide_eq_true in Huser.
    unfold passed_over in Hm1. simpl in Hm1.
    destruct (Hm1 Huser) as (text & -> & Hmark).
    rewrite Hcontent. simpl. by rewrite Hmark.
Qed.

Lemma filter_user_content_decoded text entries report :
  first_match entries report ->
  json_loads text = Ok (JArr entries) ->
  filter_user_content text = Ok (JStr report).
Proof.
  intros Hfirst Hjson. unfold filter_user_content. rewrite Hjson. simpl.
  by apply first_user_content_first_match.
Qed.

(** C4.  On a transcript, [filter_user_content] returns the text of the
    first message of the user role whose text contains the marker: the
    messages before it are passed over, whatever their role (the tool
    calls, whose content is [None], among them), and what follows it plays
    no part.  When every entry is a message that is passed over, it returns
    the fixed text "No relevant content found." and does not raise.  This
    holds for every text that decodes to the transcript, and so for the
    text that [json.dumps] writes for it. *)
Theorem report_extraction_first_match entries report :
  first_match entries report ->
  (forall text,
     json_loads text = Ok (JArr entries) ->
     filter_user_content text = Ok (JStr report)) /\
  (well_formed (JArr entries) = true ->
   filter_user_content (json_dumps (JArr entries)) = Ok (JStr report)).
Proof.
  intros Hfirst. split.
  - intros text. by apply filter_user_content_decoded.
  - intros Hwf. apply (filter_user_content_decoded _ _ _ Hfirst).
    by apply json_loads_dumps.
Qed.

(** ** The report cache *)

Section Cache.

Variable initiate_chat : list str -> str -> option ChatResult.
Variable writable : str -> bool.
Variable encodable : str -> bool.
Variable unicode_upper : N -> str.

Local Abbreviation upper := (upper unicode_upper).
Local Abbreviation cache_key := (cache_key unicode_upper).
Local Abbreviation analyze :=
  (analyze_company initiate_chat writable encodable unicode_upper).
Local Abbreviation analyze_interleaved :=
  (analyze_company_interleaved initiate_chat writable encodable
     unicode_upper).
Local Abbreviation inner :=
  (initiate_chat_and_save_response initiate_chat writable encodable).

(** With nothing happening in between, the interleaved run is the plain
    one. *)
Lemma analyze_interleaved_alone company w :
  analyze_interleaved (fun w => w) company w = analyze company w.
Proof. done. Qed.

Lemma analyze_falsy company w :
  truthy company = false -> analyze company w = (Ok JNull, w).
Proof. intros H. unfold analyze_company. by rewrite H. Qed.

Lemma analyze_hit company w report :
  truthy company = true ->
  files w !! cache_key company w = Some report ->
  analyze company w = (Ok (JStr (universal_newlines report)), w).
Proof.
  intros Ht Hf. unfold analyze_company, cache_key in *. rewrite Ht.
  unfold mbind, get_current_date, os_path_exists, read_response_from_md, ret.
  rewrite Hf. rewrite bool_decide_true by eauto. cbv beta. by rewrite Hf.
Qed.

Lemma inner_hit company w report :
  files w !! result_filename company (today w) (py ".md") = Some report ->
  inner company w = (Ok (universal_newlines report), w).
Proof.
  intros Hf. unfold initiate_chat_and_save_response.
  unfold mbind, get_current_date, os_path_exists, read_response_from_md.
  rewrite Hf. rewrite bool_decide_true by eauto. cbv beta. by rewrite Hf.
Qed.

Lemma inner_miss company w :
  files w !! result_filename company (today w) (py ".md") = None ->
  inner company w =
  mbind (call_initiate_chat initiate_chat (task_message company (today w)))
    (fun response =>
       mbind (save_response_to_json writable encodable response
                (result_filename company (today w) (py ".json")))
             (fun _ => ret (json_dumps (chat_history response)))) w.
Proof.
  intros Hf. unfold initiate_chat_and_save_response.
  unfold mbind at 1 2, get_current_date, os_path_exists.
  rewrite Hf. rewrite bool_decide_false by (by intros [? ?]).
  by unfold mbind at 1.
Qed.

Lemma analyze_miss company w :
  truthy company = true ->
  files w !! cache_key company w = None ->
  analyze company w =
  mbind (inner (upper company))
    (fun content =>
       mbind (lift (filter_user_content content))
         (fun filtered_content =>
            mbind (save_to_md writable encodable filtered_content
                     (cache_key company w))
                  (fun _ => ret filtered_content))) w.
Proof.
  intros Ht Hf. unfold analyze_company, cache_key in *. rewrite Ht.
  unfold mbind at 1 2, get_current_date, os_path_exists.
  rewrite Hf. by rewrite bool_decide_false by (by intros [? ?]).
Qed.

(** C3.  When a report for the normalised subject and the current date is
    in the cache at the time of the request, the entry point returns it
    (as the file reads) and leaves the state as it was: no call to the
    orchestrator is logged and no file changes, whatever the orchestrator
    would have answered. *)
Theorem cached_report_served company w report :
  truthy company = true ->
  files w !! cache_key company w = Some report ->
  analyze company w = (Ok (JStr (universal_newlines report)), w) /\
  chats (snd (analyze company w)) = chats w /\
  files (snd (analyze company w)) = files w.
Proof.
  intros Ht Hf. by rewrite (analyze_hit _ _ _ Ht Hf).
Qed.

(** C10.  For a subject that is false as a condition (for a string: the
    empty one) the entry point returns [None] and leaves the state as it
    was: no test of the cache, no call, no file. *)
Theorem falsy_subject_ignored company w :
  truthy company = false ->
  company = [] /\ analyze company w = (Ok JNull, w).
Proof.
  intros H. split; [by destruct company|by apply analyze_falsy].
Qed.

Lemma write_file_frame filename text w :
  chats (snd (write_file writable encodable filename text w)) = chats w /\
  today (snd (write_file writable encodable filename text w)) = today w.
Proof.
  unfold write_file. destruct (writable filename); [|done].
  destruct text as [t|e]; [|done]. by destruct (encodable t).
Qed.

(** A request that misses the cache calls the orchestrator exactly once,
    whatever happens next. *)
Lemma analyze_miss_chats company w :
  truthy company = true ->
  files w !! cache_key company w = None ->
  chats (snd (analyze company w)) =
  chats w ++ [task_message (upper company) (today w)].
Proof.
  intros Ht Hf. rewrite (analyze_miss _ _ Ht Hf).
  unfold mbind at 1. rewrite (inner_miss _ _ Hf).
  unfold mbind at 1, call_initiate_chat.
  destruct (initiate_chat _ _) as [response|]; [|done].
  unfold mbind at 1, save_response_to_json.
  pose proof (write_file_frame
    (result_filename (upper company) (today (log_chat (task_message (upper company) (today w)) w)) (py ".json"))
    (Ok (json_dumps (JObj
       [(py "chat_id", chat_id response);
        (py "chat_history", chat_history response);
        (py "summary", summary response); (py "cost", cost response);
        (py "human_input", human_input response)])))
    (log_chat (task_message (upper company) (today w)) w)) as [Hc _].
  simpl today in *.
  destruct (write_file _ _ _ _ _) as [[[]|e] w2]; simpl in Hc; [|done].
  unfold ret, mbind, lift.
  destruct (filter_user_content _) as [filtered|e]; [|done].
  pose proof (write_file_frame (cache_key company w)
                (py_add_str filtered [10]) w2) as [Hc2 _].
  unfold save_to_md, cache_key in *.
  destruct (write_file _ _ _ _ _) as [[[]|e] w3]; simpl in *; congruence.
Qed.

(** What a request that misses the cache and returns has done: the
    value is a string and the cache holds it with a line feed added. *)
Lemma analyze_miss_ok company w v w1 :
  truthy company = true ->
  files w !! cache_key company w = None ->
  analyze company w = (Ok v, w1) ->
  exists report,
    v = JStr report /\
    files w1 !! cache_key company w = Some (report ++ [10]) /\
    today w1 = today w /\
    chats w1 = chats w ++ [task_message (upper company) (today w)].
Proof.
  intros Ht Hf Hrun.
  pose proof (analyze_miss_chats _ _ Ht Hf) as Hchats.
  rewrite Hrun in Hchats. simpl in Hchats.
  rewrite (analyze_miss _ _ Ht Hf) in Hrun. unfold mbind at 1 in Hrun.
  destruct (inner (upper company) w) as [[text|e] w2] eqn:Hinner; [|done].
  assert (Hday : today w2 = today w).
  { rewrite (inner_miss _ _ Hf) in Hinner.
    unfold mbind at 1, call_initiate_chat in Hinner.
    destruct (initiate_chat _ _) as [response|]; [|done].
    unfold mbind at 1, save_response_to_json in Hinner.
    match type of Hinner with
    | context [write_file _ _ ?f ?t ?w0] =>
        pose proof (write_file_frame f t w0) as [_ Hd]
    end.
    destruct (write_file _ _ _ _ _) as [[[]|e] w3]; [|done].
    unfold ret in Hinner. simpl in Hd. congruence. }
  unfold mbind, lift, ret in Hrun.
  destruct (filter_user_content text) as [filtered|e]; [|done].
  unfold save_to_md, write_file in Hrun.
  destruct (writable (cache_key company w)); [|done].
  destruct filtered as [| | |report| |]; simpl in Hrun; try done.
  destruct (encodable (report ++ [10])); [|done].
  injection Hrun as <- <-. exists report. repeat split; try done.
  simpl. apply lookup_insert_eq.
Qed.

(** C1, as amended.  If the first call for a subject returns, a second
    call for the same subject on the same date returns too and leaves the
    state as it is, so that the orchestrator is called at most once by
    the two calls together.  The second call returns what the first
    returned when the first did not call the orchestrator; when the first
    one did, the second returns the text of the cache file, which is the
    first report followed by a line feed (as the file reads). *)
Theorem second_call_served_from_cache company w v w1 :
  analyze company w = (Ok v, w1) ->
  exists v2,
    analyze company w1 = (Ok v2, w1) /\
    (length (chats w1) <= S (length (chats w)))%nat /\
    ((chats w1 = chats w /\ v2 = v) \/
     (exists report,
        v = JStr report /\
        v2 = JStr (universal_newlines (report ++ [10])))).
Proof.
  intros Hrun.
  destruct (truthy company) eqn:Ht.
  2: { rewrite (analyze_falsy _ _ Ht) in Hrun. injection Hrun as <- <-.
       exists JNull. rewrite (analyze_falsy _ _ Ht).
       repeat split; [lia|by left]. }
  destruct (files w !! cache_key company w) as [old|] eqn:Hf.
  { rewrite (analyze_hit _ _ _ Ht Hf) in Hrun. injection Hrun as <- <-.
    exists (JStr (universal_newlines old)).
    rewrite (analyze_hit _ _ _ Ht Hf). repeat split; [lia|by left]. }
  destruct (analyze_miss_ok _ _ _ _ Ht Hf Hrun)
    as (report & -> & Hfile & Hday & Hchats).
  exists (JStr (universal_newlines (report ++ [10]))).
  assert (Hkey : cache_key company w1 = cache_key company w)
    by (unfold cache_key; by rewrite Hday).
  rewrite <- Hkey in Hfile.
  rewrite (analyze_hit _ _ _ Ht Hfile). repeat split.
  - rewrite Hchats, length_app. simpl. lia.
  - right. by exists report.
Qed.

(** C2, as amended.  The write of the cache replaces an entry that
    exists and does not fail for it; what keeps an entry is the test of
    the entry point: a request for a key that has an entry leaves every
    file as it is. *)
Theorem existing_entry_kept_by_entry_point company w old report :
  files w !! cache_key company w = Some old ->
  writable (cache_key company w) = true ->
  encodable (report ++ [10]) = true ->
  snd (analyze company w) = w /\
  save_to_md writable encodable (JStr report) (cache_key company w) w =
    (Ok tt, set_file (cache_key company w) (report ++ [10]) w) /\
  files (set_file (cache_key company w) (report ++ [10]) w)
    !! cache_key company w = Some (report ++ [10]).
Proof.
  intros Hf Hw He. repeat split.
  - destruct (truthy company) eqn:Ht.
    + by rewrite (analyze_hit _ _ _ Ht Hf).
    + by rewrite (analyze_falsy _ _ Ht).
  - unfold save_to_md, write_file. simpl. by rewrite Hw, He.
  - simpl. apply lookup_insert_eq.
Qed.

Lemma upper_char_case_variant a b :
  case_variant a b -> upper_char unicode_upper a = upper_char unicode_upper b.
Proof.
  unfold upper_char.
  intros [->|[[Ha ->]|[Hb ->]]]; [done|..].
  - destruct (N.leb_spec 97 a), (N.leb_spec a 122),
      (N.leb_spec 97 (a + 32)), (N.leb_spec (a + 32) 122),
      (N.ltb_spec a 128); simpl; try lia.
    f_equal. lia.
  - destruct (N.leb_spec 97 b), (N.leb_spec b 122),
      (N.leb_spec 97 (b + 32)), (N.leb_spec (b + 32) 122),
      (N.ltb_spec b 128); simpl; try lia.
    f_equal. lia.
Qed.

Lemma upper_case_variant s1 s2 :
  differ_only_in_case s1 s2 -> upper s1 = upper s2.
Proof.
  induction 1 as [|a b s1 s2 Hab _ IH]; [done|].
  simpl. by rewrite (upper_char_case_variant _ _ Hab), IH.
Qed.

Lemma upper_ascii_map s :
  Forall (fun c => c < 128) s ->
  upper s = map (fun c => if (97 <=? c) && (c <=? 122) then c - 32 else c) s.
Proof.
  induction 1 as [|c s Hc _ IH]; [done|].
  unfold upper in *. simpl. rewrite IH. unfold upper_char.
  destruct ((97 <=? c) && (c <=? 122)); [done|].
  by destruct (N.ltb_spec c 128); [|lia].
Qed.

(** C8.  The entry point works on [company.upper()], not on a case
    folding.  Two subjects that differ only in the case of ASCII letters
    have the same upper-case form and the same cache key, and in the same
    state the two requests do the same: an entry stored under the
    upper-case form serves both, and on a miss the orchestrator is asked
    about the upper-case form.  For a subject of ASCII characters that form
    has each lower-case letter replaced by its capital and the rest kept.
    Whatever the characters, two subjects with the same upper-case form are
    treated alike. *)
Theorem subject_case_insensitive s1 s2 w :
  differ_only_in_case s1 s2 ->
  upper s1 = upper s2 /\
  cache_key s1 w = cache_key s2 w /\
  analyze s1 w = analyze s2 w /\
  (Forall (fun c => c < 128) s1 ->
   upper s2 =
   map (fun c => if (97 <=? c) && (c <=? 122) then c - 32 else c) s1) /\
  (forall report,
     truthy s1 = true ->
     files w !! result_filename (upper s1) (today w) (py ".md")
       = Some report ->
     analyze s2 w = (Ok (JStr (universal_newlines report)), w)) /\
  (truthy s1 = true ->
   files w !! result_filename (upper s1) (today w) (py ".md") = None ->
   chats (snd (analyze s2 w)) =
   chats w ++ [task_message (upper s1) (today w)]) /\
  (forall a b,
     upper a = upper b -> truthy a = truthy b ->
     cache_key a w = cache_key b w /\ analyze a w = analyze b w).
Proof.
  intros H. pose proof (upper_case_variant _ _ H) as Hup.
  assert (Ht : truthy s1 = truthy s2) by (by destruct H).
  assert (Hsame : forall a b,
            upper a = upper b -> truthy a = truthy b ->
            cache_key a w = cache_key b w /\ analyze a w = analyze b w).
  { intros a b Hab Htab. split; [unfold cache_key; by rewrite Hab|].
    unfold analyze_company. by rewrite Hab, Htab. }
  destruct (Hsame _ _ Hup Ht) as [Hkey Hrun].
  repeat split; try done.
  - intros Hascii. rewrite <- Hup. by apply upper_ascii_map.
  - intros report Ht1 Hf. rewrite <- Hrun. by apply analyze_hit.
  - intros Ht1 Hf. rewrite <- Hrun. by apply analyze_miss_chats.
  - by apply Hsame.
  - by apply Hsame.
Qed.

(** What is not JSON makes [filter_user_content] raise. *)
Lemma filter_needs_json text e :
  json_loads text = Raise e -> filter_user_content text = Raise e.
Proof. intros H. unfold filter_user_content. by rewrite H. Qed.

Lemma json_loads_raises text e :
  json_loads text = Raise e -> e = JSONDecodeError.
Proof.
  unfold json_loads. intros H.
  destruct (startswith _ _); [congruence|].
  destruct (scan_once _ _) as [v rest| |]; try congruence.
  destruct (skipws rest); congruence.
Qed.

(** C9.  [filter_user_content] raises on a text that is not JSON.  When
    the cache file appears between the test of the entry point and the
    test of [initiate_chat_and_save_response], the second test returns
    the text of the file; if that text is not JSON, as a report is not,
    the entry point raises the decoding error instead of returning the
    report, without a call to the orchestrator and without a write. *)
Theorem late_cache_hit_raises other company w cached :
  truthy company = true ->
  files w !! cache_key company w = None ->
  today (other w) = today w ->
  files (other w) !! cache_key company w = Some cached ->
  raises (json_loads (universal_newlines cached)) ->
  raises (filter_user_content (universal_newlines cached)) /\
  inner (upper company) (other w) =
    (Ok (universal_newlines cached), other w) /\
  analyze_interleaved other company w = (Raise JSONDecodeError, other w).
Proof.
  intros Ht Hmiss Hday Hhit Hbad.
  destruct (json_loads (universal_newlines cached)) as [|e] eqn:Hjson;
    [done|].
  pose proof (json_loads_raises _ _ Hjson) as ->.
  pose proof (filter_needs_json _ _ Hjson) as Hfilter.
  assert (Hinner : inner (upper company) (other w) =
                   (Ok (universal_newlines cached), other w)).
  { apply inner_hit. by rewrite Hday. }
  repeat split; [by rewrite Hfilter|done|].
  unfold analyze_company_interleaved, cache_key in *. rewrite Ht.
  unfold mbind at 1 2, get_current_date, os_path_exists.
  rewrite Hmiss. rewrite bool_decide_false by (by intros [? ?]).
  unfold mbind at 1. rewrite Hinner.
  unfold mbind at 1, lift. by rewrite Hfilter.
Qed.

(** X21.  A request that misses the cache, on a platform that lets it
    write its two files: the report is the first match of the history the
    orchestrator returns; the transcript file holds the text
    [json.dumps(..., indent=4)] of the dictionary of the five fields of the
    chat result, and the cache the report with a line feed. *)
Lemma fresh_report_is_first_match company w response entries report :
  truthy company = true ->
  files w !! cache_key company w = None ->
  initiate_chat (chats w) (task_message (upper company) (today w))
    = Some response ->
  chat_history response = JArr entries ->
  well_formed (JArr entries) = true ->
  first_match entries report ->
  writable (result_filename (upper company) (today w) (py ".json")) = true ->
  writable (cache_key company w) = true ->
  encodable
    (json_dumps (JObj [ (py "chat_id", chat_id response);
                        (py "chat_history", chat_history response);
                        (py "summary", summary response);
                        (py "cost", cost response);
                        (py "human_input", human_input response) ])) = true ->
  encodable (report ++ [10]) = true ->
  analyze company w =
  (Ok (JStr report),
   set_file (cache_key company w) (report ++ [10])
     (set_file (result_filename (upper company) (today w) (py ".json"))
        (json_dumps (JObj [ (py "chat_id", chat_id response);
                            (py "chat_history", chat_history response);
                            (py "summary", summary response);
                            (py "cost", cost response);
                            (py "human_input", human_input response) ]))
        (log_chat (task_message (upper company) (today w)) w))).
Proof.
  intros Ht Hf Hchat Hhist Hwf Hfirst Hw1 Hw2 He1 He2.
  rewrite (analyze_miss _ _ Ht Hf). unfold mbind at 1.
  rewrite (inner_miss _ _ Hf). unfold mbind at 1, call_initiate_chat.
  rewrite Hchat. unfold mbind at 1, save_response_to_json, write_file.
  simpl today. rewrite Hw1, He1. unfold ret, mbind, lift.
  rewrite Hhist.
  rewrite (filter_user_content_decoded _ _ _ Hfirst (json_loads_dumps _ Hwf)).
  unfold save_to_md, write_file, py_add_str.
  unfold cache_key in *. simpl today. rewrite Hw2, He2. reflexivity.
Qed.

End Cache.

(** ** The properties on the sample data *)

Lemma termination_marker_detection_witness :
  status (initial (py "ACME") (py "task")) = Running /\
  (turnCount (initial (py "ACME") (py "task")) < 10)%nat /\
  status (step 10 (fun _ _ => Some says_terminate_newline)
            (initial (py "ACME") (py "task"))) = TerminatedNormally.
Proof.
  assert (H1 : status (initial (py "ACME") (py "task")) = Running)
    by reflexivity.
  assert (H2 : (turnCount (initial (py "ACME") (py "task")) < 10)%nat)
    by (simpl; lia).
  split; [exact H1|split; [exact H2|]].
  apply (termination_marker_detection 10
           (fun _ _ => Some says_terminate_newline)
           (initial (py "ACME") (py "task")) says_terminate_newline H1 H2
           eq_refl).
  vm_compute. reflexivity.
Defined.

(** A content that does not end with TERMINATE, since a line feed follows
    it, terminates the dialogue all the same. *)
Lemma termination_marker_trailing_newline :
  ~ marker_decides 10 (fun _ _ => Some says_terminate_newline)
      (initial (py "ACME") (py "task")) says_terminate_newline.
Proof.
  intros [_ H]. apply H; vm_compute; reflexivity.
Qed.

Lemma turn_budget_exact_witness :
  status (run default_max_turns chatty 11 (initial (py "ACME") (py "task")))
    = TerminatedByLimit /\
  turnCount (run default_max_turns chatty 11 (initial (py "ACME") (py "task")))
    = 10%nat.
Proof.
  assert (H : status (run default_max_turns chatty 11
                        (initial (py "ACME") (py "task"))) = TerminatedByLimit)
    by (vm_compute; reflexivity).
  split; [exact H|].
  exact (proj1 (turn_budget_exact default_max_turns chatty (py "ACME")
                  (py "task") 11 H)).
Defined.

Lemma cached_report_served_witness :
  truthy (py "acme") = true /\
  files cached_world !! cache_key ascii_upper (py "acme") cached_world
    = Some (py "### old" ++ [10]) /\
  analyze_company failing_chat any_name any_text ascii_upper (py "acme")
    cached_world = (Ok (JStr (py "### old" ++ [10])), cached_world).
Proof.
  assert (H1 : truthy (py "acme") = true) by reflexivity.
  assert (H2 : files cached_world
                 !! cache_key ascii_upper (py "acme") cached_world
               = Some (py "### old" ++ [10])) by (vm_compute; reflexivity).
  split; [exact H1|split; [exact H2|]].
  exact (proj1 (cached_report_served failing_chat any_name any_text
                  ascii_upper (py "acme") cached_world _ H1 H2)).
Defined.

Lemma falsy_subject_ignored_witness :
  truthy [] = false /\
  analyze_company sample_chat any_name any_text ascii_upper [] sample_world
    = (Ok JNull, sample_world).
Proof.
  split; [reflexivity|].
  exact (proj2 (falsy_subject_ignored sample_chat any_name any_text
                  ascii_upper [] sample_world eq_refl)).
Defined.

Lemma second_call_served_from_cache_witness :
  fst (analyze_company sample_chat any_name any_text ascii_upper (py "acme")
         sample_world) = Ok (JStr (py "### ACME: up by 2%")) /\
  fst (analyze_company sample_chat any_name any_text ascii_upper (py "acme")
         (snd (analyze_company sample_chat any_name any_text ascii_upper
                 (py "acme") sample_world)))
    = Ok (JStr (py "### ACME: up by 2%" ++ [10])).
Proof.
  assert (H : analyze_company sample_chat any_name any_text ascii_upper
                (py "acme") sample_world =
              (Ok (JStr (py "### ACME: up by 2%")),
               snd (analyze_company sample_chat any_name any_text ascii_upper
                      (py "acme") sample_world)))
    by (vm_compute; reflexivity).
  split; [by rewrite H|].
  destruct (second_call_served_from_cache sample_chat any_name any_text
              ascii_upper (py "acme") sample_world _ _ H)
    as (v2 & Hsecond & _ & [[Hlog _]|(report & Hv & ->)]).
  - exfalso. vm_compute in Hlog. discriminate Hlog.
  - rewrite Hsecond. injection Hv as <-. reflexivity.
Defined.

(** The second call returns the report with a line feed added; and when the
    orchestrator fails, each of the two calls invokes it. *)
Lemma second_call_differs :
  ~ served_identically sample_chat any_name any_text ascii_upper (py "acme")
      sample_world /\
  ~ served_identically failing_chat any_name any_text ascii_upper (py "acme")
      sample_world.
Proof.
  split.
  - intros [_ H]. vm_compute in H. discriminate H.
  - intros [H _]. vm_compute in H. lia.
Qed.

Lemma existing_entry_kept_by_entry_point_witness :
  files cached_world !! cache_key ascii_upper (py "acme") cached_world
    = Some (py "### old" ++ [10]) /\
  snd (analyze_company sample_chat any_name any_text ascii_upper (py "acme")
         cached_world) = cached_world /\
  fst (save_to_md any_name any_text (JStr (py "### new")) sample_key
         cached_world) = Ok tt.
Proof.
  assert (H : files cached_world
                !! cache_key ascii_upper (py "acme") cached_world
              = Some (py "### old" ++ [10])) by (vm_compute; reflexivity).
  split; [exact H|].
  destruct (existing_entry_kept_by_entry_point sample_chat any_name any_text
              ascii_upper (py "acme") cached_world _ (py "### new") H
              eq_refl eq_refl) as (Hkept & Hsave & _).
  split; [exact Hkept|].
  change sample_key with (cache_key ascii_upper (py "acme") cached_world).
  by rewrite Hsave.
Defined.

(** Writing to a key that has an entry succeeds and replaces the entry. *)
Lemma cache_write_overwrites :
  ~ write_once any_name any_text (JStr (py "### new")) sample_key cached_world.
Proof.
  intros H. destruct H as [Hraises _].
  - exists (py "### old" ++ [10]). vm_compute. reflexivity.
  - vm_compute in Hraises. exact Hraises.
Qed.

Lemma subject_case_insensitive_witness :
  differ_only_in_case (py "Acme") (py "aCME") /\
  cache_key ascii_upper (py "aCME") sample_world
    = py "result_ACME_2024-05-01.md" /\
  analyze_company echo_chat any_name any_text ascii_upper (py "Acme")
    sample_world
  = analyze_company echo_chat any_name any_text ascii_upper (py "aCME")
      sample_world /\
  chats (snd (analyze_company echo_chat any_name any_text ascii_upper
                (py "aCME") sample_world))
    = [task_message (py "ACME") (py "2024-05-01")] /\
  analyze_company failing_chat any_name any_text ascii_upper (py "aCME")
    cached_world
  = (Ok (JStr (py "### old" ++ [10])), cached_world).
Proof.
  assert (H : differ_only_in_case (py "Acme") (py "aCME")).
  { unfold differ_only_in_case, py. simpl.
    repeat (constructor; [unfold case_variant; lia|]).
    constructor. }
  split; [exact H|].
  destruct (subject_case_insensitive echo_chat any_name any_text ascii_upper
              (py "Acme") (py "aCME") sample_world H)
    as (_ & Hkey & Hrun & _ & _ & Hmiss & _).
  destruct (subject_case_insensitive failing_chat any_name any_text
              ascii_upper (py "Acme") (py "aCME") cached_world H)
    as (_ & _ & _ & _ & Hhit & _).
  split; [by rewrite <- Hkey|]. split; [exact Hrun|]. split.
  - exact (Hmiss eq_refl eq_refl).
  - exact (Hhit (py "### old" ++ [10]) eq_refl eq_refl).
Defined.

(** The two spellings of a word with a sharp s fold to the same text, yet
    their upper-case forms differ: the requests use two cache keys and
    return two reports. *)
Lemma sharp_s_subjects_differ :
  same_up_to_case german_fold strasse_lower strasse_upper /\
  ~ case_insensitive echo_chat any_name any_text german_upper german_fold
      strasse_lower strasse_upper sample_world /\
  cache_key german_upper strasse_lower sample_world
    = py "result_STRASSE_2024-05-01.md" /\
  cache_key german_upper strasse_upper sample_world
    = py "result_STRA" ++ [7838] ++ py "E_2024-05-01.md" /\
  fst (analyze_company echo_chat any_name any_text german_upper strasse_lower
         sample_world)
  <> fst (analyze_company echo_chat any_name any_text german_upper
            strasse_upper sample_world).
Proof.
  assert (H : same_up_to_case german_fold strasse_lower strasse_upper)
    by reflexivity.
  split; [exact H|]. split; [|split; [reflexivity|split; [reflexivity|]]].
  - intros Hsame. destruct (Hsame H) as [Hkey _].
    vm_compute in Hkey. discriminate Hkey.
  - intros Heq. vm_compute in Heq. discriminate Heq.
Qed.

Lemma late_cache_hit_raises_witness :
  files sample_world !! sample_key = None /\
  files (other_request sample_world) !! sample_key = Some (NO_CONTENT ++ [10]) /\
  analyze_company_interleaved sample_chat any_name any_text ascii_upper
    other_request (py "acme") sample_world
  = (Raise JSONDecodeError, other_request sample_world).
Proof.
  assert (H1 : files sample_world
                 !! cache_key ascii_upper (py "acme") sample_world = None)
    by (vm_compute; reflexivity).
  assert (H2 : files (other_request sample_world)
                 !! cache_key ascii_upper (py "acme") sample_world
               = Some (NO_CONTENT ++ [10])) by (vm_compute; reflexivity).
  assert (H3 : raises (json_loads (universal_newlines (NO_CONTENT ++ [10]))))
    by (vm_compute; exact I).
  split; [exact H1|split; [exact H2|]].
  exact (proj2 (proj2 (late_cache_hit_raises sample_chat any_name any_text
                         ascii_upper other_request (py "acme") sample_world
                         _ eq_refl H1 eq_refl H2 H3))).
Defined.

Lemma report_extraction_first_match_witness :
  well_formed tool_history = true /\
  filter_user_content (json_dumps tool_history)
    = Ok (JStr (py "### ACME: up by 2%")) /\
  filter_user_content (json_dumps (JArr [JObj [(py "role", JStr (py "tool"))]]))
    = Ok (JStr NO_CONTENT).
Proof.
  assert (H1 : well_formed tool_history = true) by (vm_compute; reflexivity).
  split; [exact H1|]. split.
  - apply (report_extraction_first_match _ (py "### ACME: up by 2%"));
      [|exact H1].
    exists [ JObj [ (py "content", JStr (py "Report in Chinese."));
                    (py "role", JStr (py "assistant")) ];
             JObj [ (py "content", JNull);
                    (py "tool_calls",
                     JArr [ JObj [ (py "id", JStr (py "call_1"));
                                   (py "function",
                                    JObj [ (py "arguments", JStr (py "{}"));
                                           (py "name",
                                            JStr (py "get_company_news")) ]);
                                   (py "type", JStr (py "function")) ] ]);
                    (py "role", JStr (py "assistant")) ];
             JObj [ (py "content", JStr (py "### news of ACME"));
                    (py "role", JStr (py "tool")) ] ],
           [ (py "assistant", Some (py "Report in Chinese."));
             (py "assistant", None);
             (py "tool", Some (py "### news of ACME")) ],
           [ JObj [ (py "content", JStr (py "### ACME: up by 2%"));
                    (py "role", JStr (py "user")) ];
             JObj [ (py "content", JNull);
                    (py "role", JStr (py "user")) ];
             JObj [ (py "content", JStr (py "TERMINATE"));
                    (py "role", JStr (py "user")) ] ].
    split; [reflexivity|]. split; [|split].
    + repeat (constructor;
              [eexists; split;
               [reflexivity|split; [reflexivity|try reflexivity]]|]);
        try constructor.
      intros text H. vm_compute in H. discriminate H.
    + repeat (constructor; [intros H; vm_compute in H; discriminate H|]).
      constructor.
    + split; [|reflexivity].
      eexists. split; [reflexivity|split; reflexivity].
  - apply (report_extraction_first_match _ NO_CONTENT); [|reflexivity].
    exists [JObj [(py "role", JStr (py "tool"))]], [(py "tool", None)], [].
    split; [reflexivity|]. split; [|split; [|reflexivity]].
    + constructor; [|constructor].
      eexists. split; [reflexivity|split; [reflexivity|]].
      intros text H. vm_compute in H. discriminate H.
    + constructor; [|constructor].
      intros H. vm_compute in H. discriminate H.
Defined.

(** * Further properties of the source *)

(** ** The termination test *)

Lemma lstrip_spaces (ws x : str) :
  Forall (fun c => isspace c = true) ws -> lstrip (ws ++ x) = lstrip x.
Proof.
  induction 1 as [|c ws Hc _ IH]; [done|]. simpl. by rewrite Hc.
Qed.

Lemma lstrip_split (s : str) :
  exists l, s = l ++ lstrip s /\ Forall (fun c => isspace c = true) l.
Proof.
  induction s as [|c s (l & Hl & Hws)]; [by exists []|].
  simpl. destruct (isspace c) eqn:Hc.
  - exists (c :: l). split; [by rewrite Hl at 1|by constructor].
  - by exists [].
Qed.

Lemma rstrip_split (s : str) :
  exists r, s = rstrip s ++ r /\ Forall (fun c => isspace c = true) r.
Proof.
  unfold rstrip. destruct (lstrip_split (rev s)) as (l & Hl & Hws).
  exists (rev l). split.
  - rewrite <- rev_app_distr, <- Hl. by rewrite rev_involutive.
  - by apply Forall_rev.
Qed.

(** What [s.strip().endswith("TERMINATE")] accepts: the texts in which only
    white space follows an occurrence of TERMINATE. *)
Lemma endswith_strip_TERMINATE_iff (s : str) :
  endswith (strip s) TERMINATE = true <->
  exists p t, s = p ++ TERMINATE ++ t /\ Forall (fun c => isspace c = true) t.
Proof.
  split.
  - intros [q Hq]%endswith_spec.
    destruct (lstrip_split s) as (l & Hl & _).
    destruct (rstrip_split (lstrip s)) as (r & Hr & Hws).
    fold (strip s) in Hr. exists (l ++ q), r. split; [|done].
    rewrite Hl, Hr, Hq. by rewrite <- !app_assoc.
  - intros (p & t & -> & Hws). apply endswith_spec.
    destruct (lstrip_app_nonspace p (py "ERMINATE" ++ t) 84 eq_refl)
      as [p' Hp'].
    change (p ++ TERMINATE ++ t) with (p ++ 84 :: py "ERMINATE" ++ t).
    unfold strip, rstrip. rewrite Hp'. exists p'.
    change (p' ++ 84 :: py "ERMINATE" ++ t) with (p' ++ TERMINATE ++ t).
    rewrite !rev_app_distr, <- app_assoc.
    rewrite lstrip_spaces by (by apply Forall_rev).
    change (rev TERMINATE ++ rev p') with (69 :: rev (py "TERMINAT") ++ rev p').
    rewrite lstrip_nonspace by done.
    change (69 :: rev (py "TERMINAT") ++ rev p') with (rev TERMINATE ++ rev p').
    by rewrite <- rev_app_distr, rev_involutive.
Qed.

(** X5.  For a message whose content is a string, the termination test
    answers and does not raise, and it answers true exactly when the
    content is some text, then TERMINATE, then nothing but white space. *)
Theorem termination_test_on_text (x : gmap str pyobj) (s : str) :
  x !! py "content" = Some (PyStr s) ->
  (is_termination_msg x = Ok true \/ is_termination_msg x = Ok false) /\
  (is_termination_msg x = Ok true <->
   exists p t, s = p ++ TERMINATE ++ t /\
               Forall (fun c => isspace c = true) t).
Proof.
  intros Hx.
  assert (H : is_termination_msg x = Ok (endswith (strip s) TERMINATE)).
  { unfold is_termination_msg. rewrite Hx. simpl. by destruct s. }
  rewrite H. split.
  - destruct (endswith (strip s) TERMINATE); auto.
  - rewrite <- endswith_strip_TERMINATE_iff. split; [by intros [= ->]|by intros ->].
Qed.

Lemma termination_test_on_text_witness :
  is_termination_msg {[ py "content" := PyStr (py "All done. TERMINATE" ++ [32; 10]) ]}
  = Ok true.
Proof.
  apply (termination_test_on_text _ (py "All done. TERMINATE" ++ [32; 10])).
  - apply lookup_singleton_eq.
  - exists (py "All done. "), [32; 10]. split; [reflexivity|].
    repeat constructor.
Defined.

(** X6.  The termination test raises exactly when the content is an object
    that is not a string and is true (it has no [strip]); a message without
    content, or with a content that is false, never terminates the chat. *)
Theorem termination_test_raises (x : gmap str pyobj) :
  (raises (is_termination_msg x) <-> x !! py "content" = Some (PyOther true)) /\
  (x !! py "content" = None \/ x !! py "content" = Some (PyOther false) \/
   x !! py "content" = Some (PyStr []) ->
   is_termination_msg x = Ok false).
Proof.
  unfold is_termination_msg. split.
  - destruct (x !! py "content") as [[s|[]]|]; simpl.
    + destruct s; simpl; split; done.
    + done.
    + split; done.
    + split; done.
  - by intros [->|[->| ->]].
Qed.

Lemma termination_test_raises_witness :
  is_termination_msg (∅ : gmap str pyobj) = Ok false.
Proof.
  apply (proj2 (termination_test_raises ∅)). left. apply lookup_empty.
Defined.

(** ** The environment and the date *)

(** X1.  [register_keys] writes to each of the three variables the value
    it has just read from it: it leaves the environment as it was, whether
    the keys are set, empty or absent. *)
Theorem register_keys_unchanged (environ : gmap str str) :
  register_keys environ = environ.
Proof.
  assert (H : forall (env : gmap str str) key,
            register_key env (key, os_getenv env key) = env).
  { intros env key. unfold register_key, os_getenv. simpl.
    destruct (env !! key) as [value|] eqn:Hkey; [|done].
    destruct (truthy value); [|done]. by apply insert_id. }
  unfold register_keys. simpl. by rewrite !H.
Qed.

Lemma digit_char_inj (a b : N) : digit_char a = digit_char b -> a = b.
Proof. unfold digit_char. lia. Qed.

Lemma decimal_step (y z : N) :
  y / 10 = z / 10 -> y mod 10 = z mod 10 -> y = z.
Proof.
  intros Hdiv Hmod.
  rewrite (N.div_mod y 10), (N.div_mod z 10) by done. congruence.
Qed.

Lemma format_02_inj (m n : N) :
  m < 100 -> n < 100 -> format_02 m = format_02 n -> m = n.
Proof.
  intros Hm Hn [= H1%digit_char_inj H2%digit_char_inj].
  apply decimal_step; [|done].
  rewrite !N.mod_small in H1 by (apply N.Div0.div_lt_upper_bound; lia).
  done.
Qed.

Lemma format_Y_cases (y : N) :
  y <= 9999 ->
  (y < 10 /\ format_Y y = [digit_char y]) \/
  (10 <= y < 100 /\
   format_Y y = [digit_char (y / 10); digit_char (y mod 10)]) \/
  (100 <= y < 1000 /\
   format_Y y = [digit_char (y / 100); digit_char (y / 10 mod 10);
                 digit_char (y mod 10)]) \/
  (1000 <= y /\
   format_Y y = [digit_char (y / 1000 mod 10); digit_char (y / 100 mod 10);
                 digit_char (y / 10 mod 10); digit_char (y mod 10)]).
Proof.
  intros Hy. unfold format_Y.
  destruct (N.ltb_spec y 10); [by left|].
  destruct (N.ltb_spec y 100); [by right; left|].
  destruct (N.ltb_spec y 1000); [by right; right; left|].
  by right; right; right.
Qed.

Lemma format_Y_inj (y z : N) :
  y <= 9999 -> z <= 9999 -> format_Y y = format_Y z -> y = z.
Proof.
  intros Hy Hz Heq.
  destruct (format_Y_cases y Hy) as [[Hr E]|[[Hr E]|[[Hr E]|[Hr E]]]];
    destruct (format_Y_cases z Hz) as [[Hr' E']|[[Hr' E']|[[Hr' E']|[Hr' E']]]];
    rewrite E, E' in Heq; try discriminate Heq; injection Heq; intros;
    repeat match goal with
           | H : digit_char _ = digit_char _ |- _ => apply digit_char_inj in H
           end.
  - done.
  - by apply decimal_step.
  - apply decimal_step; [|done]. apply decimal_step; [|done].
    rewrite !N.Div0.div_div. exact H1.
  - apply decimal_step; [|done]. apply decimal_step; [|done].
    rewrite !N.Div0.div_div. change (10 * 10) with 100.
    apply decimal_step; [|done].
    rewrite !N.Div0.div_div. change (100 * 10) with 1000.
    rewrite !N.mod_small in H2 by (apply N.Div0.div_lt_upper_bound; lia).
    exact H2.
Qed.

Lemma format_Y_length (y : N) : 1000 <= y -> length (format_Y y) = 4%nat.
Proof.
  intros Hy. unfold format_Y.
  by destruct (N.ltb_spec y 10), (N.ltb_spec y 100), (N.ltb_spec y 1000);
    try lia.
Qed.

(** X2.  On a day of a year of four digits the date is written with ten
    characters, and two different days are never written alike. *)
Theorem strftime_Ymd_width_and_inj (d d' : date) :
  valid_date d -> valid_date d' ->
  (1000 <= year d -> length (strftime_Ymd d) = 10%nat) /\
  (strftime_Ymd d = strftime_Ymd d' -> d = d').
Proof.
  intros (Hy & Hm & Hd) (Hy' & Hm' & Hd'). split.
  - intros H1000. unfold strftime_Ymd.
    rewrite !length_app, format_Y_length by done. done.
  - unfold strftime_Ymd. intros H.
    apply app_inj_2 in H as [HY H]; [|done].
    apply format_Y_inj in HY; [|lia..].
    assert (HM : format_02 (month d) = format_02 (month d'))
      by (unfold format_02; injection H as H1 H2 H3 H4; congruence).
    assert (HD : format_02 (day d) = format_02 (day d'))
      by (unfold format_02; injection H as H1 H2 H3 H4; congruence).
    apply format_02_inj in HM; [|lia..].
    apply format_02_inj in HD; [|lia..].
    destruct d, d'. simpl in *. by subst.
Qed.

Lemma strftime_Ymd_width_and_inj_witness :
  strftime_Ymd (mkDate 2024 5 1) = py "2024-05-01" /\
  length (strftime_Ymd (mkDate 2024 5 1)) = 10%nat.
Proof.
  split; [reflexivity|].
  apply (strftime_Ymd_width_and_inj (mkDate 2024 5 1) (mkDate 2024 5 2));
    unfold valid_date; simpl; lia.
Defined.

(** ** The names of the result files *)

Lemma result_filename_inj (company company' day day' extension : str) :
  length day = length day' ->
  result_filename company day extension =
  result_filename company' day' extension ->
  company = company' /\ day = day'.
Proof.
  unfold result_filename. intros Hlen H.
  apply app_inv_head in H.
  rewrite !(app_assoc company), !(app_assoc company'), !app_assoc in H.
  apply app_inv_tail in H.
  apply app_inj_2 in H as [H ->]; [|done].
  by apply app_inv_tail in H.
Qed.

Lemma result_filename_extension (company company' day day' : str) :
  result_filename company day (py ".md") <>
  result_filename company' day' (py ".json").
Proof.
  unfold result_filename. intros H.
  apply (f_equal (@rev N)) in H.
  rewrite !rev_app_distr in H. by injection H.
Qed.

(** X3.  When the dates are written with the same number of characters, as
    the dates of [get_current_date] are, the name of the result file
    determines the subject and the date: two different pairs never share a
    cache entry.  A cache entry and a transcript never share a file. *)
Theorem result_files_distinct (company company' day day' : str) :
  length day = length day' ->
  (result_filename company day (py ".md") =
   result_filename company' day' (py ".md") ->
   company = company' /\ day = day') /\
  result_filename company day (py ".md") <>
  result_filename company' day' (py ".json").
Proof.
  intros Hlen. split.
  - by apply result_filename_inj.
  - apply result_filename_extension.
Qed.

Lemma result_files_distinct_witness :
  result_filename (py "ACME") (py "2024-05-01") (py ".md") <>
  result_filename (py "ACME_2024") (py "2024-05-02") (py ".json").
Proof.
  apply (result_files_distinct (py "ACME") (py "ACME_2024")
           (py "2024-05-01") (py "2024-05-02")).
  reflexivity.
Defined.

(** ** Reading a cache file *)

Lemma universal_newlines_bounded (n : nat) (s : str) :
  (length s <= n)%nat ->
  (13 ∉ universal_newlines s) /\
  (13 ∉ s -> universal_newlines s = s).
Proof.
  revert s. induction n as [|n IH]; intros [|c s] Hlen; simpl in *;
    try (split; [apply not_elem_of_nil|done]); [lia|].
  destruct (IH s ltac:(lia)) as [IH1 IH2].
  destruct (N.eqb_spec c 13) as [->|Hc].
  - split.
    + apply not_elem_of_cons. split; [done|].
      destruct s as [|d s]; [apply not_elem_of_nil|].
      destruct (d =? 10); [|done].
      apply (IH s). simpl in Hlen. lia.
    + intros Hin. exfalso. apply Hin. by left.
  - split.
    + apply not_elem_of_cons. split; [congruence|done].
    + intros Hin. apply not_elem_of_cons in Hin as [_ Hin].
      by rewrite IH2.
Qed.

(** X4.  The text [read_response_from_md] returns holds no carriage
    return, so reading it through the same translation again changes
    nothing; the read leaves the state as it is, and a file that does not
    exist raises. *)
Theorem read_has_no_carriage_return (filename : str) (w : World) (text : str) :
  fst (read_response_from_md filename w) = Ok text ->
  (13 ∉ text) /\ universal_newlines text = text /\
  snd (read_response_from_md filename w) = w /\
  is_Some (files w !! filename).
Proof.
  unfold read_response_from_md.
  destruct (files w !! filename) as [stored|]; [|done].
  simpl. intros [= <-].
  destruct (universal_newlines_bounded (length stored) stored (le_n _))
    as [Hcr _].
  repeat split; [done| |by eexists].
  by apply (universal_newlines_bounded _ _ (le_n _)).
Qed.

Lemma read_has_no_carriage_return_witness :
  fst (read_response_from_md sample_key
         (mkWorld {[ sample_key := [35; 13; 10; 97; 13; 98] ]} [] []))
    = Ok [35; 10; 97; 10; 98] /\
  13 ∉ [35; 10; 97; 10; 98].
Proof.
  assert (H : fst (read_response_from_md sample_key
                     (mkWorld {[ sample_key := [35; 13; 10; 97; 13; 98] ]}
                        [] []))
              = Ok [35; 10; 97; 10; 98]) by (vm_compute; reflexivity).
  split; [exact H|].
  exact (proj1 (read_has_no_carriage_return _ _ _ H)).
Defined.

(** ** More on [filter_user_content] *)

Lemma first_user_content_result (entries : list json) (v : json) :
  first_user_content entries = Ok v ->
  v = JStr NO_CONTENT \/ py_in MARKER v = Ok true.
Proof.
  induction entries as [|entry entries IH]; simpl.
  - intros [= <-]. by left.
  - destruct (py_getitem entry (py "role")) as [role|]; simpl; [|done].
    destruct (py_eq_str role (py "user")); [|done].
    destruct (py_getitem entry (py "content")) as [content|]; simpl; [|done].
    destruct (py_in MARKER content) as [[]|] eqn:Hin; simpl; try done.
    intros [= <-]. by right.
Qed.

(** X7.  Whatever text it is given, a value [filter_user_content] returns
    is the fixed text "No relevant content found." or something that
    contains the marker; the fixed text does not contain the marker. *)
Theorem filter_result_has_marker (text : str) (v : json) :
  filter_user_content text = Ok v ->
  (v = JStr NO_CONTENT \/ py_in MARKER v = Ok true) /\
  py_in MARKER (JStr NO_CONTENT) = Ok false.
Proof.
  unfold filter_user_content. intros H. split; [|done].
  destruct (json_loads text) as [decoded|]; simpl in H; [|done].
  destruct (py_iter decoded) as [entries|]; simpl in H; [|done].
  by apply (first_user_content_result entries).
Qed.

Lemma filter_result_has_marker_witness :
  filter_user_content (json_dumps sample_history)
    = Ok (JStr (py "### ACME: up by 2%")) /\
  py_in MARKER (JStr (py "### ACME: up by 2%")) = Ok true.
Proof.
  assert (H : filter_user_content (json_dumps sample_history)
              = Ok (JStr (py "### ACME: up by 2%")))
    by (vm_compute; reflexivity).
  split; [exact H|].
  destruct (proj1 (filter_result_has_marker _ _ H)) as [Hno|Hin].
  - discriminate Hno.
  - exact Hin.
Defined.

Lemma first_user_content_app (before rest : list json) :
  (forall e, first_user_content before = Raise e ->
             first_user_content (before ++ rest) = Raise e) /\
  (forall v, first_user_content before = Ok v -> v <> JStr NO_CONTENT ->
             first_user_content (before ++ rest) = Ok v) /\
  (first_user_content before = Ok (JStr NO_CONTENT) ->
   first_user_content (before ++ rest) = first_user_content rest).
Proof.
  induction before as [|entry before (IHe & IHv & IHn)]; simpl.
  - repeat split; try done. by intros v [= <-] Hv.
  - destruct (py_getitem entry (py "role")) as [role|]; simpl;
      [|by repeat split].
    destruct (py_eq_str role (py "user")); [|by repeat split].
    destruct (py_getitem entry (py "content")) as [content|]; simpl;
      [|by repeat split].
    destruct (py_in MARKER content) as [[]|] eqn:Hin; simpl;
      [|by repeat split..].
    repeat split; try done.
    intros [= ->]. discriminate Hin.
Qed.

(** X8.  Filtering a history that is one list of entries followed by
    another: an exception of the first part is the result; a match in the
    first part is the result, whatever the second part holds; and when the
    first part gives the fixed text, the result is that of the second
    part. *)
Theorem filter_of_concatenation (text1 text2 text : str)
    (before rest : list json) :
  json_loads text1 = Ok (JArr before) ->
  json_loads text2 = Ok (JArr rest) ->
  json_loads text = Ok (JArr (before ++ rest)) ->
  (forall e, filter_user_content text1 = Raise e ->
             filter_user_content text = Raise e) /\
  (forall v, filter_user_content text1 = Ok v -> v <> JStr NO_CONTENT ->
             filter_user_content text = Ok v) /\
  (filter_user_content text1 = Ok (JStr NO_CONTENT) ->
   filter_user_content text = filter_user_content text2).
Proof.
  intros H1 H2 H. unfold filter_user_content. rewrite H1, H2, H. simpl.
  apply first_user_content_app.
Qed.

Lemma filter_of_concatenation_witness :
  filter_user_content
    (json_dumps (JArr [JObj [(py "role", JStr (py "user"));
                             (py "content", JStr (py "### up"))];
                       JNum (py "7")]))
  = Ok (JStr (py "### up")).
Proof.
  apply (filter_of_concatenation
           (json_dumps (JArr [JObj [(py "role", JStr (py "user"));
                                    (py "content", JStr (py "### up"))]]))
           (py "[7]")
           (json_dumps (JArr [JObj [(py "role", JStr (py "user"));
                                    (py "content", JStr (py "### up"))];
                              JNum (py "7")]))
           [JObj [(py "role", JStr (py "user"));
                  (py "content", JStr (py "### up"))]]
           [JNum (py "7")]);
    try (vm_compute; reflexivity).
  discriminate.
Defined.

(** X9.  When the text decodes to something that is not a list: an empty
    dictionary and an empty string give the fixed text, and everything
    else ([None], a boolean, a number, a dictionary with a key, a string
    with a character) raises [TypeError]. *)
Theorem filter_of_non_list (text : str) (v : json) :
  json_loads text = Ok v ->
  (forall items, v <> JArr items) ->
  (v = JObj [] \/ v = JStr [] ->
   filter_user_content text = Ok (JStr NO_CONTENT)) /\
  (v <> JObj [] -> v <> JStr [] ->
   filter_user_content text = Raise TypeError).
Proof.
  intros Hjson Hlist. unfold filter_user_content. rewrite Hjson. simpl.
  split.
  - by intros [->| ->].
  - intros Hobj Hstr.
    destruct v as [|b|l|[|c s]|items|[|[k x] fields]]; try done.
    by destruct (Hlist items).
Qed.

Lemma filter_of_non_list_witness :
  filter_user_content (py "{}") = Ok (JStr NO_CONTENT) /\
  filter_user_content (py "null") = Raise TypeError.
Proof.
  split.
  - apply (filter_of_non_list (py "{}") (JObj []));
      [vm_compute; reflexivity|discriminate|by left].
  - apply (filter_of_non_list (py "null") JNull);
      [vm_compute; reflexivity|discriminate..].
Defined.

(** X10.  Entries whose role is not the string "user" are passed over
    without a look at their content: a history of dictionaries that all
    have such a role gives the fixed text, whether their content is a
    text, [None], or missing. *)
Theorem filter_skips_other_roles (text : str) (entries : list json) :
  json_loads text = Ok (JArr entries) ->
  Forall (fun entry => exists fields role,
            entry = JObj fields /\
            dict_get fields (py "role") = Some role /\
            role <> JStr (py "user")) entries ->
  filter_user_content text = Ok (JStr NO_CONTENT).
Proof.
  intros Hjson Hroles. unfold filter_user_content. rewrite Hjson. simpl.
  clear Hjson.
  induction Hroles as [|entry entries (fields & role & -> & Hrole & Hne) _ IH];
    [done|].
  simpl. rewrite Hrole. simpl.
  assert (Heq : py_eq_str role (py "user") = false).
  { destruct role as [| | |t| |]; try done. simpl.
    apply bool_decide_eq_false. congruence. }
  by rewrite Heq.
Qed.

Lemma filter_skips_other_roles_witness :
  filter_user_content
    (json_dumps (JArr [JObj [(py "content", JNull);
                             (py "role", JStr (py "assistant"))];
                       JObj [(py "role", JStr (py "tool"))]]))
  = Ok (JStr NO_CONTENT).
Proof.
  apply (filter_skips_other_roles _
           [JObj [(py "content", JNull); (py "role", JStr (py "assistant"))];
            JObj [(py "role", JStr (py "tool"))]]).
  - vm_compute. reflexivity.
  - repeat (constructor;
            [do 2 eexists; split; [reflexivity|split; [reflexivity|discriminate]]|]).
    constructor.
Defined.

(** ** More on the report cache *)

Section CachePaths.

Variable initiate_chat : list str -> str -> option ChatResult.
Variable writable : str -> bool.
Variable encodable : str -> bool.
Variable unicode_upper : N -> str.

Local Abbreviation upper := (upper unicode_upper).
Local Abbreviation cache_key := (cache_key unicode_upper).
Local Abbreviation analyze :=
  (analyze_company initiate_chat writable encodable unicode_upper).
Local Abbreviation inner :=
  (initiate_chat_and_save_response initiate_chat writable encodable).
Local Abbreviation save_json := (save_response_to_json writable encodable).
Local Abbreviation save_md := (save_to_md writable encodable).

(** The run of a request that misses the cache, step by step. *)
Lemma analyze_miss_steps company w :
  truthy company = true ->
  files w !! cache_key company w = None ->
  analyze company w =
  match initiate_chat (chats w) (task_message (upper company) (today w)) with
  | None =>
      (Raise ChatFailure, log_chat (task_message (upper company) (today w)) w)
  | Some response =>
      match save_json response
              (result_filename (upper company) (today w) (py ".json"))
              (log_chat (task_message (upper company) (today w)) w) with
      | (Raise e, w2) => (Raise e, w2)
      | (Ok _, w2) =>
          match filter_user_content (json_dumps (chat_history response)) with
          | Raise e => (Raise e, w2)
          | Ok filtered_content =>
              match save_md filtered_content (cache_key company w) w2 with
              | (Raise e, w3) => (Raise e, w3)
              | (Ok _, w3) => (Ok filtered_content, w3)
              end
          end
      end
  end.
Proof.
  intros Ht Hf.
  rewrite (analyze_miss initiate_chat writable encodable unicode_upper
             _ _ Ht Hf).
  unfold mbind at 1.
  rewrite (inner_miss initiate_chat writable encodable _ _ Hf).
  unfold mbind at 1, call_initiate_chat.
  destruct (initiate_chat _ _) as [response|]; [|done].
  unfold mbind at 1. simpl today.
  destruct (save_response_to_json _ _ _ _ _) as [[[]|e] w2]; [|done].
  unfold ret, mbind, lift.
  destruct (filter_user_content _) as [filtered|e]; [|done].
  by destruct (save_to_md _ _ _ _ _) as [[[]|e] w3].
Qed.

Lemma inner_miss_steps company w :
  files w !! result_filename company (today w) (py ".md") = None ->
  inner company w =
  match initiate_chat (chats w) (task_message company (today w)) with
  | None => (Raise ChatFailure, log_chat (task_message company (today w)) w)
  | Some response =>
      match save_json response
              (result_filename company (today w) (py ".json"))
              (log_chat (task_message company (today w)) w) with
      | (Raise e, w2) => (Raise e, w2)
      | (Ok _, w2) => (Ok (json_dumps (chat_history response)), w2)
      end
  end.
Proof.
  intros Hf. rewrite (inner_miss initiate_chat writable encodable _ _ Hf).
  unfold mbind at 1, call_initiate_chat.
  destruct (initiate_chat _ _) as [response|]; [|done].
  unfold mbind at 1. simpl today.
  by destruct (save_response_to_json _ _ _ _ _) as [[[]|e] w2].
Qed.

Lemma write_file_other filename text w name :
  name <> filename ->
  files (snd (write_file writable encodable filename text w)) !! name
  = files w !! name.
Proof.
  intros Hne. unfold write_file. destruct (writable filename); [|done].
  destruct text as [t|e]; [destruct (encodable t)|]; simpl;
    by rewrite lookup_insert_ne.
Qed.

Lemma write_file_world filename text w :
  today (snd (write_file writable encodable filename text w)) = today w /\
  chats (snd (write_file writable encodable filename text w)) = chats w.
Proof.
  unfold write_file. destruct (writable filename); [|done].
  destruct text as [t|e]; [destruct (encodable t)|]; done.
Qed.

(** X11.  [initiate_chat_and_save_response] changes no file but the
    transcript of the subject and the date: in particular it never writes
    the cache entry it tests for.  It leaves the date as it is and calls
    the orchestrator at most once. *)
Theorem inner_touches_transcript_only company w :
  (forall name,
     name <> result_filename company (today w) (py ".json") ->
     files (snd (inner company w)) !! name = files w !! name) /\
  files (snd (inner company w)) !! result_filename company (today w) (py ".md")
    = files w !! result_filename company (today w) (py ".md") /\
  today (snd (inner company w)) = today w /\
  (chats (snd (inner company w)) = chats w \/
   chats (snd (inner company w)) =
     chats w ++ [task_message company (today w)]).
Proof.
  assert (H : (forall name,
                 name <> result_filename company (today w) (py ".json") ->
                 files (snd (inner company w)) !! name = files w !! name) /\
              today (snd (inner company w)) = today w /\
              (chats (snd (inner company w)) = chats w \/
               chats (snd (inner company w)) =
                 chats w ++ [task_message company (today w)])).
  { destruct (files w !! result_filename company (today w) (py ".md"))
      as [cached|] eqn:Hf.
    - rewrite (inner_hit initiate_chat writable encodable _ _ _ Hf).
      repeat split; auto.
    - rewrite (inner_miss_steps _ _ Hf).
      destruct (initiate_chat _ _) as [response|]; [|repeat split; auto].
      unfold save_response_to_json.
      match goal with
      | |- context [write_file _ _ ?f ?t ?w0] =>
          pose proof (write_file_other f t w0) as Hother;
          pose proof (write_file_world f t w0) as [Hday Hlog]
      end.
      destruct (write_file _ _ _ _ _) as [[[]|e] w2]; simpl in *;
        repeat split; auto. }
  destruct H as (Hother & Hday & Hlog). repeat split; try done.
  apply Hother, result_filename_extension.
Qed.

(** What a request leaves as it was: the files of other names, the date,
    and the log of calls but for one entry at most. *)
Lemma analyze_frame company w :
  (forall name,
     name <> cache_key company w ->
     name <> result_filename (upper company) (today w) (py ".json") ->
     files (snd (analyze company w)) !! name = files w !! name) /\
  today (snd (analyze company w)) = today w /\
  (chats (snd (analyze company w)) = chats w \/
   chats (snd (analyze company w)) =
     chats w ++ [task_message (upper company) (today w)]).
Proof.
  destruct (truthy company) eqn:Ht.
  2: { rewrite (analyze_falsy initiate_chat writable encodable unicode_upper
                  _ _ Ht). repeat split; auto. }
  destruct (files w !! cache_key company w) as [cached|] eqn:Hf.
  { rewrite (analyze_hit initiate_chat writable encodable unicode_upper
               _ _ _ Ht Hf). repeat split; auto. }
  rewrite (analyze_miss_steps _ _ Ht Hf).
  destruct (initiate_chat _ _) as [response|]; [|repeat split; auto].
  unfold save_response_to_json.
  match goal with
  | |- context [write_file _ _ ?f ?t ?w0] =>
      pose proof (write_file_other f t w0) as Hother;
      pose proof (write_file_world f t w0) as [Hday Hlog]
  end.
  destruct (write_file _ _ _ _ _) as [[[]|e] w2]; simpl in *;
    [|repeat split; auto].
  destruct (filter_user_content _) as [filtered|e]; [|repeat split; auto].
  unfold save_to_md.
  pose proof (write_file_other (cache_key company w)
                (py_add_str filtered [10]) w2) as Hother2.
  pose proof (write_file_world (cache_key company w)
                (py_add_str filtered [10]) w2) as [Hday2 Hlog2].
  destruct (write_file _ _ _ _ _) as [[[]|e] w3]; simpl in *;
    (repeat split; [intros name Hn1 Hn2; rewrite Hother2 by done; auto
                   |congruence
                   |right; congruence]).
Qed.

(** X12.  A request changes no file but the cache entry and the transcript
    of its subject and date; it leaves the date as it is and calls the
    orchestrator at most once. *)
Theorem analyze_touches_two_files company w :
  (forall name,
     name <> cache_key company w ->
     name <> result_filename (upper company) (today w) (py ".json") ->
     files (snd (analyze company w)) !! name = files w !! name) /\
  today (snd (analyze company w)) = today w /\
  (chats (snd (analyze company w)) = chats w \/
   chats (snd (analyze company w)) =
     chats w ++ [task_message (upper company) (today w)]).
Proof. exact (analyze_frame company w). Qed.

(** X13.  What a request returns is [None], for the empty subject and
    only for it, or a string: a match that is not a string is never
    returned, since writing it to the cache raises first. *)
Theorem analyze_returns_text company w v w1 :
  analyze_company initiate_chat writable encodable unicode_upper company w
    = (Ok v, w1) ->
  (v = JNull /\ company = []) \/
  (exists report, v = JStr report /\ company <> []).
Proof.
  intros Hrun. destruct (truthy company) eqn:Ht.
  2: { rewrite (analyze_falsy initiate_chat writable encodable unicode_upper
                  _ _ Ht) in Hrun.
       left. split; [congruence|by destruct company]. }
  right.
  assert (Hne : company <> []) by (by destruct company).
  destruct (files w !! cache_key company w) as [cached|] eqn:Hf.
  - rewrite (analyze_hit initiate_chat writable encodable unicode_upper
               _ _ _ Ht Hf) in Hrun.
    injection Hrun as <- _. by eexists.
  - destruct (analyze_miss_ok initiate_chat writable encodable unicode_upper
                _ _ _ _ Ht Hf Hrun) as (report & -> & _).
    by exists report.
Qed.

End CachePaths.

Lemma analyze_returns_text_witness :
  fst (analyze_company sample_chat any_name any_text ascii_upper (py "acme")
         sample_world) = Ok (JStr (py "### ACME: up by 2%")).
Proof.
  assert (H : analyze_company sample_chat any_name any_text ascii_upper
                (py "acme") sample_world =
              (Ok (JStr (py "### ACME: up by 2%")),
               snd (analyze_company sample_chat any_name any_text ascii_upper
                      (py "acme") sample_world)))
    by (vm_compute; reflexivity).
  destruct (analyze_returns_text sample_chat any_name any_text ascii_upper
              (py "acme") sample_world _ _ H) as [[Hnull _]|(report & Hv & _)].
  - discriminate Hnull.
  - by rewrite H.
Defined.

Lemma inner_touches_transcript_only_witness :
  files (snd (initiate_chat_and_save_response sample_chat any_name any_text
                (py "ACME") sample_world)) !! sample_key = None.
Proof.
  exact (proj1 (proj2 (inner_touches_transcript_only sample_chat any_name
                         any_text (py "ACME") sample_world))).
Defined.

Lemma analyze_touches_two_files_witness :
  today (snd (analyze_company sample_chat any_name any_text ascii_upper
                (py "acme") sample_world)) = py "2024-05-01".
Proof.
  exact (proj1 (proj2 (analyze_touches_two_files sample_chat any_name any_text
                         ascii_upper (py "acme") sample_world))).
Defined.

Lemma open_error_OSError (name : str) :
  open_error name = OSError <->
  Forall (fun c => c <> 0 /\ unencodable_surrogate c = false) name.
Proof.
  unfold open_error.
  destruct (existsb unencodable_surrogate name) eqn:Hs.
  { split; [done|]. intros Hall.
    apply existsb_exists in Hs as (c & Hc & Hbad).
    rewrite Forall_forall in Hall.
    destruct (Hall c) as [_ Hgood]; [by apply list_elem_of_In|congruence]. }
  destruct (existsb (N.eqb 0) name) eqn:Hz.
  { split; [done|]. intros Hall.
    apply existsb_exists in Hz as (c & Hc & Hzero).
    apply N.eqb_eq in Hzero as <-.
    rewrite Forall_forall in Hall.
    destruct (Hall 0) as [Hne _]; [by apply list_elem_of_In|done]. }
  split; [intros _|done].
  rewrite Forall_forall. intros c Hc. apply list_elem_of_In in Hc. split.
  - intros ->.
    assert (existsb (N.eqb 0) name = true); [|congruence].
    apply existsb_exists. by exists 0.
  - destruct (unencodable_surrogate c) eqn:Hbad; [|done].
    assert (existsb unencodable_surrogate name = true); [|congruence].
    apply existsb_exists. by exists c.
Qed.

(** Upper case of ASCII texts *)
Lemma upper_ascii_twice (unicode_upper : N -> str) (s : str) :
  Forall (fun c => c < 128) s ->
  upper unicode_upper (upper unicode_upper s) = upper unicode_upper s.
Proof.
  intros Hascii. induction Hascii as [|c s Hc _ IH]; [done|].
  unfold upper in *. simpl. unfold upper_char at 2.
  destruct (N.leb_spec 97 c), (N.leb_spec c 122), (N.ltb_spec c 128);
    simpl; try lia; rewrite IH; f_equal; unfold upper_char;
    repeat match goal with
           | |- context [?a <=? ?b] => destruct (N.leb_spec a b)
           | |- context [?a <? ?b] => destruct (N.ltb_spec a b)
           end; simpl; try lia; done.
Qed.

Lemma truthy_upper_ascii (unicode_upper : N -> str) (s : str) :
  Forall (fun c => c < 128) s ->
  truthy (upper unicode_upper s) = truthy s.
Proof.
  intros Hascii. destruct Hascii as [|c s Hc _]; [done|].
  unfold upper. simpl. unfold upper_char.
  by destruct (N.leb_spec 97 c), (N.leb_spec c 122), (N.ltb_spec c 128);
    simpl; try lia.
Qed.

Section CacheEdges.

Variable initiate_chat : list str -> str -> option ChatResult.
Variable writable : str -> bool.
Variable encodable : str -> bool.
Variable unicode_upper : N -> str.

Local Abbreviation upper := (upper unicode_upper).
Local Abbreviation cache_key := (cache_key unicode_upper).
Local Abbreviation analyze :=
  (analyze_company initiate_chat writable encodable unicode_upper).
Local Abbreviation save_json := (save_response_to_json writable encodable).
Local Abbreviation save_md := (save_to_md writable encodable).

(** X14.  [save_to_md] then [read_response_from_md]: when the file can be
    written and the text encoded, the read returns the content with a line
    feed added, each CR LF and CR turned into LF; for a content without
    carriage return that is the content and the line feed. *)
Theorem saved_report_read_back content filename w :
  writable filename = true ->
  encodable (content ++ [10]) = true ->
  fst (save_md (JStr content) filename w) = Ok tt /\
  fst (read_response_from_md filename
         (snd (save_md (JStr content) filename w)))
    = Ok (universal_newlines (content ++ [10])) /\
  (13 ∉ content ->
   fst (read_response_from_md filename
          (snd (save_md (JStr content) filename w)))
     = Ok (content ++ [10])).
Proof.
  intros Hw He.
  assert (Hsave : save_md (JStr content) filename w =
                  (Ok tt, set_file filename (content ++ [10]) w)).
  { unfold save_to_md, write_file. simpl. by rewrite Hw, He. }
  rewrite Hsave. simpl. unfold read_response_from_md. simpl.
  rewrite lookup_insert_eq. simpl. repeat split.
  intros Hcr. f_equal.
  apply (universal_newlines_bounded _ _ (le_n _)).
  rewrite elem_of_app, list_elem_of_singleton. intros [?|?]; [done|lia].
Qed.

(** X15.  A request that misses the cache and raises, and yet leaves a
    cache file behind, has left it empty: the write of the report failed
    after the file was opened (a match that is not a string, a text the
    locale cannot encode).  The next request for the subject then returns
    the empty string from the cache, with no call to the orchestrator. *)
Theorem failed_write_leaves_empty_entry company w e w1 :
  truthy company = true ->
  files w !! cache_key company w = None ->
  analyze company w = (Raise e, w1) ->
  is_Some (files w1 !! cache_key company w) ->
  files w1 !! cache_key company w = Some [] /\
  analyze company w1 = (Ok (JStr []), w1).
Proof.
  intros Ht Hf Hrun Hsome.
  assert (Hday : today w1 = today w).
  { pose proof (analyze_frame initiate_chat writable encodable
                  unicode_upper company w) as (_ & Hd & _).
    by rewrite Hrun in Hd. }
  assert (Hempty : files w1 !! cache_key company w = Some []).
  { rewrite (analyze_miss_steps initiate_chat writable encodable unicode_upper
               _ _ Ht Hf) in Hrun.
    destruct (initiate_chat _ _) as [response|].
    2: { injection Hrun as _ <-. simpl in Hsome. rewrite Hf in Hsome.
         by destruct Hsome. }
    unfold save_response_to_json in Hrun.
    match type of Hrun with
    | context [write_file _ _ ?f ?t ?w0] =>
        pose proof (write_file_other writable encodable f t w0
                      (cache_key company w)
                      (result_filename_extension _ _ _ _)) as Hother
    end.
    destruct (write_file _ _ _ _ _) as [[[]|e2] w2]; simpl in Hother.
    2: { injection Hrun as _ <-. rewrite Hother in Hsome. simpl in Hsome.
         rewrite Hf in Hsome. by destruct Hsome. }
    assert (Hf2 : files w2 !! cache_key company w = None)
      by (by rewrite Hother).
    destruct (filter_user_content _) as [filtered|e3].
    2: { injection Hrun as _ <-. rewrite Hf2 in Hsome. by destruct Hsome. }
    unfold save_to_md, write_file in Hrun.
    destruct (writable (cache_key company w)).
    2: { injection Hrun as _ <-. rewrite Hf2 in Hsome. by destruct Hsome. }
    destruct (py_add_str filtered [10]) as [t|e4].
    - destruct (encodable t); [done|].
      injection Hrun as _ <-. simpl. apply lookup_insert_eq.
    - injection Hrun as _ <-. simpl. apply lookup_insert_eq. }
  split; [done|].
  assert (Hkey : cache_key company w1 = cache_key company w)
    by (unfold cache_key; by rewrite Hday).
  rewrite <- Hkey in Hempty.
  by rewrite (analyze_hit initiate_chat writable encodable unicode_upper
                _ _ _ Ht Hempty).
Qed.



(** X16.  When the transcript file cannot be opened, a request that
    misses the cache raises the exception of the failed [open] after the
    orchestrator has answered: nothing is stored, and the same request
    calls the orchestrator again.  The exception is [OSError] exactly when
    the name of the file holds neither U+0000 nor a surrogate that cannot
    be encoded; with U+0000 in the subject it is [ValueError]. *)
Theorem unwritable_transcript_never_cached company w response :
  truthy company = true ->
  files w !! cache_key company w = None ->
  initiate_chat (chats w) (task_message (upper company) (today w))
    = Some response ->
  writable (result_filename (upper company) (today w) (py ".json")) = false ->
  analyze company w =
    (Raise (open_error
              (result_filename (upper company) (today w) (py ".json"))),
     log_chat (task_message (upper company) (today w)) w) /\
  files (snd (analyze company w)) = files w /\
  chats (snd (analyze company (snd (analyze company w)))) =
    chats w ++ [task_message (upper company) (today w);
                task_message (upper company) (today w)] /\
  (open_error (result_filename (upper company) (today w) (py ".json"))
     = OSError <->
   Forall (fun c => c <> 0 /\ unencodable_surrogate c = false)
     (result_filename (upper company) (today w) (py ".json"))) /\
  (0 ∈ upper company ->
   open_error (result_filename (upper company) (today w) (py ".json"))
     <> OSError).
Proof.
  intros Ht Hf Hchat Hw.
  assert (Hrun : analyze company w =
            (Raise (open_error
                      (result_filename (upper company) (today w)
                         (py ".json"))),
             log_chat (task_message (upper company) (today w)) w)).
  { rewrite (analyze_miss_steps initiate_chat writable encodable unicode_upper
               _ _ Ht Hf), Hchat.
    unfold save_response_to_json, write_file. simpl today. by rewrite Hw. }
  pose proof (open_error_OSError
                (result_filename (upper company) (today w) (py ".json")))
    as Hos.
  split; [done|]. rewrite Hrun. simpl snd. repeat split.
  - rewrite (analyze_miss_chats initiate_chat writable encodable unicode_upper
               _ _ Ht) by done.
    simpl. by rewrite <- app_assoc.
  - apply Hos.
  - apply Hos.
  - intros Hzero Herr. apply Hos in Herr.
    rewrite Forall_forall in Herr.
    destruct (Herr 0) as [Hne _]; [|done].
    unfold result_filename. rewrite !elem_of_app. auto.
Qed.

(** X17.  The cache is kept by the day: after a request has returned, the
    same subject asked on another date, for which no entry existed, calls
    the orchestrator; the entry of the first date is not served. *)
Theorem cache_is_per_day company w v w1 day' :
  truthy company = true ->
  analyze company w = (Ok v, w1) ->
  day' <> today w ->
  files w !! result_filename (upper company) day' (py ".md") = None ->
  chats (snd (analyze company (mkWorld (files w1) day' (chats w1)))) =
  chats w1 ++ [task_message (upper company) day'].
Proof.
  intros Ht Hrun Hday Hf.
  pose proof (analyze_frame initiate_chat writable encodable
                unicode_upper company w) as (Hother & _).
  rewrite Hrun in Hother. simpl in Hother.
  rewrite (analyze_miss_chats initiate_chat writable encodable unicode_upper
             _ _ Ht); [done|].
  unfold cache_key. simpl.
  rewrite Hother; [done| |apply result_filename_extension].
  unfold cache_key, result_filename. intros Heq.
  apply app_inv_head, app_inv_head, app_inv_head, app_inv_tail in Heq.
  done.
Qed.

(** X18.  Normalising twice is normalising once: for a subject of ASCII
    characters the upper-case form is its own upper-case form, and the
    request for the upper-case form is the request for the subject. *)
Theorem normalised_subject_is_fixed company w :
  Forall (fun c => c < 128) company ->
  upper (upper company) = upper company /\
  analyze (upper company) w = analyze company w.
Proof.
  intros Hascii.
  pose proof (upper_ascii_twice unicode_upper _ Hascii) as Hup.
  split; [done|].
  unfold analyze_company.
  by rewrite Hup, (truthy_upper_ascii unicode_upper _ Hascii).
Qed.

(** X19.  The transcript file can be loaded again.  When the five fields
    of the chat result are made of [None], booleans, finite numbers (the
    token counts and the costs among them), strings of Unicode scalar
    values, lists and dictionaries with distinct keys, and the file is
    written, the file holds the text [json.dumps] writes for the dictionary
    of the five fields; [json.loads] of that text gives the dictionary
    back, and the history and the cost are found in it under their
    keys. *)
Theorem saved_transcript_loads response filename w :
  let response_dict :=
    JObj [ (py "chat_id", chat_id response);
           (py "chat_history", chat_history response);
           (py "summary", summary response);
           (py "cost", cost response);
           (py "human_input", human_input response) ] in
  writable filename = true ->
  encodable (json_dumps response_dict) = true ->
  well_formed (chat_id response) = true ->
  well_formed (chat_history response) = true ->
  well_formed (summary response) = true ->
  well_formed (cost response) = true ->
  well_formed (human_input response) = true ->
  save_json response filename w
    = (Ok tt, set_file filename (json_dumps response_dict) w) /\
  files (snd (save_json response filename w)) !! filename
    = Some (json_dumps response_dict) /\
  json_loads (json_dumps response_dict) = Ok response_dict /\
  (let? decoded := json_loads (json_dumps response_dict) in
   py_getitem decoded (py "chat_history")) = Ok (chat_history response) /\
  (let? decoded := json_loads (json_dumps response_dict) in
   py_getitem decoded (py "cost")) = Ok (cost response).
Proof.
  intros response_dict Hw He H1 H2 H3 H4 H5.
  assert (Hsave : save_json response filename w
                  = (Ok tt, set_file filename (json_dumps response_dict) w)).
  { unfold save_response_to_json, write_file. fold response_dict.
    by rewrite Hw, He. }
  assert (Hloads : json_loads (json_dumps response_dict) = Ok response_dict).
  { apply json_loads_dumps.
    change (bool_decide (NoDup [py "chat_id"; py "chat_history"; py "summary";
                                py "cost"; py "human_input"]) &&
            (true && well_formed (chat_id response) &&
             (true && well_formed (chat_history response) &&
              (true && well_formed (summary response) &&
               (true && well_formed (cost response) &&
                (true && well_formed (human_input response) && true)))))
            = true).
    rewrite H1, H2, H3, H4, H5. reflexivity. }
  rewrite Hsave, Hloads. simpl. rewrite lookup_insert_eq. done.
Qed.

End CacheEdges.

(** ** The transcript is written in ASCII *)

Lemma isascii_Forall (s : str) :
  isascii s = true <-> Forall (fun c => c < 128) s.
Proof.
  unfold isascii. induction s as [|c s IH]; simpl.
  - split; [constructor|done].
  - rewrite andb_true_iff, N.ltb_lt, IH, Forall_cons. done.
Qed.

Lemma hexdigit_ascii (n : N) : hexdigit (n mod 16) < 128.
Proof.
  pose proof (N.mod_upper_bound n 16 ltac:(done)).
  unfold hexdigit. destruct (N.ltb_spec (n mod 16) 10); lia.
Qed.

Lemma escape_u_ascii (n : N) : Forall (fun c => c < 128) (escape_u n).
Proof.
  unfold escape_u.
  repeat constructor; try done; apply hexdigit_ascii.
Qed.

Lemma escape_char_ascii (c : N) : Forall (fun c => c < 128) (escape_char c).
Proof.
  unfold escape_char.
  repeat match goal with
         | |- context [if ?a =? ?b then _ else _] =>
             destruct (N.eqb_spec a b); [by repeat constructor|]
         end.
  assert (Hu : Forall (fun c => c < 128)
                 (if c <? 65536 then escape_u c
                  else let v := c - 65536 in
                       escape_u (N.lor 55296 (N.land (N.shiftr v 10) 1023)) ++
                       escape_u (N.lor 56320 (N.land v 1023)))).
  { destruct (c <? 65536); [apply escape_u_ascii|].
    apply Forall_app; split; apply escape_u_ascii. }
  destruct (N.leb_spec 32 c), (N.leb_spec c 126); cbn [andb]; try exact Hu.
  constructor; [lia|constructor].
Qed.

Lemma encode_basestring_ascii_ascii (s : str) :
  Forall (fun c => c < 128) (encode_basestring_ascii s).
Proof.
  unfold encode_basestring_ascii.
  apply Forall_app; split; [by repeat constructor|].
  apply Forall_app; split; [|by repeat constructor].
  induction s as [|c s IH]; simpl; [constructor|].
  apply Forall_app; split; [apply escape_char_ascii|done].
Qed.

Lemma newline_indent_ascii (level : nat) :
  Forall (fun c => c < 128) (newline_indent level).
Proof.
  unfold newline_indent. constructor; [done|].
  induction (4 * level)%nat; simpl; by constructor.
Qed.

Lemma join_ascii (sep : str) (parts : list str) :
  Forall (fun c => c < 128) sep ->
  Forall (Forall (fun c => c < 128)) parts ->
  Forall (fun c => c < 128) (join sep parts).
Proof.
  intros Hsep Hparts.
  induction Hparts as [|p ps Hp _ IH]; simpl; [constructor|].
  destruct ps as [|q ps]; [done|].
  apply Forall_app; split; [done|]. by apply Forall_app.
Qed.

Lemma iterencode_ascii (v : json) :
  ascii_numbers v = true ->
  forall level, Forall (fun c => c < 128) (iterencode level v).
Proof.
  induction v as [|b|l|s|items IH|fields IH] using json_nested_ind;
    intros Hnum level.
  - by repeat constructor.
  - destruct b; by repeat constructor.
  - by apply isascii_Forall.
  - apply encode_basestring_ascii_ascii.
  - destruct items as [|x items]; [by repeat constructor|].
    apply (forallb_Forall ascii_numbers) in Hnum.
    change (iterencode level (JArr (x :: items)))
      with ([91] ++ newline_indent (S level) ++
            join (44 :: newline_indent (S level))
              (map (iterencode (S level)) (x :: items)) ++
            newline_indent level ++ [93]).
    repeat (apply Forall_app; split);
      try apply newline_indent_ascii; try (by repeat constructor).
    apply join_ascii; [constructor; [done|apply newline_indent_ascii]|].
    apply Forall_map.
    clear -IH Hnum. induction IH as [|y ys Hy _ IHys]; [constructor|].
    apply Forall_cons in Hnum as [Hy' Hnum].
    constructor; [by apply Hy|by apply IHys].
  - destruct fields as [|kv fields]; [by repeat constructor|].
    change (forallb (fun kv => ascii_numbers (snd kv)) (kv :: fields) = true)
      in Hnum.
    apply forallb_Forall in Hnum.
    change (iterencode level (JObj (kv :: fields)))
      with ([123] ++ newline_indent (S level) ++
            join (44 :: newline_indent (S level))
              (map (fun kv => match kv with
                              | (k, x) =>
                                  encode_basestring_ascii k ++ py ": " ++
                                  iterencode (S level) x
                              end) (kv :: fields)) ++
            newline_indent level ++ [125]).
    repeat (apply Forall_app; split);
      try apply newline_indent_ascii; try (by repeat constructor).
    apply join_ascii; [constructor; [done|apply newline_indent_ascii]|].
    apply Forall_map.
    clear -IH Hnum. induction IH as [|[k y] ys Hy _ IHys]; [constructor|].
    apply Forall_cons in Hnum as [Hy' Hnum].
    constructor; [|by apply IHys].
    apply Forall_app; split; [apply encode_basestring_ascii_ascii|].
    apply Forall_app; split; [by repeat constructor|by apply Hy].
Qed.

(** X20.  The transcript is written in ASCII, whatever characters the
    chat holds: [json.dumps] escapes the others.  So on a platform whose
    encoding covers ASCII the write of the transcript can fail only when
    the file is opened, with the exception of that [open] and the state
    unchanged: it never leaves an empty transcript behind.  The report,
    written as it is, has no such guarantee. *)
Theorem transcript_is_ascii
    (writable encodable : str -> bool) response filename w :
  (forall text, isascii text = true -> encodable text = true) ->
  ascii_numbers (chat_id response) = true ->
  ascii_numbers (chat_history response) = true ->
  ascii_numbers (summary response) = true ->
  ascii_numbers (cost response) = true ->
  ascii_numbers (human_input response) = true ->
  let text :=
    json_dumps (JObj [ (py "chat_id", chat_id response);
                       (py "chat_history", chat_history response);
                       (py "summary", summary response);
                       (py "cost", cost response);
                       (py "human_input", human_input response) ]) in
  isascii text = true /\
  save_response_to_json writable encodable response filename w =
    if writable filename then (Ok tt, set_file filename text w)
    else (Raise (open_error filename), w).
Proof.
  intros He H1 H2 H3 H4 H5 text.
  assert (Hascii : isascii text = true).
  { apply isascii_Forall, iterencode_ascii.
    simpl. by rewrite H1, H2, H3, H4, H5. }
  split; [done|].
  unfold save_response_to_json, write_file. fold text.
  destruct (writable filename); [|done].
  by rewrite (He _ Hascii).
Qed.

(** ** The further properties on the sample data *)

Lemma saved_report_read_back_witness :
  fst (read_response_from_md sample_key
         (snd (save_to_md any_name any_text (JStr (py "### ACME: up by 2%"))
                 sample_key sample_world)))
  = Ok (py "### ACME: up by 2%" ++ [10]).
Proof.
  refine (proj2 (proj2 (saved_report_read_back any_name any_text
                          (py "### ACME: up by 2%") sample_key sample_world
                          _ _)) _).
  - reflexivity.
  - reflexivity.
  - refine (bool_decide_unpack _ _). vm_compute. exact I.
Defined.

Lemma failed_write_leaves_empty_entry_witness :
  fst (analyze_company unicode_chat any_name isascii ascii_upper (py "acme")
         sample_world) = Raise UnicodeEncodeError /\
  fst (analyze_company unicode_chat any_name isascii ascii_upper (py "acme")
         (snd (analyze_company unicode_chat any_name isascii ascii_upper
                 (py "acme") sample_world))) = Ok (JStr []).
Proof.
  assert (Hrun : analyze_company unicode_chat any_name isascii ascii_upper
                   (py "acme") sample_world =
                 (Raise UnicodeEncodeError,
                  snd (analyze_company unicode_chat any_name isascii
                         ascii_upper (py "acme") sample_world)))
    by (vm_compute; reflexivity).
  split; [by rewrite Hrun|].
  assert (Hsome : is_Some
            (files (snd (analyze_company unicode_chat any_name isascii
                           ascii_upper (py "acme") sample_world))
               !! cache_key ascii_upper (py "acme") sample_world))
    by (exists []; vm_compute; reflexivity).
  destruct (failed_write_leaves_empty_entry unicode_chat any_name isascii
              ascii_upper (py "acme") sample_world _ _
              eq_refl eq_refl Hrun Hsome) as [_ Hnext].
  by rewrite Hnext.
Defined.

Lemma unwritable_transcript_never_cached_witness :
  analyze_company sample_chat read_only any_text ascii_upper (py "acme")
    sample_world
  = (Raise OSError,
     log_chat (task_message (py "ACME") (py "2024-05-01")) sample_world) /\
  fst (analyze_company sample_chat read_only any_text ascii_upper [97; 0; 98]
         sample_world)
  = Raise ValueError.
Proof.
  split.
  - exact (proj1 (unwritable_transcript_never_cached sample_chat read_only
                    any_text ascii_upper (py "acme") sample_world _
                    eq_refl eq_refl eq_refl eq_refl)).
  - by rewrite (proj1 (unwritable_transcript_never_cached sample_chat
                         read_only any_text ascii_upper [97; 0; 98]
                         sample_world _ eq_refl eq_refl eq_refl eq_refl)).
Defined.

Lemma cache_is_per_day_witness :
  length (chats (snd (analyze_company sample_chat any_name any_text
                        ascii_upper (py "acme")
                        (mkWorld
                           (files (snd (analyze_company sample_chat any_name
                                          any_text ascii_upper (py "acme")
                                          sample_world)))
                           (py "2024-05-02")
                           (chats (snd (analyze_company sample_chat any_name
                                          any_text ascii_upper (py "acme")
                                          sample_world)))))))
  = 2%nat.
Proof.
  assert (Hrun : analyze_company sample_chat any_name any_text ascii_upper
                   (py "acme") sample_world =
                 (Ok (JStr (py "### ACME: up by 2%")),
                  snd (analyze_company sample_chat any_name any_text
                         ascii_upper (py "acme") sample_world)))
    by (vm_compute; reflexivity).
  rewrite (cache_is_per_day sample_chat any_name any_text ascii_upper
             (py "acme") sample_world _ _ (py "2024-05-02") eq_refl Hrun).
  - rewrite length_app. vm_compute. reflexivity.
  - vm_compute. discriminate.
  - reflexivity.
Defined.

Lemma normalised_subject_is_fixed_witness :
  analyze_company sample_chat any_name any_text ascii_upper (py "ACME")
    sample_world
  = analyze_company sample_chat any_name any_text ascii_upper (py "acme")
      sample_world.
Proof.
  refine (proj2 (normalised_subject_is_fixed sample_chat any_name any_text
                   ascii_upper (py "acme") sample_world _)).
  unfold py. simpl. repeat constructor.
Defined.

Lemma saved_transcript_loads_witness :
  well_formed (cost tool_response) = true /\
  (let? decoded :=
     json_loads
       (json_dumps
          (JObj [ (py "chat_id", chat_id tool_response);
                  (py "chat_history", chat_history tool_response);
                  (py "summary", summary tool_response);
                  (py "cost", cost tool_response);
                  (py "human_input", human_input tool_response) ])) in
   py_getitem decoded (py "cost"))
  = Ok (JObj [ (py "usage_including_cached_inference",
                JObj [ (py "total_cost", JNum (py "0.0125"));
                       (py "gpt-4o",
                        JObj [ (py "cost", JNum (py "0.0125"));
                               (py "prompt_tokens", JNum (py "1520"));
                               (py "completion_tokens", JNum (py "310"));
                               (py "total_tokens", JNum (py "1830")) ]) ]) ]).
Proof.
  split; [reflexivity|].
  exact (proj2 (proj2 (proj2 (proj2
           (saved_transcript_loads any_name any_text tool_response
              (py "result_ACME_2024-05-01.json") sample_world
              eq_refl eq_refl eq_refl eq_refl eq_refl eq_refl eq_refl))))).
Defined.

Lemma transcript_is_ascii_witness :
  isascii (py "### ACME " ++ [8593; 128200]) = false /\
  (exists text,
     isascii text = true /\
     save_response_to_json any_name isascii unicode_response
       (py "result_ACME_2024-05-01.json") sample_world
     = (Ok tt,
        set_file (py "result_ACME_2024-05-01.json") text sample_world)) /\
  save_response_to_json read_only isascii unicode_response [97; 0; 98]
    sample_world
  = (Raise ValueError, sample_world).
Proof.
  split; [reflexivity|]. split.
  - destruct (transcript_is_ascii any_name isascii unicode_response
                (py "result_ACME_2024-05-01.json") sample_world
                (fun _ H => H) eq_refl eq_refl eq_refl eq_refl eq_refl)
      as [Hascii Hsave].
    eexists. split; [exact Hascii|exact Hsave].
  - exact (proj2 (transcript_is_ascii read_only isascii unicode_response
                    [97; 0; 98] sample_world
                    (fun _ H => H) eq_refl eq_refl eq_refl eq_refl eq_refl)).
Defined.

Lemma fresh_report_is_first_match_witness :
  analyze_company tool_chat any_name any_text ascii_upper (py "acme")
    sample_world
  = (Ok (JStr (py "### ACME: up by 2%")),
     set_file sample_key (py "### ACME: up by 2%" ++ [10])
       (set_file (py "result_ACME_2024-05-01.json")
          (json_dumps
             (JObj [ (py "chat_id", chat_id tool_response);
                     (py "chat_history", chat_history tool_response);
                     (py "summary", summary tool_response);
                     (py "cost", cost tool_response);
                     (py "human_input", human_input tool_response) ]))
          (log_chat (task_message (py "ACME") (py "2024-05-01"))
             sample_world))).
Proof.
  refine (fresh_report_is_first_match tool_chat any_name any_text
            ascii_upper (py "acme") sample_world tool_response _
            (py "### ACME: up by 2%")
            eq_refl eq_refl eq_refl eq_refl _ _
            eq_refl eq_refl eq_refl eq_refl).
  - vm_compute. reflexivity.
  - exists [ JObj [ (py "content", JStr (py "Report in Chinese."));
                    (py "role", JStr (py "assistant")) ];
             JObj [ (py "content", JNull);
                    (py "tool_calls",
                     JArr [ JObj [ (py "id", JStr (py "call_1"));
                                   (py "function",
                                    JObj [ (py "arguments", JStr (py "{}"));
                                           (py "name",
                                            JStr (py "get_company_news")) ]);
                                   (py "type", JStr (py "function")) ] ]);
                    (py "role", JStr (py "assistant")) ];
             JObj [ (py "content", JStr (py "### news of ACME"));
                    (py "role", JStr (py "tool")) ] ],
           [ (py "assistant", Some (py "Report in Chinese."));
             (py "assistant", None);
             (py "tool", Some (py "### news of ACME")) ],
           [ JObj [ (py "content", JStr (py "### ACME: up by 2%"));
                    (py "role", JStr (py "user")) ];
             JObj [ (py "content", JNull);
                    (py "role", JStr (py "user")) ];
             JObj [ (py "content", JStr (py "TERMINATE"));
                    (py "role", JStr (py "user")) ] ].
    split; [reflexivity|]. split; [|split].
    + repeat (constructor;
              [eexists; split;
               [reflexivity|split; [reflexivity|try reflexivity]]|]);
        try constructor.
      intros text H. vm_compute in H. discriminate H.
    + repeat (constructor; [intros H; vm_compute in H; discriminate H|]).
      constructor.
    + split; [|reflexivity].
      eexists. split; [reflexivity|split; reflexivity].
Defined.


